(** * zhiqiao C4: content collection, snapshots and the merged view

    A shallow embedding of the collection pipeline
    (content_model.py, config_manager.py, base_collector.py,
    youtube_collector.py, podcast_collector.py, news_collector.py,
    collector_manager.py, data_storage.py) and of the read side
    (app.py), followed by the properties proved about them.

    Conventions.
    - A Python [str] is a [string], one [ascii] per character.
    - A Python exception is a value of [exn]; code that can raise
      returns [Exc A]; [try ... except Exception] is [catch].
    - Python objects declared by a dataclass are records; the JSON
      documents read back by app.py are records whose optional keys are
      [option] fields.
    - Third-party calls (BeautifulSoup, dateutil, feedparser, the clock)
      are arguments of the functions that use them. *)

From Stdlib Require Import ZArith List String Ascii Bool Lia Arith Permutation Sorted.
From stdpp Require Import base gmap sets strings.
Import ListNotations.

Local Open Scope Z_scope.

(* ===================================================================== *)
(** * Python built-ins used by the source                                 *)
(* ===================================================================== *)

Module Py.

Inductive exn : Type :=
| ValueError (msg : string)
| TypeError (msg : string)
| AttributeError (msg : string)
| KeyError (msg : string)
| OtherError (msg : string).

(** [str(e)] *)
Definition str_of_exn (e : exn) : string :=
  match e with
  | ValueError m | TypeError m | AttributeError m | KeyError m
  | OtherError m => m
  end.

Inductive Exc (A : Type) : Type :=
| Ok (a : A)
| Raise (e : exn).
Arguments Ok {A} a.
Arguments Raise {A} e.

Definition bind {A B} (c : Exc A) (k : A -> Exc B) : Exc B :=
  match c with
  | Ok a => k a
  | Raise e => Raise e
  end.

(** [try: c  except Exception as e: h e] *)
Definition catch {A} (c : Exc A) (h : exn -> Exc A) : Exc A :=
  match c with
  | Ok a => Ok a
  | Raise e => h e
  end.

(** [str.isspace] on one character (ASCII range). *)
Definition isspace (c : ascii) : bool :=
  let n := nat_of_ascii c in
  ((9 <=? n) && (n <=? 13) || (28 <=? n) && (n <=? 32))%nat.

Fixpoint lstrip (s : string) : string :=
  match s with
  | EmptyString => EmptyString
  | String c s' => if isspace c then lstrip s' else s
  end.

Fixpoint rstrip (s : string) : string :=
  match s with
  | EmptyString => EmptyString
  | String c s' =>
      match rstrip s' with
      | EmptyString => if isspace c then EmptyString else String c EmptyString
      | r => String c r
      end
  end.

(** [s.strip()] *)
Definition strip (s : string) : string := rstrip (lstrip s).

(** [s.startswith(p)] *)
Definition startswith (s p : string) : bool := String.prefix p s.

(** [s.startswith((p1, p2, ...))] *)
Definition startswith_any (s : string) (ps : list string) : bool :=
  existsb (startswith s) ps.

(** truth value of a [str] *)
Definition truthy_str (s : string) : bool :=
  match s with EmptyString => false | _ => true end.

(** [s[:n]] for a non-negative constant [n] *)
Fixpoint str_take (n : nat) (s : string) : string :=
  match n, s with
  | O, _ => EmptyString
  | S n', String c s' => String c (str_take n' s')
  | S _, EmptyString => EmptyString
  end.

(** [l[:n]]: a negative bound counts from the end of the list. *)
Definition slice_to {A} (l : list A) (n : Z) : list A :=
  if 0 <=? n then firstn (Z.to_nat n) l
  else firstn (length l - Z.to_nat (- n)) l.

(** [len(l)] *)
Definition len {A} (l : list A) : Z := Z.of_nat (length l).

End Py.
Import Py.

Notation "'let*' x ':=' c 'in' k" := (Py.bind c (fun x => k))
  (at level 10, x name, c at level 100, k at level 200).

(* ===================================================================== *)
(** * datetime: naive timestamps and their ISO-8601 text                   *)
(* ===================================================================== *)

Module Datetime.

Record datetime : Type := mkDatetime {
  year : Z; month : Z; day : Z;
  hour : Z; minute : Z; second : Z; microsecond : Z
}.

Definition is_leap (y : Z) : bool :=
  ((y mod 4 =? 0) && negb (y mod 100 =? 0)) || (y mod 400 =? 0).

Definition days_in_month (y m : Z) : Z :=
  if m =? 2 then (if is_leap y then 29 else 28)
  else if (m =? 4) || (m =? 6) || (m =? 9) || (m =? 11) then 30
  else 31.

(** The ranges the [datetime] constructor enforces. *)
Definition dt_ok (d : datetime) : bool :=
  (1 <=? year d) && (year d <=? 9999) &&
  (1 <=? month d) && (month d <=? 12) &&
  (1 <=? day d) && (day d <=? days_in_month (year d) (month d)) &&
  (0 <=? hour d) && (hour d <? 24) &&
  (0 <=? minute d) && (minute d <? 60) &&
  (0 <=? second d) && (second d <? 60) &&
  (0 <=? microsecond d) && (microsecond d <? 1000000).

Definition digit_char (n : Z) : ascii := ascii_of_nat (Z.to_nat (48 + n)).

Definition digit_val (c : ascii) : option Z :=
  let n := Z.of_nat (nat_of_ascii c) in
  if (48 <=? n) && (n <=? 57) then Some (n - 48) else None.

(** [k] decimal digits of [n], zero padded (the [%0kd] of isoformat). *)
Fixpoint fmt_digits (k : nat) (n : Z) : string :=
  match k with
  | O => EmptyString
  | S k' => String (digit_char ((n / 10 ^ Z.of_nat k') mod 10))
                   (fmt_digits k' (n mod 10 ^ Z.of_nat k'))
  end.

Fixpoint read_digits (k : nat) (s : string) (acc : Z) : option (Z * string) :=
  match k with
  | O => Some (acc, s)
  | S k' =>
      match s with
      | String c s' =>
          match digit_val c with
          | Some d => read_digits k' s' (10 * acc + d)
          | None => None
          end
      | EmptyString => None
      end
  end.

Definition expect (c : ascii) (s : string) : option string :=
  match s with
  | String c' s' => if Ascii.eqb c c' then Some s' else None
  | EmptyString => None
  end.

(** [d.isoformat()]: YYYY-MM-DDTHH:MM:SS, with .ffffff appended when the
    microsecond is not zero. *)
Definition isoformat (d : datetime) : string :=
  let fraction :=
    if microsecond d =? 0 then EmptyString
    else String "." (fmt_digits 6 (microsecond d)) in
  (fmt_digits 4 (year d) ++ String "-"
  (fmt_digits 2 (month d) ++ String "-"
  (fmt_digits 2 (day d) ++ String "T"
  (fmt_digits 2 (hour d) ++ String ":"
  (fmt_digits 2 (minute d) ++ String ":"
  (fmt_digits 2 (second d) ++ fraction))))))%string.

Definition opt_bind {A B} (o : option A) (k : A -> option B) : option B :=
  match o with Some a => k a | None => None end.

Definition parse_fraction (s : string) : option Z :=
  match s with
  | EmptyString => Some 0
  | String "." s' =>
      opt_bind (read_digits 6 s' 0) (fun '(us, rest) =>
        match rest with EmptyString => Some us | _ => None end)
  | _ => None
  end.

Definition parse_iso (s : string) : option datetime :=
  opt_bind (read_digits 4 s 0) (fun '(y, s) =>
  opt_bind (expect "-" s) (fun s =>
  opt_bind (read_digits 2 s 0) (fun '(mo, s) =>
  opt_bind (expect "-" s) (fun s =>
  opt_bind (read_digits 2 s 0) (fun '(dd, s) =>
  opt_bind (expect "T" s) (fun s =>
  opt_bind (read_digits 2 s 0) (fun '(h, s) =>
  opt_bind (expect ":" s) (fun s =>
  opt_bind (read_digits 2 s 0) (fun '(mi, s) =>
  opt_bind (expect ":" s) (fun s =>
  opt_bind (read_digits 2 s 0) (fun '(se, s) =>
  opt_bind (parse_fraction s) (fun us =>
    Some (mkDatetime y mo dd h mi se us))))))))))))).

(** [datetime.fromisoformat(s)] on the two shapes [isoformat] emits for
    a naive timestamp; any other text, and any field out of range, is a
    ValueError. *)
Definition fromisoformat (s : string) : Exc datetime :=
  match parse_iso s with
  | Some d =>
      if dt_ok d then Ok d
      else Raise (ValueError (String.append "Invalid isoformat string: " s))
  | None => Raise (ValueError (String.append "Invalid isoformat string: " s))
  end.

End Datetime.
Import Datetime.

(* ===================================================================== *)
(** * config_manager.py: CategoryType and Author                          *)
(* ===================================================================== *)

Module Config.

Inductive CategoryType : Type := PODCAST | VIDEO | NEWS.

(** [category.value] *)
Definition value (c : CategoryType) : string :=
  match c with
  | PODCAST => "Podcast"
  | VIDEO => "Video"
  | NEWS => "News"
  end.

(** [CategoryType(s)]: lookup by value. *)
Definition CategoryType_of (s : string) : Exc CategoryType :=
  if String.eqb s "Podcast" then Ok PODCAST
  else if String.eqb s "Video" then Ok VIDEO
  else if String.eqb s "News" then Ok NEWS
  else Raise (ValueError (String.append "'" (String.append s "' is not a valid CategoryType"))).

Record Author : Type := mkAuthor {
  name : string;
  url : string;
  category : CategoryType;
  enabled : bool
}.

(** [ConfigManager.get_enabled_authors] *)
Definition get_enabled_authors (authors : list Author) : list Author :=
  List.filter enabled authors.

End Config.
Import Config.

(* ===================================================================== *)
(** * content_model.py: ContentItem and CollectionResult                  *)
(* ===================================================================== *)

Module ContentItem.

(** The dataclass fields, in declaration order.  [C] is the type of
    [category]: the generated [__init__] accepts an enum member or a
    [str], and [__post_init__] leaves an enum member in place. *)
Record obj (C : Type) : Type := mk {
  title : string;
  url : string;
  author_name : string;
  author_url : string;
  category : C;
  description : string;
  publish_date : option datetime;
  thumbnail_url : option string;
  cover_image_url : option string;
  images : list string;
  duration : option string;
  views : option Z;
  tags : list string;
  collected_at : datetime;
  content_id : option string
}.
Arguments mk {C}.
Arguments title {C}. Arguments url {C}. Arguments author_name {C}.
Arguments author_url {C}. Arguments category {C}. Arguments description {C}.
Arguments publish_date {C}. Arguments thumbnail_url {C}.
Arguments cover_image_url {C}. Arguments images {C}. Arguments duration {C}.
Arguments views {C}. Arguments tags {C}. Arguments collected_at {C}.
Arguments content_id {C}.

(** A constructed ContentItem. *)
Definition t : Type := obj CategoryType.

(** The fields as [__init__] stores them, before [__post_init__]. *)
Definition args : Type := obj (CategoryType + string).

Definition with_category {C D} (a : obj C) (c : D) : obj D :=
  mk (title a) (url a) (author_name a) (author_url a) c (description a)
     (publish_date a) (thumbnail_url a) (cover_image_url a) (images a)
     (duration a) (views a) (tags a) (collected_at a) (content_id a).

Definition title_error : exn := ValueError "标题不能为空".
Definition url_error (u : string) : exn :=
  ValueError (String.append "无效的内容URL: " u).
Definition author_name_error : exn := ValueError "作者名称不能为空".

(** [not s or not s.strip()] *)
Definition blank (s : string) : bool :=
  negb (truthy_str s) || negb (truthy_str (strip s)).

(** [not url or not url.startswith(("http://", "https://"))] *)
Definition bad_url (u : string) : bool :=
  negb (truthy_str u) || negb (startswith_any u ["http://"; "https://"]%string).

(** [__post_init__] *)
Definition __post_init__ (a : args) : Exc t :=
  if blank (title a) then Raise title_error
  else if bad_url (url a) then Raise (url_error (url a))
  else if blank (author_name a) then Raise author_name_error
  else
    let* c := match category a with
              | inl c => Ok c
              | inr s => CategoryType_of s
              end in
    Ok (with_category a c).

(** [ContentItem(...)]: the generated [__init__] followed by
    [__post_init__]. *)
Definition new (a : args) : Exc t := __post_init__ a.

(** [is_today], given today's date from the clock. *)
Definition is_today (today : Z * Z * Z) (x : t) : bool :=
  match publish_date x with
  | None => false
  | Some d =>
      let '(y, m, dd) := today in
      (year d =? y) && (month d =? m) && (day d =? dd)
  end.

End ContentItem.

(** Python values that occur in the mappings of [to_dict] and in keyword
    arguments. *)
#[local] Unset Elimination Schemes.
Inductive pyval : Type :=
| VNone
| VBool (b : bool)
| VInt (z : Z)
| VStr (s : string)
| VList (l : list pyval)
| VDict (d : list (string * pyval))
| VCategory (c : CategoryType)
| VDatetime (d : datetime)
| VItem (x : ContentItem.t).
#[local] Set Elimination Schemes.

(** A [dict] with string keys, in insertion order. *)
Definition mapping : Type := list (string * pyval).

Module Dict.

(** [d.get(k)] as an option; [None] when the key is absent. *)
Fixpoint get {V} (k : string) (d : list (string * V)) : option V :=
  match d with
  | [] => None
  | (k', v) :: d' => if String.eqb k k' then Some v else get k d'
  end.

(** [d[k] = v] *)
Fixpoint set {V} (k : string) (v : V) (d : list (string * V)) : list (string * V) :=
  match d with
  | [] => [(k, v)]
  | (k', v') :: d' =>
      if String.eqb k k' then (k', v) :: d' else (k', v') :: set k v d'
  end.

Definition keys {V} (d : list (string * V)) : list string := List.map fst d.

Definition mem (k : string) (ks : list string) : bool :=
  existsb (String.eqb k) ks.

(** Keyword binding of a generated [__init__] called as [cls( **d )]:
    a key that is not a field, or a missing field without default, is
    a TypeError raised before the body runs. *)
Definition bind_kwargs (fields required : list string) (d : mapping) : Exc unit :=
  match List.filter (fun k => negb (mem k fields)) (keys d) with
  | k :: _ =>
      Raise (TypeError (String.append "__init__() got an unexpected keyword argument '"
                         (String.append k "'")))
  | [] =>
      match List.filter (fun k => negb (mem k (keys d))) required with
      | k :: _ =>
          Raise (TypeError (String.append "__init__() missing required argument: '"
                             (String.append k "'")))
      | [] => Ok tt
      end
  end.

(** Reading a field at its annotated type.  A value of another type is
    outside the record types of this development and is reported as a
    TypeError. *)
Definition ill_typed {A} (k : string) : Exc A :=
  Raise (TypeError (String.append "field has an unexpected type: " k)).

Definition str_field (k : string) (dflt : option string) (d : mapping) : Exc string :=
  match get k d, dflt with
  | Some (VStr s), _ => Ok s
  | None, Some s => Ok s
  | _, _ => ill_typed k
  end.

Definition opt_str_field (k : string) (d : mapping) : Exc (option string) :=
  match get k d with
  | Some (VStr s) => Ok (Some s)
  | Some VNone | None => Ok None
  | _ => ill_typed k
  end.

Definition opt_int_field (k : string) (d : mapping) : Exc (option Z) :=
  match get k d with
  | Some (VInt z) => Ok (Some z)
  | Some VNone | None => Ok None
  | _ => ill_typed k
  end.

Definition opt_datetime_field (k : string) (d : mapping) : Exc (option datetime) :=
  match get k d with
  | Some (VDatetime t) => Ok (Some t)
  | Some VNone | None => Ok None
  | _ => ill_typed k
  end.

Definition datetime_field (k : string) (dflt : datetime) (d : mapping) : Exc datetime :=
  match get k d with
  | Some (VDatetime t) => Ok t
  | None => Ok dflt
  | _ => ill_typed k
  end.

Definition bool_field (k : string) (d : mapping) : Exc bool :=
  match get k d with
  | Some (VBool b) => Ok b
  | _ => ill_typed k
  end.

Fixpoint strs (k : string) (l : list pyval) : Exc (list string) :=
  match l with
  | [] => Ok []
  | VStr s :: l' => let* r := strs k l' in Ok (s :: r)
  | _ => ill_typed k
  end.

Definition str_list_field (k : string) (d : mapping) : Exc (list string) :=
  match get k d with
  | Some (VList l) => strs k l
  | None => Ok []
  | _ => ill_typed k
  end.

Fixpoint item_objs (k : string) (l : list pyval) : Exc (list ContentItem.t) :=
  match l with
  | [] => Ok []
  | VItem x :: l' => let* r := item_objs k l' in Ok (x :: r)
  | _ => ill_typed k
  end.

Definition item_list_field (k : string) (d : mapping) : Exc (list ContentItem.t) :=
  match get k d with
  | Some (VList l) => item_objs k l
  | None => Ok []
  | _ => ill_typed k
  end.

Definition category_field (k : string) (d : mapping) : Exc (CategoryType + string) :=
  match get k d with
  | Some (VCategory c) => Ok (inl c)
  | Some (VStr s) => Ok (inr s)
  | _ => ill_typed k
  end.

Definition of_opt_str (o : option string) : pyval :=
  match o with Some s => VStr s | None => VNone end.

Definition of_opt_int (o : option Z) : pyval :=
  match o with Some z => VInt z | None => VNone end.

Definition of_opt_datetime (o : option datetime) : pyval :=
  match o with Some t => VDatetime t | None => VNone end.

Definition of_strs (l : list string) : pyval := VList (List.map VStr l).

End Dict.

Module ContentItemDict.
Import ContentItem.

Definition fields : list string :=
  ["title"; "url"; "author_name"; "author_url"; "category"; "description";
   "publish_date"; "thumbnail_url"; "cover_image_url"; "images"; "duration";
   "views"; "tags"; "collected_at"; "content_id"]%string.

Definition required : list string :=
  ["title"; "url"; "author_name"; "author_url"; "category"]%string.

(** [dataclasses.asdict(self)] *)
Definition asdict (x : t) : mapping :=
  [("title", VStr (title x)); ("url", VStr (url x));
   ("author_name", VStr (author_name x)); ("author_url", VStr (author_url x));
   ("category", VCategory (category x));
   ("description", VStr (description x));
   ("publish_date", Dict.of_opt_datetime (publish_date x));
   ("thumbnail_url", Dict.of_opt_str (thumbnail_url x));
   ("cover_image_url", Dict.of_opt_str (cover_image_url x));
   ("images", Dict.of_strs (images x));
   ("duration", Dict.of_opt_str (duration x));
   ("views", Dict.of_opt_int (views x));
   ("tags", Dict.of_strs (tags x));
   ("collected_at", VDatetime (collected_at x));
   ("content_id", Dict.of_opt_str (content_id x))]%string.

(** [ContentItem.to_dict] *)
Definition to_dict (x : t) : mapping :=
  let data := asdict x in
  let data := Dict.set "category" (VStr (value (category x))) data in
  let data :=
    match publish_date x with
    | Some d => Dict.set "publish_date" (VStr (isoformat d)) data
    | None => data
    end in
  (* a datetime is always true *)
  Dict.set "collected_at" (VStr (isoformat (collected_at x))) data.

(** [cls( **data )]: keyword binding, defaults, then [__post_init__].
    [now] is the clock value the default factory of [collected_at]
    reads. *)
Definition init_kwargs (now : datetime) (data : mapping) : Exc t :=
  let* _ := Dict.bind_kwargs fields required data in
  let* title := Dict.str_field "title" None data in
  let* url := Dict.str_field "url" None data in
  let* author_name := Dict.str_field "author_name" None data in
  let* author_url := Dict.str_field "author_url" None data in
  let* category := Dict.category_field "category" data in
  let* description := Dict.str_field "description" (Some EmptyString) data in
  let* publish_date := Dict.opt_datetime_field "publish_date" data in
  let* thumbnail_url := Dict.opt_str_field "thumbnail_url" data in
  let* cover_image_url := Dict.opt_str_field "cover_image_url" data in
  let* images := Dict.str_list_field "images" data in
  let* duration := Dict.opt_str_field "duration" data in
  let* views := Dict.opt_int_field "views" data in
  let* tags := Dict.str_list_field "tags" data in
  let* collected_at := Dict.datetime_field "collected_at" now data in
  let* content_id := Dict.opt_str_field "content_id" data in
  ContentItem.new
    (mk title url author_name author_url category description publish_date
        thumbnail_url cover_image_url images duration views tags
        collected_at content_id).

(** One conversion step of [from_dict]:
    [if k in data and isinstance(data[k], str): data[k] = conv(data[k])] *)
Definition convert_str (k : string) (conv : string -> Exc pyval)
    (data : mapping) : Exc mapping :=
  match Dict.get k data with
  | Some (VStr s) => let* v := conv s in Ok (Dict.set k v data)
  | _ => Ok data
  end.

(** [ContentItem.from_dict] *)
Definition from_dict (now : datetime) (data : mapping) : Exc t :=
  let* data := convert_str "category"
                 (fun s => let* c := CategoryType_of s in Ok (VCategory c)) data in
  let* data := convert_str "publish_date"
                 (fun s => let* d := fromisoformat s in Ok (VDatetime d)) data in
  let* data := convert_str "collected_at"
                 (fun s => let* d := fromisoformat s in Ok (VDatetime d)) data in
  init_kwargs now data.

End ContentItemDict.

Module CollectionResult.

Record t : Type := mk {
  author_name : string;
  author_url : string;
  category : CategoryType;
  success : bool;
  items : list ContentItem.t;
  error_message : option string;
  collected_at : datetime
}.

(** [CollectionResult(...)]: the generated [__init__]; the class
    declares no [__post_init__]. *)
Definition new (author_name author_url : string) (category : CategoryType)
    (success : bool) (items : list ContentItem.t)
    (error_message : option string) (collected_at : datetime) : Exc t :=
  Ok (mk author_name author_url category success items error_message collected_at).

Definition fields : list string :=
  ["author_name"; "author_url"; "category"; "success"; "items";
   "error_message"; "collected_at"]%string.

Definition required : list string :=
  ["author_name"; "author_url"; "category"; "success"]%string.

(** [CollectionResult.to_dict] *)
Definition to_dict (r : t) : mapping :=
  [("author_name", VStr (author_name r));
   ("author_url", VStr (author_url r));
   ("category", VStr (value (category r)));
   ("success", VBool (success r));
   ("items", VList (List.map (fun x => VDict (ContentItemDict.to_dict x)) (items r)));
   ("error_message", Dict.of_opt_str (error_message r));
   ("collected_at", VStr (isoformat (collected_at r)));
   ("total_items", VInt (len (items r)))]%string.

(** [CollectionResult( **data )]: the generated [__init__] called with a
    mapping as keyword arguments.  The class has no [from_dict]; this
    is the only way the source offers to build a result from a
    mapping. *)
Definition init_kwargs (now : datetime) (data : mapping) : Exc t :=
  let* _ := Dict.bind_kwargs fields required data in
  let* author_name := Dict.str_field "author_name" None data in
  let* author_url := Dict.str_field "author_url" None data in
  let* category := Dict.category_field "category" data in
  let* category := match category with
                   | inl c => Ok c
                   | inr _ => Dict.ill_typed "category"
                   end in
  let* success := Dict.bool_field "success" data in
  let* items := Dict.item_list_field "items" data in
  let* error_message := Dict.opt_str_field "error_message" data in
  let* collected_at := Dict.datetime_field "collected_at" now data in
  new author_name author_url category success items error_message collected_at.

(** [get_today_items] *)
Definition get_today_items (today : Z * Z * Z) (r : t) : list ContentItem.t :=
  List.filter (ContentItem.is_today today) (items r).

End CollectionResult.

(* ===================================================================== *)
(** * Feeds as feedparser returns them, and the outside world             *)
(* ===================================================================== *)

Module Feed.

(** The first six fields of a [time.struct_time]. *)
Record struct_time : Type := mkTime {
  tm_year : Z; tm_mon : Z; tm_mday : Z; tm_hour : Z; tm_min : Z; tm_sec : Z
}.

(** One element of [entry.media_content]. *)
Record Media : Type := mkMedia {
  medium : option string;
  type_ : option string;
  media_url : option string
}.

(** An [image] attribute: a dict with optional [href] and [url] keys,
    or a plain string. *)
Inductive Image : Type :=
| ImageDict (href : option string) (url : option string)
| ImageStr (s : string).

(** A feed entry: each field is [None] when the attribute is absent. *)
Record Entry : Type := mkEntry {
  title : option string;
  link : option string;
  summary : option string;
  description : option string;
  content : option (list string);          (* the [value] of each part *)
  published_parsed : option (option struct_time);
  published : option string;
  updated_parsed : option (option struct_time);
  media_thumbnail : option (list (option string)); (* the [url] of each *)
  media_content : option (list Media);
  image : option Image;
  id : option string
}.

Record t : Type := mk {
  entries : list Entry;
  feed : option (option Image)    (* [feed.feed], and its [image] *)
}.

(** [d.get(k, dflt)] on an attribute *)
Definition get (o : option string) (dflt : string) : string :=
  match o with Some s => s | None => dflt end.

End Feed.

(** The services a collector calls: feedparser, BeautifulSoup, dateutil,
    urllib and the clock. *)
Record World : Type := mkWorld {
  feedparser_parse : string -> Exc Feed.t;
  get_text : string -> string;                    (* soup.get_text() *)
  find_img_src : string -> option string;         (* soup.find('img')['src'] *)
  url_origin : string -> string;                  (* scheme://netloc of urlparse *)
  fromtimestamp_timegm : Feed.struct_time -> Exc datetime;
  dateutil_parse : string -> Exc datetime;
  youtube_channel_id : string -> option string;   (* _extract_channel_id *)
  podcast_rss_url : string -> string;             (* _get_rss_url *)
  news_feed_url : string -> string;               (* _get_feed_url *)
  now : datetime
}.

(* ===================================================================== *)
(** * base_collector.py                                                   *)
(* ===================================================================== *)

Module BaseCollector.

(** [_create_success_result] *)
Definition _create_success_result (w : World) (author : Author)
    (items : list ContentItem.t) : Exc CollectionResult.t :=
  CollectionResult.new (Config.name author) (Config.url author)
    (Config.category author) true items None (now w).

(** [_create_error_result] *)
Definition _create_error_result (w : World) (author : Author)
    (error_message : string) : Exc CollectionResult.t :=
  CollectionResult.new (Config.name author) (Config.url author)
    (Config.category author) false [] (Some error_message) (now w).

(** [datetime( *t[:6] )]: the first six fields as constructor arguments *)
Definition datetime_of_struct (t : Feed.struct_time) : Exc datetime :=
  let d := mkDatetime (Feed.tm_year t) (Feed.tm_mon t) (Feed.tm_mday t)
                      (Feed.tm_hour t) (Feed.tm_min t) (Feed.tm_sec t) 0 in
  if dt_ok d then Ok d else Raise (ValueError "field out of range").

(** The entry loop shared by the three [collect] methods:
    [for entry in entries: try: item = parse(entry); if item: append
     except Exception: continue] *)
Fixpoint collect_entries (parse : Feed.Entry -> Exc (option ContentItem.t))
    (entries : list Feed.Entry) (items : list ContentItem.t) : list ContentItem.t :=
  match entries with
  | [] => items
  | entry :: rest =>
      match parse entry with
      | Ok (Some item) => collect_entries parse rest (items ++ [item])
      | Ok None => collect_entries parse rest items
      | Raise _ => collect_entries parse rest items
      end
  end.

(** [collect_today_only] over an already computed [collect] result. *)
Definition collect_today_only (today : Z * Z * Z) (result : CollectionResult.t)
    : CollectionResult.t :=
  if CollectionResult.success result then
    CollectionResult.mk
      (CollectionResult.author_name result) (CollectionResult.author_url result)
      (CollectionResult.category result) (CollectionResult.success result)
      (CollectionResult.get_today_items today result)
      (CollectionResult.error_message result)
      (CollectionResult.collected_at result)
  else result.

End BaseCollector.

(* ===================================================================== *)
(** * youtube_collector.py                                                *)
(* ===================================================================== *)

Module YouTubeCollector.
Import Feed.

Record t : Type := mk {
  author : Author;
  rss_url : option string
}.

(** [__init__]: the feed address is built from the channel id. *)
Definition init (w : World) (a : Author) : t :=
  mk a (match youtube_channel_id w (Config.url a) with
        | Some cid =>
            Some (String.append "https://www.youtube.com/feeds/videos.xml?channel_id=" cid)
        | None => None
        end).

(** [[0-9A-Za-z_-]] *)
Definition is_id_char (c : ascii) : bool :=
  let n := nat_of_ascii c in
  ((48 <=? n) && (n <=? 57) || (65 <=? n) && (n <=? 90) ||
   (97 <=? n) && (n <=? 122) || (n =? 95) || (n =? 45))%nat.

(** [([0-9A-Za-z_-]{k})] at the start of [s] *)
Fixpoint id_chars (k : nat) (s : string) : option string :=
  match k with
  | O => Some EmptyString
  | S k' =>
      match s with
      | String c s' =>
          if is_id_char c then
            match id_chars k' s' with
            | Some r => Some (String c r)
            | None => None
            end
          else None
      | EmptyString => None
      end
  end.

Fixpoint drop (n : nat) (s : string) : string :=
  match n, s with
  | O, _ => s
  | S n', String _ s' => drop n' s'
  | S _, EmptyString => EmptyString
  end.

(** A literal prefix followed by the eleven-character group. *)
Definition after_prefix (p s : string) : option string :=
  if String.prefix p s then id_chars 11 (drop (String.length p) s) else None.

(** [(?:p1|p2|...)(group)] at the start of [s]: alternatives in order. *)
Fixpoint match_here (ps : list string) (s : string) : option string :=
  match ps with
  | [] => None
  | p :: ps' =>
      match after_prefix p s with
      | Some g => Some g
      | None => match_here ps' s
      end
  end.

(** [re.search]: the leftmost position with a match; group 1. *)
Fixpoint search (ps : list string) (s : string) : option string :=
  match match_here ps s with
  | Some g => Some g
  | None =>
      match s with
      | String _ s' => search ps s'
      | EmptyString => None
      end
  end.

Definition patterns : list (list string) :=
  [["v="; "/"]; ["embed/"]; ["watch?v="]]%string.

(** [_extract_video_id] *)
Definition _extract_video_id (url : string) : option string :=
  fold_right (fun ps rest =>
                match search ps url with
                | Some g => Some g
                | None => rest
                end) None patterns.

Definition falsy (o : option string) : bool :=
  match o with Some s => negb (truthy_str s) | None => true end.

(** The body of [_parse_entry] inside its [try]. *)
Definition parse_entry_body (w : World) (self : t) (entry : Entry)
    : Exc ContentItem.t :=
  let title := strip (Feed.get (title entry) EmptyString) in
  let url := Feed.get (link entry) EmptyString in
  let description := strip (Feed.get (summary entry) EmptyString) in
  let* publish_date :=
    match published_parsed entry with
    | Some (Some tm) =>
        let* d := fromtimestamp_timegm w tm in Ok (Some d)
    | _ =>
        match published entry with
        | Some p =>
            match dateutil_parse w p with
            | Ok d => Ok (Some d)
            | Raise _ => Ok None
            end
        | None => Ok None
        end
    end in
  let thumbnail_url :=
    match media_thumbnail entry with
    | Some (first :: _) => first
    | _ => None
    end in
  let thumbnail_url :=
    if falsy thumbnail_url then
      match _extract_video_id url with
      | Some video_id =>
          Some (String.append "https://i.ytimg.com/vi/"
                  (String.append video_id "/maxresdefault.jpg"))
      | None => thumbnail_url
      end
    else thumbnail_url in
  let content_id := _extract_video_id url in
  ContentItem.new
    (ContentItem.mk title url (Config.name (author self)) (Config.url (author self))
       (inl VIDEO) description publish_date thumbnail_url None [] None None []
       (now w) content_id).

(** [_parse_entry]: any exception gives [None]. *)
Definition _parse_entry (w : World) (self : t) (entry : Entry)
    : option ContentItem.t :=
  match parse_entry_body w self entry with
  | Ok item => Some item
  | Raise _ => None
  end.

(** [collect] *)
Definition collect (w : World) (self : t) (max_items : Z)
    : Exc CollectionResult.t :=
  if falsy (rss_url self) then
    BaseCollector._create_error_result w (author self)
      "无法获取频道ID，请检查URL格式"
  else
    catch
      (let* feed := feedparser_parse w (Feed.get (rss_url self) EmptyString) in
       match entries feed with
       | [] =>
           BaseCollector._create_error_result w (author self)
             "未找到任何视频内容"
       | _ =>
           let items :=
             BaseCollector.collect_entries
               (fun entry => Ok (_parse_entry w self entry))
               (slice_to (entries feed) max_items) [] in
           BaseCollector._create_success_result w (author self) items
       end)
      (fun e =>
         BaseCollector._create_error_result w (author self)
           (String.append "采集失败: " (str_of_exn e))).

End YouTubeCollector.

(* ===================================================================== *)
(** * podcast_collector.py and news_collector.py                          *)
(* ===================================================================== *)

Module FeedText.
Import Feed.

(** [if hasattr(entry, 'summary'): ... elif hasattr(entry, 'description'):
     ... elif hasattr(entry, 'content'): ...] *)
Definition raw_description (entry : Entry) : string :=
  match summary entry with
  | Some s => s
  | None =>
      match description entry with
      | Some s => s
      | None =>
          match content entry with
          | Some (first :: _) => first
          | _ => EmptyString
          end
      end
  end.

(** [if description: description = get_text(description).strip();
     if len(description) > 500: description = description[:500] + '...'] *)
Definition clean_description (w : World) (description : string) : string :=
  if truthy_str description then
    let description := strip (get_text w description) in
    if (500 <? String.length description)%nat
    then String.append (str_take 500 description) "..."
    else description
  else description.

(** [try: publish_date = datetime( *tm[:6] ) except: pass] *)
Definition parsed_date (o : option (option struct_time)) : option datetime :=
  match o with
  | Some (Some tm) =>
      match BaseCollector.datetime_of_struct tm with
      | Ok d => Some d
      | Raise _ => None
      end
  | _ => None
  end.

End FeedText.

Module PodcastCollector.
Import Feed.

Record t : Type := mk {
  author : Author;
  rss_url : string
}.

Definition init (w : World) (a : Author) : t :=
  mk a (podcast_rss_url w (Config.url a)).

Definition image_href (i : Image) : option string :=
  match i with
  | ImageDict (Some h) _ => Some h
  | ImageDict None _ => None
  | ImageStr s => Some s
  end.

Definition channel_image (i : Image) : option string :=
  match i with
  | ImageDict (Some h) _ => Some h
  | ImageDict None (Some u) => Some u
  | _ => None
  end.

(** [_parse_entry] *)
Definition _parse_entry (w : World) (self : t) (entry : Entry) (feed : Feed.t)
    : Exc (option ContentItem.t) :=
  let title := strip (Feed.get (title entry) EmptyString) in
  if negb (truthy_str title) then Ok None else
  let link := strip (Feed.get (link entry) EmptyString) in
  if negb (truthy_str link) then Ok None else
  let description := FeedText.raw_description entry in
  let description := FeedText.clean_description w description in
  let publish_date := FeedText.parsed_date (published_parsed entry) in
  let cover_image_url :=
    match image entry with
    | Some i => image_href i
    | None => None
    end in
  let cover_image_url :=
    if YouTubeCollector.falsy cover_image_url then
      match media_thumbnail entry with
      | Some (first :: _) => first
      | _ => cover_image_url
      end
    else cover_image_url in
  let cover_image_url :=
    if YouTubeCollector.falsy cover_image_url then
      match Feed.feed feed with
      | Some (Some i) =>
          match channel_image i with
          | Some u => Some u
          | None => cover_image_url
          end
      | _ => cover_image_url
      end
    else cover_image_url in
  let content_id := Feed.get (id entry) link in
  let* item :=
    ContentItem.new
      (ContentItem.mk title link (Config.name (author self))
         (Config.url (author self)) (inl PODCAST) description publish_date
         None cover_image_url [] None None [] (now w) (Some content_id)) in
  Ok (Some item).

(** [collect] *)
Definition collect (w : World) (self : t) (max_items : Z)
    : Exc CollectionResult.t :=
  catch
    (let* feed := feedparser_parse w (rss_url self) in
     match entries feed with
     | [] =>
         BaseCollector._create_error_result w (author self)
           "RSS Feed 中没有找到任何条目"
     | _ =>
         let items :=
           BaseCollector.collect_entries
             (fun entry => _parse_entry w self entry feed)
             (slice_to (entries feed) max_items) [] in
         match items with
         | [] =>
             BaseCollector._create_error_result w (author self)
               "未能解析任何有效的 Podcast 条目"
         | _ => BaseCollector._create_success_result w (author self) items
         end
     end)
    (fun e =>
       BaseCollector._create_error_result w (author self)
         (String.append "采集失败: " (str_of_exn e))).

End PodcastCollector.

Module NewsCollector.
Import Feed.

Record t : Type := mk {
  author : Author;
  feed_url : string
}.

Definition init (w : World) (a : Author) : t :=
  mk a (news_feed_url w (Config.url a)).

(** [s in t] on strings *)
Fixpoint contains (sub s : string) : bool :=
  String.prefix sub s ||
  match s with
  | String _ s' => contains sub s'
  | EmptyString => false
  end.

(** The first element of [media_content] that is an image. *)
Fixpoint first_image (l : list Media) : option (option string) :=
  match l with
  | [] => None
  | m :: l' =>
      if match medium m with Some x => String.eqb x "image" | None => false end
         || contains "image" (Feed.get (type_ m) EmptyString)
      then Some (media_url m)
      else first_image l'
  end.

(** [_parse_entry] *)
Definition _parse_entry (w : World) (self : t) (entry : Entry) (feed : Feed.t)
    : Exc (option ContentItem.t) :=
  let title := strip (Feed.get (title entry) EmptyString) in
  if negb (truthy_str title) then Ok None else
  let link := strip (Feed.get (link entry) EmptyString) in
  if negb (truthy_str link) then Ok None else
  let description := FeedText.raw_description entry in
  let description := FeedText.clean_description w description in
  let publish_date := FeedText.parsed_date (published_parsed entry) in
  let publish_date :=
    match publish_date with
    | Some d => Some d
    | None => FeedText.parsed_date (updated_parsed entry)
    end in
  let cover_image_url :=
    match media_thumbnail entry with
    | Some (first :: _) => first
    | _ => None
    end in
  let cover_image_url :=
    if YouTubeCollector.falsy cover_image_url then
      match media_content entry with
      | Some l =>
          match first_image l with
          | Some u => u
          | None => cover_image_url
          end
      | None => cover_image_url
      end
    else cover_image_url in
  let cover_image_url :=
    if YouTubeCollector.falsy cover_image_url then
      match summary entry with
      | Some s =>
          match find_img_src w s with
          | Some img_src =>
              if negb (truthy_str img_src) then cover_image_url
              else if startswith img_src "http" then Some img_src
              else if startswith img_src "/"
                   then Some (String.append (url_origin w link) img_src)
              else cover_image_url
          | None => cover_image_url
          end
      | None => cover_image_url
      end
    else cover_image_url in
  let content_id := Feed.get (id entry) link in
  let* item :=
    ContentItem.new
      (ContentItem.mk title link (Config.name (author self))
         (Config.url (author self)) (inl NEWS) description publish_date
         None cover_image_url [] None None [] (now w) (Some content_id)) in
  Ok (Some item).

(** [collect] *)
Definition collect (w : World) (self : t) (max_items : Z)
    : Exc CollectionResult.t :=
  catch
    (let* feed := feedparser_parse w (feed_url self) in
     match entries feed with
     | [] =>
         BaseCollector._create_error_result w (author self)
           "Feed 中没有找到任何条目"
     | _ =>
         let items :=
           BaseCollector.collect_entries
             (fun entry => _parse_entry w self entry feed)
             (slice_to (entries feed) max_items) [] in
         match items with
         | [] =>
             BaseCollector._create_error_result w (author self)
               "未能解析任何有效的新闻条目"
         | _ => BaseCollector._create_success_result w (author self) items
         end
     end)
    (fun e =>
       BaseCollector._create_error_result w (author self)
         (String.append "采集失败: " (str_of_exn e))).

End NewsCollector.

(* ===================================================================== *)
(** * collector_manager.py                                                *)
(* ===================================================================== *)

Module CollectorManager.

(** The interface of [BaseCollector] the manager relies on: the author
    record and [collect], which may raise. *)
Record Collector : Type := mkCollector {
  author : Author;
  collect : Z -> Exc CollectionResult.t
}.

(** [create_collector] (youtube_collector.py) *)
Definition create_collector (w : World) (a : Author) : option Collector :=
  match Config.category a with
  | VIDEO =>
      Some (mkCollector a (YouTubeCollector.collect w (YouTubeCollector.init w a)))
  | PODCAST =>
      Some (mkCollector a (PodcastCollector.collect w (PodcastCollector.init w a)))
  | NEWS =>
      Some (mkCollector a (NewsCollector.collect w (NewsCollector.init w a)))
  end.

(** [self.collectors]: a dict from author name to collector, in
    insertion order. *)
Definition registry : Type := list (string * Collector).


(** The state of the loop of [collect_all]: the results so far and the
    authors whose [collect] has been invoked so far. *)
Definition run : Type := (list CollectionResult.t * list string)%type.




(** [collector.collect_today_only(max_items)] of base_collector.py *)
Definition call_collect_today_only (today : Z * Z * Z) (collector : Collector)
    (max_items : Z) : Exc CollectionResult.t :=
  let* result := collect collector max_items in
  Ok (BaseCollector.collect_today_only today result).

(** One iteration of the loop of [collect_today_only]. *)
Definition today_step (today : Z * Z * Z) (now : datetime) (max_items : Z)
    (st : run) (entry : string * Collector) : Exc run :=
  let '(results, calls) := st in
  let '(author_name, collector) := entry in
  let calls := calls ++ [author_name] in
  let* results :=
    catch
      (let* result := call_collect_today_only today collector max_items in
       Ok (results ++ [result]))
      (fun e =>
         let* result :=
           CollectionResult.new author_name (Config.url (author collector))
             (Config.category (author collector)) false [] (Some (str_of_exn e)) now in
         Ok (results ++ [result])) in
  Ok (results, calls).

Fixpoint today_loop (today : Z * Z * Z) (now : datetime) (max_items : Z)
    (collectors : registry) (st : run) : Exc run :=
  match collectors with
  | [] => Ok st
  | entry :: rest =>
      let* st := today_step today now max_items st entry in
      today_loop today now max_items rest st
  end.

(** [collect_today_only] *)
Definition collect_today_only (today : Z * Z * Z) (now : datetime)
    (settings_max : Z) (collectors : registry) (max_items_per_author : option Z)
    : Exc run :=
  let max_items_per_author :=
    match max_items_per_author with
    | Some n => n
    | None => settings_max
    end in
  today_loop today now max_items_per_author collectors ([], []).


End CollectorManager.

(* ===================================================================== *)
(** * data_storage.py                                                     *)
(* ===================================================================== *)

Module DataStorage.

Definition sum_Z (l : list Z) : Z := fold_left Z.add l 0.

(** The document [save_results] writes. *)
Definition save_results (now : datetime) (results : list CollectionResult.t)
    : mapping :=
  [("collected_at", VStr (isoformat now));
   ("total_authors", VInt (len results));
   ("successful_authors",
      VInt (sum_Z (List.map (fun _ => 1) (List.filter CollectionResult.success results))));
   ("failed_authors",
      VInt (sum_Z (List.map (fun _ => 1)
              (List.filter (fun r => negb (CollectionResult.success r)) results))));
   ("total_items",
      VInt (sum_Z (List.map (fun r => len (CollectionResult.items r))
              (List.filter CollectionResult.success results))));
   ("results", VList (List.map (fun r => VDict (CollectionResult.to_dict r)) results))
  ]%string.

End DataStorage.

(* ===================================================================== *)
(** * The JSON documents app.py reads back                                *)
(* ===================================================================== *)

(** A key of a JSON object: absent, present with [null], or present with
    a value. *)
Inductive json_key (A : Type) : Type :=
| Absent
| Null
| Val (a : A).
Arguments Absent {A}.
Arguments Null {A}.
Arguments Val {A} a.

Module ItemDoc.

(** One element of a result's [items]: the keys app.py reads or writes,
    and the remaining keys as [payload]. *)
Record t : Type := mk {
  publish_date : json_key string;
  category : option string;
  formatted_date : option string;
  payload : mapping
}.

(** [item.get('publish_date')] *)
Definition get_publish_date (x : t) : option string :=
  match publish_date x with Val s => Some s | _ => None end.

(** [item.get('publish_date', '')]: [None] is Python's [None]. *)
Definition sort_key (x : t) : option string :=
  match publish_date x with
  | Absent => Some EmptyString
  | Null => None
  | Val s => Some s
  end.

(** [item['formatted_date'] = v] *)
Definition set_formatted_date (v : string) (x : t) : t :=
  mk (publish_date x) (category x) (Some v) (payload x).

End ItemDoc.

Module ResultDoc.

(** One element of a snapshot's [results].  [author_name] is what
    [result.get('author_name')] returns; [success] is the truth value
    of [result.get('success')]; [items] is [None] when the key is
    absent. *)
Record t : Type := mk {
  author_name : option string;
  success : bool;
  items : option (list ItemDoc.t);
  error_message : option string;
  category : option string;
  from_history : option bool;
  history_collected_at : option (option string);
  payload : mapping
}.

(** [result.get('items', [])] *)
Definition get_items (r : t) : list ItemDoc.t :=
  match items r with Some l => l | None => [] end.

(** [result['from_history'] = True;
     result['history_collected_at'] = collected_at] *)
Definition tag_from_history (collected_at : option string) (r : t) : t :=
  mk (author_name r) (success r) (items r) (error_message r) (category r)
     (Some true) (Some collected_at) (payload r).

End ResultDoc.

Module SnapshotDoc.

Record t : Type := mk {
  collected_at : option string;
  total_authors : option Z;
  successful_authors : option Z;
  failed_authors : option Z;
  total_items : option Z;
  results : option (list ResultDoc.t);
  payload : mapping
}.

(** [data.get('results', [])] *)
Definition get_results (d : t) : list ResultDoc.t :=
  match results d with Some l => l | None => [] end.

(** [data.get(k, 0)] on a counter *)
Definition get0 (o : option Z) : Z :=
  match o with Some z => z | None => 0 end.

(** An empty dict is false. *)
Definition is_empty (d : t) : bool :=
  match collected_at d, total_authors d, successful_authors d,
        failed_authors d, total_items d, results d, payload d with
  | None, None, None, None, None, None, [] => true
  | _, _, _, _, _, _, _ => false
  end.

End SnapshotDoc.

(** [json.load] of a document written by [json.dump]: the typed view of a
    mapping. *)
Module Json.

Definition get_str (k : string) (m : mapping) : option string :=
  match Dict.get k m with Some (VStr s) => Some s | _ => None end.

Definition get_int (k : string) (m : mapping) : option Z :=
  match Dict.get k m with Some (VInt z) => Some z | _ => None end.

(** truth value of [m.get(k)] *)
Definition get_truth (k : string) (m : mapping) : bool :=
  match Dict.get k m with
  | Some (VBool b) => b
  | Some (VInt z) => negb (z =? 0)
  | Some (VStr s) => truthy_str s
  | Some (VList l) => match l with [] => false | _ => true end
  | Some (VDict d) => match d with [] => false | _ => true end
  | Some VNone | None => false
  | Some _ => true
  end.

Definition without (ks : list string) (m : mapping) : mapping :=
  List.filter (fun kv => negb (Dict.mem (fst kv) ks)) m.

Definition item (m : mapping) : ItemDoc.t :=
  ItemDoc.mk
    (match Dict.get "publish_date" m with
     | None => Absent
     | Some (VStr s) => Val s
     | Some _ => Null
     end)
    (get_str "category" m)
    (get_str "formatted_date" m)
    (without ["publish_date"; "category"; "formatted_date"]%string m).

Definition dicts (l : list pyval) : list mapping :=
  flat_map (fun v => match v with VDict d => [d] | _ => [] end) l.

Definition result (m : mapping) : ResultDoc.t :=
  ResultDoc.mk
    (get_str "author_name" m)
    (get_truth "success" m)
    (match Dict.get "items" m with
     | Some (VList l) => Some (List.map item (dicts l))
     | _ => None
     end)
    (get_str "error_message" m)
    (get_str "category" m)
    (match Dict.get "from_history" m with
     | Some (VBool b) => Some b
     | _ => None
     end)
    (match Dict.get "history_collected_at" m with
     | Some (VStr s) => Some (Some s)
     | Some _ => Some None
     | None => None
     end)
    (without ["author_name"; "success"; "items"; "error_message"; "category";
              "from_history"; "history_collected_at"]%string m).

Definition snapshot (m : mapping) : SnapshotDoc.t :=
  SnapshotDoc.mk
    (get_str "collected_at" m)
    (get_int "total_authors" m)
    (get_int "successful_authors" m)
    (get_int "failed_authors" m)
    (get_int "total_items" m)
    (match Dict.get "results" m with
     | Some (VList l) => Some (List.map result (dicts l))
     | _ => None
     end)
    (without ["collected_at"; "total_authors"; "successful_authors";
              "failed_authors"; "total_items"; "results"]%string m).

End Json.

(* ===================================================================== *)
(** * app.py: the merged view and the item list                           *)
(* ===================================================================== *)

Module App.

(** One file of the listing: its name and what [storage.load_results]
    returns for it ([None] when the file is missing or unreadable). *)
Record File : Type := mkFile {
  name : string;
  content : option SnapshotDoc.t
}.


(** A Python [set] of author names as [result.get('author_name')]
    returns them. *)
Abbreviation authors := (gset (option string)).

Record MergeState : Type := mkState {
  latest_data : SnapshotDoc.t;
  failed_authors : authors;
  successful_authors : authors
}.

(** Lines 40-47: the two sets read off the newest snapshot. *)
Definition partition_step (st : authors * authors) (result : ResultDoc.t)
    : authors * authors :=
  let '(failed, successful) := st in
  if negb (ResultDoc.success result)
  then ({[ResultDoc.author_name result]} ∪ failed, successful)
  else (failed, {[ResultDoc.author_name result]} ∪ successful).

Definition partition (results : list ResultDoc.t) : authors * authors :=
  fold_left partition_step results (∅, ∅).

(** [r.get('author_name') != author_name] *)
Definition other_author (author_name : option string) (r : ResultDoc.t) : bool :=
  negb (bool_decide (ResultDoc.author_name r = author_name)).

(** Lines 61-82: the body of the loop over an older snapshot's results. *)
Definition backfill (old_data : SnapshotDoc.t) (st : MergeState)
    (result : ResultDoc.t) : Exc MergeState :=
  let author_name := ResultDoc.author_name result in
  if bool_decide (author_name ∈ failed_authors st) && ResultDoc.success result then
    let latest := latest_data st in
    match SnapshotDoc.results latest with
    | None => Raise (KeyError "results")
    | Some results =>
        let results := List.filter (other_author author_name) results in
        let result :=
          ResultDoc.tag_from_history (SnapshotDoc.collected_at old_data) result in
        let results := results ++ [result] in
        let latest :=
          SnapshotDoc.mk
            (SnapshotDoc.collected_at latest)
            (SnapshotDoc.total_authors latest)
            (Some (SnapshotDoc.get0 (SnapshotDoc.successful_authors latest) + 1))
            (Some (SnapshotDoc.get0 (SnapshotDoc.failed_authors latest) - 1))
            (Some (SnapshotDoc.get0 (SnapshotDoc.total_items latest)
                   + len (ResultDoc.get_items result)))
            (Some results)
            (SnapshotDoc.payload latest) in
        Ok (mkState latest
              (failed_authors st ∖ {[author_name]})
              ({[author_name]} ∪ successful_authors st))
    end
  else Ok st.

Fixpoint backfill_all (old_data : SnapshotDoc.t) (results : list ResultDoc.t)
    (st : MergeState) : Exc MergeState :=
  match results with
  | [] => Ok st
  | result :: rest =>
      let* st := backfill old_data st result in
      backfill_all old_data rest st
  end.

(** Lines 52-82: the loop over the older files.  [loaded] lists the
    names passed to [load_results] so far. *)
Fixpoint scan (old_files : list File) (st : MergeState) (loaded : list string)
    : Exc (MergeState * list string) :=
  match old_files with
  | [] => Ok (st, loaded)
  | old_file :: rest =>
      if bool_decide (failed_authors st = ∅) then Ok (st, loaded)   (* break *)
      else
        let loaded := loaded ++ [name old_file] in
        match content old_file with
        | Some old_data =>
            if SnapshotDoc.is_empty old_data then scan rest st loaded
            else
              let* st := backfill_all old_data (SnapshotDoc.get_results old_data) st in
              scan rest st loaded
        | None => scan rest st loaded                               (* continue *)
        end
  end.

(** [load_latest_data]: the merged view ([None] when there is no data)
    and the files read. *)
Definition load_latest_data (collection_files : list File)
    : Exc (option SnapshotDoc.t * list string) :=
  match collection_files with
  | [] => Ok (None, [])
  | latest_file :: old_files =>
      let loaded := [name latest_file] in
      match content latest_file with
      | None => Ok (None, loaded)
      | Some latest =>
          if SnapshotDoc.is_empty latest then Ok (None, loaded)
          else
            let '(failed, successful) :=
              partition (SnapshotDoc.get_results latest) in
            let st := mkState latest failed successful in
            if bool_decide (failed = ∅) then Ok (Some latest, loaded)
            else
              let* r := scan old_files st loaded in
              Ok (Some (latest_data (fst r)), snd r)
      end
  end.

(** Python's [None < str], [str < None] and [None < None]. *)
Definition none_order_error : exn :=
  TypeError "'<' not supported between instances of 'NoneType' and 'str'".

Definition is_none {A} (o : option A) : bool :=
  match o with None => true | Some _ => false end.

Definition key_str (o : option string) : string :=
  match o with Some s => s | None => EmptyString end.

(** Insertion into a list sorted from the greatest key down; an element
    goes in front of the elements whose key is not greater. *)
Fixpoint insert_desc {A} (key : A -> string) (x : A) (l : list A) : list A :=
  match l with
  | [] => [x]
  | y :: l' =>
      if String.ltb (key x) (key y) then y :: insert_desc key x l'
      else x :: l
  end.

(** [l.sort(key=key, reverse=True)] for keys that are [str] or [None].
    A list of two or more elements has every key compared at least
    once, and a comparison with [None] raises TypeError; otherwise the
    result is the stable sort by descending key. *)
Definition sort_reverse {A} (key : A -> option string) (l : list A) : Exc (list A) :=
  if (2 <=? length l)%nat && existsb (fun x => is_none (key x)) l
  then Raise none_order_error
  else Ok (fold_right (insert_desc (fun x => key_str (key x))) [] l).

(** Lines 127-133 of [index], 174-179 of [api_items]. *)
Definition all_items (format_publish_date : option string -> string)
    (data : SnapshotDoc.t) : list ItemDoc.t :=
  flat_map
    (fun result =>
       if ResultDoc.success result then
         List.map
           (fun item =>
              ItemDoc.set_formatted_date
                (format_publish_date (ItemDoc.get_publish_date item)) item)
           (ResultDoc.get_items result)
       else [])
    (SnapshotDoc.get_results data).

(** The item list [index] and [api_items] render:
    [all_items.sort(key=lambda x: x.get('publish_date', ''), reverse=True)] *)
Definition sorted_items (format_publish_date : option string -> string)
    (data : SnapshotDoc.t) : Exc (list ItemDoc.t) :=
  sort_reverse ItemDoc.sort_key (all_items format_publish_date data).

End App.

(* ===================================================================== *)
(** * data_storage.py: file names, listing, derived documents             *)
(* ===================================================================== *)

Module Text.

(** [s.endswith(suffix)] *)
Fixpoint endswith (s suffix : string) : bool :=
  String.eqb s suffix ||
  match s with
  | String _ s' => endswith s' suffix
  | EmptyString => false
  end.

(** [s.replace(c, d)] for single characters *)
Fixpoint replace_char (c d : ascii) (s : string) : string :=
  match s with
  | EmptyString => EmptyString
  | String x s' => String (if Ascii.eqb x c then d else x) (replace_char c d s')
  end.

(** The characters of a string, in order. *)
Fixpoint chars (s : string) : list ascii :=
  match s with
  | EmptyString => []
  | String c s' => c :: chars s'
  end.

(** [fnmatch] for a pattern made of literal characters, [*] (any run of
    characters) and [?] (any one character); bracket expressions do not
    occur in the patterns of the source and are read as literals. *)
Fixpoint fnmatch (pattern : string) : string -> bool :=
  match pattern with
  | EmptyString => fun s => match s with EmptyString => true | _ => false end
  | String p pattern' =>
      if Ascii.eqb p "*" then
        fix star (s : string) : bool :=
          fnmatch pattern' s ||
          match s with
          | String _ s' => star s'
          | EmptyString => false
          end
      else if Ascii.eqb p "?" then
        fun s => match s with
                 | String _ s' => fnmatch pattern' s'
                 | EmptyString => false
                 end
      else
        fun s => match s with
                 | String c s' => Ascii.eqb p c && fnmatch pattern' s'
                 | EmptyString => false
                 end
  end.

(** A pattern without wildcard. *)
Definition literal (p : string) : bool :=
  forallb (fun c => negb (Ascii.eqb c "*") && negb (Ascii.eqb c "?")) (chars p).

(** Insertion into a list sorted from the greatest key down, in front of
    the elements whose key is not greater. *)
Fixpoint insert_desc {A} (key : A -> Z) (x : A) (l : list A) : list A :=
  match l with
  | [] => [x]
  | y :: l' => if key x <? key y then y :: insert_desc key x l' else x :: l
  end.

(** [sorted(l, key=key, reverse=True)] for numeric keys: the stable sort
    by descending key. *)
Definition sorted_reverse {A} (key : A -> Z) (l : list A) : list A :=
  fold_right (insert_desc key) [] l.

End Text.

Module Storage.

(** The characters [_sanitize_filename] replaces. *)
Definition illegal_chars : list ascii :=
  ["/"; "\"; ":"; "*"; "?"; ascii_of_nat 34; "<"; ">"; "|"]%char.

(** [_sanitize_filename] *)
Definition _sanitize_filename (name : string) : string :=
  let sanitized :=
    fold_left (fun sanitized char => Text.replace_char char "_" sanitized)
      illegal_chars name in
  let sanitized := strip sanitized in
  if (100 <? String.length sanitized)%nat then str_take 100 sanitized
  else sanitized.

(** The file name [save_results] writes to; [timestamp] is
    [datetime.now().strftime("%Y%m%d_%H%M%S")]. *)
Definition results_filename (timestamp : string) (filename : option string) : string :=
  let filename :=
    match filename with
    | Some f => f
    | None => String.append "collection_" (String.append timestamp ".json")
    end in
  if negb (Text.endswith filename ".json") then String.append filename ".json"
  else filename.

(** The default name of [save_today_items_only]; [today] is
    [datetime.now().strftime("%Y%m%d")]. *)
Definition today_filename (today : string) (filename : option string) : string :=
  match filename with
  | Some f => f
  | None => String.append "today_" (String.append today ".json")
  end.

(** The results [save_today_items_only] passes to [save_results]. *)
Definition today_results (today : Z * Z * Z) (results : list CollectionResult.t)
    : list CollectionResult.t :=
  flat_map
    (fun result =>
       if CollectionResult.success result then
         match CollectionResult.get_today_items today result with
         | [] => []
         | today_items =>
             [CollectionResult.mk
                (CollectionResult.author_name result)
                (CollectionResult.author_url result)
                (CollectionResult.category result)
                true today_items None
                (CollectionResult.collected_at result)]
         end
       else [])
    results.

(** The document [save_today_items_only] writes. *)
Definition save_today_items_only (today : Z * Z * Z) (now : datetime)
    (results : list CollectionResult.t) : mapping :=
  DataStorage.save_results now (today_results today results).

(** The authors [save_items_by_author] writes a file for, with the file
    name of each: a later result of the same author replaces the entry
    of an earlier one. *)
Definition save_items_by_author (timestamp : string)
    (results : list CollectionResult.t) : list (string * string) :=
  fold_left
    (fun saved_files result =>
       if CollectionResult.success result
          && match CollectionResult.items result with [] => false | _ => true end
       then
         let safe_name := _sanitize_filename (CollectionResult.author_name result) in
         let filename :=
           String.append safe_name
             (String.append "_" (String.append timestamp ".json")) in
         Dict.set (CollectionResult.author_name result) filename saved_files
       else saved_files)
    results [].

(** One file of the storage directory. *)
Record DirEntry : Type := mkDirEntry {
  file : App.File;
  st_mtime : Z
}.

(** [list_saved_files]: the entries whose name matches the pattern,
    newest first. *)
Definition list_saved_files (directory : list DirEntry) (pattern : string)
    : list DirEntry :=
  Text.sorted_reverse st_mtime
    (List.filter (fun e => Text.fnmatch pattern (App.name (file e))) directory).

(** [get_latest_file] *)
Definition get_latest_file (directory : list DirEntry) : option DirEntry :=
  match list_saved_files directory "*.json" with
  | f :: _ => Some f
  | [] => None
  end.

(** [load_latest_data] of app.py on a storage directory. *)
Definition load_latest_data (directory : list DirEntry)
    : Exc (option SnapshotDoc.t * list string) :=
  App.load_latest_data
    (List.map file (list_saved_files directory "collection_*.json")).

(** One entry of [by_category] in the summary report. *)
Record CategoryStats : Type := mkStats {
  authors : Z;
  items : Z;
  today_items : Z
}.

(** The summary report. *)
Record Report : Type := mkReport {
  total_authors : Z;
  successful_authors : Z;
  failed_authors : Z;
  total_items : Z;
  total_today_items : Z;
  collection_time : string;
  by_category : list (string * CategoryStats);
  successful_names : list string;
  failed_list : list (string * option string)
}.

(** The loop of [create_summary_report] over the successful results. *)
Definition category_step (today : Z * Z * Z)
    (category_stats : list (string * CategoryStats)) (result : CollectionResult.t)
    : list (string * CategoryStats) :=
  let category := value (CollectionResult.category result) in
  let category_stats :=
    match Dict.get category category_stats with
    | Some _ => category_stats
    | None => Dict.set category (mkStats 0 0 0) category_stats
    end in
  match Dict.get category category_stats with
  | Some st =>
      Dict.set category
        (mkStats (authors st + 1)
           (items st + len (CollectionResult.items result))
           (today_items st
            + len (CollectionResult.get_today_items today result)))
        category_stats
  | None => category_stats
  end.

(** [create_summary_report] *)
Definition create_summary_report (today : Z * Z * Z) (now : datetime)
    (results : list CollectionResult.t) : Report :=
  let successful := List.filter CollectionResult.success results in
  let failed := List.filter (fun r => negb (CollectionResult.success r)) results in
  let total_items :=
    DataStorage.sum_Z (List.map (fun r => len (CollectionResult.items r)) successful) in
  let total_today :=
    DataStorage.sum_Z
      (List.map (fun r => len (CollectionResult.get_today_items today r)) successful) in
  mkReport (len results) (len successful) (len failed) total_items total_today
    (isoformat now)
    (fold_left (category_step today) successful [])
    (List.map CollectionResult.author_name successful)
    (List.map (fun r => (CollectionResult.author_name r,
                         CollectionResult.error_message r)) failed).

End Storage.

(* ===================================================================== *)
(** * config_manager.py on the values [json.load] returns                 *)
(* ===================================================================== *)

Module ConfigManager.

(** Truth value of a Python value. *)
Definition truthy (v : pyval) : bool :=
  match v with
  | VNone => false
  | VBool b => b
  | VInt z => negb (z =? 0)
  | VStr s => truthy_str s
  | VList l => match l with [] => false | _ => true end
  | VDict d => match d with [] => false | _ => true end
  | VCategory _ | VDatetime _ | VItem _ => true
  end.

(** [str(v)] in the message of [__post_init__]: only a [str] or a falsy
    value gets there. *)
Definition str_of (v : pyval) : string :=
  match v with
  | VStr s => s
  | VNone => "None"
  | VBool _ => "False"
  | VInt _ => "0"
  | VList _ => "[]"
  | VDict _ => "{}"
  | _ => EmptyString
  end.

(** An attribute lookup that fails. *)
Definition no_attribute (attr : string) : exn :=
  AttributeError (String.append "object has no attribute '" (String.append attr "'")).

(** An [Author] object after [__post_init__]: [name] and [url] are
    [str]; [category] is a member of [CategoryType] or the value that
    was passed, when that was not a [str]; [enabled] is the value that
    was passed. *)
Record Author : Type := mkAuthor {
  name : string;
  url : string;
  category : pyval;
  enabled : pyval
}.

Definition name_error : exn := ValueError "作者名称不能为空".
Definition url_error (u : string) : exn := ValueError (String.append "无效的URL: " u).

(** [Author(name, url, category, enabled)]: the generated [__init__]
    followed by [__post_init__]. *)
Definition new_author (name url category enabled : pyval) : Exc Author :=
  let* name :=
    if negb (truthy name) then Raise name_error
    else
      match name with
      | VStr s => if negb (truthy_str (strip s)) then Raise name_error else Ok s
      | _ => Raise (no_attribute "strip")
      end in
  let* url :=
    if negb (truthy url) then Raise (url_error (str_of url))
    else
      match url with
      | VStr u =>
          if negb (startswith_any u ["http://"; "https://"]%string)
          then Raise (url_error u)
          else Ok u
      | _ => Raise (no_attribute "startswith")
      end in
  let* category :=
    match category with
    | VStr s => let* c := CategoryType_of s in Ok (VCategory c)
    | _ => Ok category
    end in
  Ok (mkAuthor name url category enabled).

Definition author_fields : list string := ["name"; "url"; "category"; "enabled"]%string.
Definition author_required : list string := ["name"; "url"; "category"]%string.

(** [d[k]] of a key that keyword binding has found present *)
Definition arg (k : string) (dflt : pyval) (d : mapping) : pyval :=
  match Dict.get k d with Some v => v | None => dflt end.

(** [Author( **author_data )] on a dict *)
Definition author_of_kwargs (author_data : mapping) : Exc Author :=
  let* _ := Dict.bind_kwargs author_fields author_required author_data in
  new_author (arg "name" VNone author_data) (arg "url" VNone author_data)
    (arg "category" VNone author_data) (arg "enabled" (VBool true) author_data).

(** [Author.to_dict] *)
Definition to_dict (a : Author) : Exc mapping :=
  match category a with
  | VCategory c =>
      Ok [("name", VStr (name a)); ("url", VStr (url a));
          ("category", VStr (value c)); ("enabled", enabled a)]%string
  | _ => Raise (no_attribute "value")
  end.

Record Settings : Type := mkSettings {
  check_interval_minutes : pyval;
  max_items_per_author : pyval
}.

(** [v <= 0]: a [bool] compares as the integer it is; any other value
    that is not a number raises TypeError. *)
Definition le_zero (v : pyval) : Exc bool :=
  match v with
  | VInt z => Ok (z <=? 0)
  | VBool b => Ok (negb b)
  | _ => Raise (TypeError "'<=' not supported between these instances")
  end.

(** [Settings(check_interval_minutes, max_items_per_author)] *)
Definition new_settings (check_interval_minutes max_items_per_author : pyval)
    : Exc Settings :=
  let* bad := le_zero check_interval_minutes in
  if bad then Raise (ValueError "检查间隔必须大于0") else
  let* bad := le_zero max_items_per_author in
  if bad then Raise (ValueError "每个作者的最大条目数必须大于0") else
  Ok (mkSettings check_interval_minutes max_items_per_author).

(** [Settings()] *)
Definition default_settings : Settings := mkSettings (VInt 60) (VInt 10).

Definition settings_fields : list string :=
  ["check_interval_minutes"; "max_items_per_author"]%string.

(** [Settings( **v )] *)
Definition settings_of_kwargs (v : pyval) : Exc Settings :=
  match v with
  | VDict d =>
      let* _ := Dict.bind_kwargs settings_fields [] d in
      new_settings (arg "check_interval_minutes" (VInt 60) d)
        (arg "max_items_per_author" (VInt 10) d)
  | _ => Raise (TypeError "argument after ** must be a mapping")
  end.

(** The attributes of a [ConfigManager]. *)
Record t : Type := mk {
  config_path : string;
  authors : list Author;
  settings : Settings
}.

(** [__init__] *)
Definition init (config_path : string) : t := mk config_path [] default_settings.

(** [k in v] for a string [k] *)
Definition contains (k : string) (v : pyval) : Exc bool :=
  match v with
  | VDict d => Ok (match Dict.get k d with Some _ => true | None => false end)
  | VList l =>
      Ok (existsb (fun x => match x with VStr s => String.eqb s k | _ => false end) l)
  | VStr s => Ok (NewsCollector.contains k s)
  | _ => Raise (TypeError "argument is not iterable")
  end.

(** [v[k]] for a string [k] *)
Definition subscript (v : pyval) (k : string) : Exc pyval :=
  match v with
  | VDict d =>
      match Dict.get k d with
      | Some x => Ok x
      | None => Raise (KeyError k)
      end
  | VList _ | VStr _ => Raise (TypeError "indices must be integers")
  | _ => Raise (TypeError "object is not subscriptable")
  end.

(** The values [for x in v] runs over: the elements of a list, the keys
    of a dict, the characters of a string. *)
Definition iter (v : pyval) : Exc (list pyval) :=
  match v with
  | VList l => Ok l
  | VDict d => Ok (List.map (fun kv => VStr (fst kv)) d)
  | VStr s => Ok (List.map (fun c => VStr (String c EmptyString)) (Text.chars s))
  | _ => Raise (TypeError "object is not iterable")
  end.

(** The loop of [load] over the author entries, appending to
    [self.authors].  An entry that is a dict and does not construct is
    skipped; for an entry that is no dict the construction raises
    TypeError and the handler's [author_data.get] raises
    AttributeError, which leaves [load] with the authors appended so
    far. *)
Fixpoint load_authors (entries : list pyval) (authors : list Author)
    : list Author * Exc unit :=
  match entries with
  | [] => (authors, Ok tt)
  | author_data :: rest =>
      match author_data with
      | VDict d =>
          match author_of_kwargs d with
          | Ok author => load_authors rest (authors ++ [author])
          | Raise _ => load_authors rest authors
          end
      | _ => (authors, Raise (no_attribute "get"))
      end
  end.

(** [load]: the attributes after the call and its outcome.  [file] is
    [None] when the path does not exist, and otherwise what [open] and
    [json.load] give. *)
Definition load (file : option (Exc pyval)) (self : t) : t * Exc bool :=
  match file with
  | None =>
      (self, Raise (OtherError (String.append "配置文件不存在: " (config_path self))))
  | Some (Raise e) => (self, Raise e)
  | Some (Ok config_data) =>
      match
        (let* has := contains "settings" config_data in
         if has then
           let* v := subscript config_data "settings" in
           settings_of_kwargs v
         else Ok (settings self))
      with
      | Raise e => (self, Raise e)
      | Ok settings =>
          let self := mk (config_path self) (authors self) settings in
          match contains "authors" config_data with
          | Raise e => (self, Raise e)
          | Ok false => (self, Raise (ValueError "配置文件缺少 'authors' 字段"))
          | Ok true =>
              let self := mk (config_path self) [] settings in
              match (let* v := subscript config_data "authors" in iter v) with
              | Raise e => (self, Raise e)
              | Ok entries =>
                  let '(authors, outcome) := load_authors entries [] in
                  let self := mk (config_path self) authors settings in
                  match outcome with
                  | Raise e => (self, Raise e)
                  | Ok _ =>
                      match authors with
                      | [] => (self, Raise (ValueError "配置文件中没有有效的作者"))
                      | _ => (self, Ok true)
                      end
                  end
              end
          end
      end
  end.

(** [get_enabled_authors] *)
Definition get_enabled_authors (self : t) : list Author :=
  List.filter (fun author => truthy (enabled author)) (authors self).

(** [author.category == category] for a member [category] *)
Definition category_is (category : CategoryType) (v : pyval) : bool :=
  match v with
  | VCategory c => String.eqb (value c) (value category)
  | _ => false
  end.

(** [get_authors_by_category] *)
Definition get_authors_by_category (category : CategoryType) (self : t)
    : list Author :=
  List.filter
    (fun author => category_is category (ConfigManager.category author)
                   && truthy (enabled author))
    (authors self).

Fixpoint to_dicts (authors : list Author) : Exc (list pyval) :=
  match authors with
  | [] => Ok []
  | author :: rest =>
      let* d := to_dict author in
      let* ds := to_dicts rest in
      Ok (VDict d :: ds)
  end.

(** [save]: the document passed to [json.dump]. *)
Definition save (self : t) : Exc mapping :=
  let* authors := to_dicts (authors self) in
  Ok [("authors", VList authors);
      ("settings",
       VDict [("check_interval_minutes", check_interval_minutes (settings self));
              ("max_items_per_author", max_items_per_author (settings self))])]%string.


End ConfigManager.

(* ===================================================================== *)
(** * podcast_collector.py: the feed address                              *)
(* ===================================================================== *)

Module PodcastFeed.

(** [s.rstrip('/')] *)
Fixpoint rstrip_slash (s : string) : string :=
  match s with
  | EmptyString => EmptyString
  | String c s' =>
      match rstrip_slash s' with
      | EmptyString => if Ascii.eqb c "/" then EmptyString else String c EmptyString
      | r => String c r
      end
  end.

Definition lower_char (c : ascii) : ascii :=
  let n := nat_of_ascii c in
  if ((65 <=? n) && (n <=? 90))%nat then ascii_of_nat (n + 32) else c.

(** [s.lower()]; only the ASCII letters matter to the tests below. *)
Fixpoint lower (s : string) : string :=
  match s with
  | EmptyString => EmptyString
  | String c s' => String (lower_char c) (lower s')
  end.

(** [_get_rss_url] *)
Definition _get_rss_url (author_url : string) : string :=
  let url := rstrip_slash author_url in
  if NewsCollector.contains "feed" (lower url)
     || NewsCollector.contains "rss" (lower url)
  then url
  else
    let special :=
      if NewsCollector.contains "lexfridman.com" url then
        if Text.endswith url "/podcast"
        then Some "https://lexfridman.com/feed/podcast/"%string
        else if Text.endswith url "/podcast/"
        then Some "https://lexfridman.com/feed/podcast/"%string
        else None
      else None in
    match special with
    | Some feed => feed
    | None =>
        if Text.endswith url "/" then String.append url "feed/"
        else String.append url "/feed/"
    end.

End PodcastFeed.

(* ===================================================================== *)
(** * app.py: the views by category and the description filter            *)
(* ===================================================================== *)

Module Views.

(** Lines 195-200 of [api_items_by_category]. *)
Definition filtered_items (format_publish_date : option string -> string)
    (category : string) (data : SnapshotDoc.t) : list ItemDoc.t :=
  flat_map
    (fun result =>
       if ResultDoc.success result
          && bool_decide (ResultDoc.category result = Some category)
       then
         List.map
           (fun item =>
              ItemDoc.set_formatted_date
                (format_publish_date (ItemDoc.get_publish_date item)) item)
           (ResultDoc.get_items result)
       else [])
    (SnapshotDoc.get_results data).

(** [api_items]: the [items] and the [total] of the response. *)
Definition api_items (format_publish_date : option string -> string)
    (data : option SnapshotDoc.t) : Exc (list ItemDoc.t * Z) :=
  match data with
  | Some d =>
      if SnapshotDoc.is_empty d then Ok ([], 0)
      else
        let* all_items := App.sorted_items format_publish_date d in
        Ok (all_items, len all_items)
  | None => Ok ([], 0)
  end.

(** [api_items_by_category] *)
Definition api_items_by_category (format_publish_date : option string -> string)
    (category : string) (data : option SnapshotDoc.t) : Exc (list ItemDoc.t * Z) :=
  match data with
  | Some d =>
      if SnapshotDoc.is_empty d then Ok ([], 0)
      else
        let* filtered_items :=
          App.sort_reverse ItemDoc.sort_key
            (filtered_items format_publish_date category d) in
        Ok (filtered_items, len filtered_items)
  | None => Ok ([], 0)
  end.



End Views.

(* ===================================================================== *)
(** * Sample data used by the worked examples                             *)
(* ===================================================================== *)

Module Samples.

Definition t0 : datetime := mkDatetime 2025 11 10 11 0 0 0.
Definition t1 : datetime := mkDatetime 2025 11 9 8 30 0 0.

(** Text extraction for the sample world: everything between [<] and
    [>] is dropped. *)
Fixpoint strip_tags (inside : bool) (s : string) : string :=
  match s with
  | EmptyString => EmptyString
  | String c s' =>
      if Ascii.eqb c "<" then strip_tags true s'
      else if Ascii.eqb c ">" then strip_tags false s'
      else if inside then strip_tags inside s'
      else String c (strip_tags inside s')
  end.

(** A world whose feed parser answers [feed] for every address. *)
Definition world (feed : Exc Feed.t) : World :=
  mkWorld (fun _ => feed) (strip_tags false) (fun _ => None) (fun u => u)
    (fun tm => BaseCollector.datetime_of_struct tm)
    (fun _ => Raise (ValueError "unknown date format"))
    (fun _ => Some "UC0123456789"%string)
    (fun u => u) (fun u => u) t0.

Definition item (title url author : string) : ContentItem.t :=
  ContentItem.mk title url author "https://example.com/author"
    VIDEO EmptyString None None None [] None None [] t0 None.

Definition entry (title link : string) : Feed.Entry :=
  Feed.mkEntry (Some title) (Some link) None None None None None None None
    None None None.

Definition entry_with_summary (title link summary : string) : Feed.Entry :=
  Feed.mkEntry (Some title) (Some link) (Some summary) None None None None
    None None None None None.

Definition feed_of (entries : list Feed.Entry) : Exc Feed.t :=
  Ok (Feed.mk entries None).

Definition author_video : Author :=
  mkAuthor "Lex" "https://www.youtube.com/@lex" VIDEO true.
Definition author_podcast : Author :=
  mkAuthor "Lex" "https://lexfridman.com/podcast" PODCAST true.
Definition author_news : Author :=
  mkAuthor "Simon" "https://simonwillison.net" NEWS true.

Fixpoint repeat_char (c : ascii) (n : nat) : string :=
  match n with
  | O => EmptyString
  | S n' => String c (repeat_char c n')
  end.

Definition youtube : YouTubeCollector.t :=
  YouTubeCollector.mk author_video
    (Some "https://www.youtube.com/feeds/videos.xml?channel_id=UC0123456789"%string).
Definition podcast : PodcastCollector.t :=
  PodcastCollector.mk author_podcast "https://lexfridman.com/feed/podcast/".
Definition news : NewsCollector.t :=
  NewsCollector.mk author_news "https://simonwillison.net/atom/everything/".

(** Eight entries that map to an item and two that do not: one without
    a title and one whose link is not an http(s) address. *)
Definition ten_entries : list Feed.Entry :=
  [entry "Post 1" "https://example.com/1";
   entry "   " "https://example.com/untitled";
   entry "Post 2" "https://example.com/2";
   entry "Relative" "/posts/relative";
   entry "Post 3" "https://example.com/3";
   entry "Post 4" "https://example.com/4";
   entry "Post 5" "https://example.com/5";
   entry "Post 6" "https://example.com/6";
   entry "Post 7" "https://example.com/7";
   entry "Post 8" "https://example.com/8"]%string.

Definition video_link : string := "https://www.youtube.com/watch?v=dQw4w9WgXcQ".

(** An entry whose summary is 501 characters long, and one whose
    summary carries markup. *)
Definition long_summary : string := repeat_char "a" 501.
Definition long_entry : Feed.Entry :=
  entry_with_summary "Talk" video_link long_summary.
Definition html_entry : Feed.Entry :=
  entry_with_summary "Talk" video_link "<b>Hello</b> world".

(** A feed whose only entry has no title. *)
Definition untitled_feed : Exc Feed.t :=
  feed_of [entry EmptyString video_link].

(** The merge scenario: the newest run collected two items for X and
    failed for Y; the run before collected three items for Y. *)
Definition run_new : list CollectionResult.t :=
  [CollectionResult.mk "X" "https://example.com/x" NEWS true
     [item "X1" "https://example.com/x/1" "X";
      item "X2" "https://example.com/x/2" "X"] None t0;
   CollectionResult.mk "Y" "https://example.com/y" NEWS false []
     (Some "timed out"%string) t0].

Definition run_old : list CollectionResult.t :=
  [CollectionResult.mk "Y" "https://example.com/y" NEWS true
     [item "Y1" "https://example.com/y/1" "Y";
      item "Y2" "https://example.com/y/2" "Y";
      item "Y3" "https://example.com/y/3" "Y"] None t1].

Definition store : list App.File :=
  [App.mkFile "collection_20251110_110000.json"
     (Some (Json.snapshot (DataStorage.save_results t0 run_new)));
   App.mkFile "collection_20251109_083000.json"
     (Some (Json.snapshot (DataStorage.save_results t1 run_old)))].


(** A store whose only older run failed for Y as well. *)
Definition store_without_backfill : list App.File :=
  [App.mkFile "collection_20251110_110000.json"
     (Some (Json.snapshot (DataStorage.save_results t0 run_new)));
   App.mkFile "collection_20251109_083000.json"
     (Some (Json.snapshot
              (DataStorage.save_results t1
                 [CollectionResult.mk "Y" "https://example.com/y" NEWS false []
                    (Some "connection refused"%string) t1])))].



(** A run whose only result holds a dated and an undated item. *)
Definition run_undated : list CollectionResult.t :=
  [CollectionResult.mk "X" "https://example.com/x" NEWS true
     [ContentItem.mk "Dated" "https://example.com/x/1" "X"
        "https://example.com/x" NEWS EmptyString
        (Some (mkDatetime 2025 11 10 10 0 0 0)) None None [] None None [] t0 None;
      ContentItem.mk "Undated" "https://example.com/x/2" "X"
        "https://example.com/x" NEWS EmptyString
        None None None [] None None [] t0 None] None t0].

(** A run whose items carry a publication date: two news items of X,
    one video of Z, and a failure for Y. *)
Definition dated_item (title url author : string) (category : CategoryType)
    (d : datetime) : ContentItem.t :=
  ContentItem.mk title url author "https://example.com/author"
    category EmptyString (Some d) None None [] None None [] t0 None.

Definition run_dated : list CollectionResult.t :=
  [CollectionResult.mk "X" "https://example.com/x" NEWS true
     [dated_item "X1" "https://example.com/x/1" "X" NEWS
        (mkDatetime 2025 11 9 10 0 0 0);
      dated_item "X2" "https://example.com/x/2" "X" NEWS
        (mkDatetime 2025 11 10 9 0 0 0)] None t0;
   CollectionResult.mk "Z" "https://example.com/z" VIDEO true
     [dated_item "Z1" "https://example.com/z/1" "Z" VIDEO
        (mkDatetime 2025 11 10 8 0 0 0)] None t0;
   CollectionResult.mk "Y" "https://example.com/y" NEWS false []
     (Some "timed out"%string) t0].


(** The author entries of a configuration without settings. *)
Definition author_entries : list mapping :=
  [[("name", VStr "Lex"); ("url", VStr "https://lexfridman.com/podcast");
    ("category", VStr "Podcast")];
   [("name", VStr "Nobody"); ("category", VStr "News")];
   [("name", VStr "Simon"); ("url", VStr "https://simonwillison.net");
    ("category", VStr "News"); ("enabled", VBool false)]]%string.

(** A configuration as two calls of [add_author] leave it. *)
Definition configured : ConfigManager.t :=
  ConfigManager.mk "config.json"
    [ConfigManager.mkAuthor "Lex" "https://lexfridman.com/podcast"
       (VCategory PODCAST) (VBool true);
     ConfigManager.mkAuthor "Simon" "https://simonwillison.net"
       (VCategory NEWS) (VBool false)]
    (ConfigManager.mkSettings (VInt 30) (VInt 5)).

End Samples.

(* ===================================================================== *)
(** * Predicates used to state the properties                             *)
(* ===================================================================== *)

(** The conditions of [__post_init__] and of the [datetime] constructor,
    which every ContentItem object satisfies. *)
Definition valid_item (x : ContentItem.t) : bool :=
  negb (ContentItem.blank (ContentItem.title x)) &&
  negb (ContentItem.bad_url (ContentItem.url x)) &&
  negb (ContentItem.blank (ContentItem.author_name x)) &&
  dt_ok (ContentItem.collected_at x) &&
  match ContentItem.publish_date x with Some d => dt_ok d | None => true end.

(** The items a [collect] loop keeps: the entries that map to an item, in
    feed order; an entry whose mapping returns [None] or raises is left
    out. *)
Definition survivors (parse : Feed.Entry -> Exc (option ContentItem.t))
    (entries : list Feed.Entry) : list ContentItem.t :=
  flat_map (fun entry =>
              match parse entry with
              | Ok (Some item) => [item]
              | _ => []
              end) entries.

(** What a [collect] call owes its caller, given the outcome [fetched] of
    fetching and parsing the feed and the entry mapping [parse]: it
    returns a result and does not raise; the result holds at most
    [max_items] items; a failed result holds no item and carries a
    message; a failed fetch gives a failed result whose message reports
    the exception; and when entries of the first [max_items] survive the
    mapping the result is successful and holds exactly the survivors. *)
Definition meets_collect_contract (max_items : Z) (fetched : Exc Feed.t)
    (parse : Feed.t -> Feed.Entry -> Exc (option ContentItem.t))
    (out : Exc CollectionResult.t) : Prop :=
  exists r,
    out = Ok r /\
    len (CollectionResult.items r) <= max_items /\
    (CollectionResult.success r = false ->
       CollectionResult.items r = [] /\
       exists msg, CollectionResult.error_message r = Some msg) /\
    (forall e, fetched = Raise e ->
       CollectionResult.success r = false /\
       CollectionResult.error_message r
       = Some (String.append "采集失败: " (str_of_exn e))) /\
    (forall feed, fetched = Ok feed ->
       survivors (parse feed) (slice_to (Feed.entries feed) max_items) <> [] ->
       CollectionResult.success r = true /\
       CollectionResult.items r
       = survivors (parse feed) (slice_to (Feed.entries feed) max_items)).

(** The description policy of the specification: the first available of
    summary, description and content body, with the markup stripped, cut
    at 500 characters with an ellipsis appended when it was longer. *)
Definition description_policy (w : World) (entry : Feed.Entry) : string :=
  FeedText.clean_description w (FeedText.raw_description entry).


(** The author names of a list of results, as [result.get('author_name')]
    returns them. *)
Definition names (results : list ResultDoc.t) : list (option string) :=
  List.map ResultDoc.author_name results.

(** [author] has a failed entry in the snapshot. *)
Definition failed_in (data : SnapshotDoc.t) (author : option string) : Prop :=
  exists r, In r (SnapshotDoc.get_results data) /\
            ResultDoc.author_name r = author /\ ResultDoc.success r = false.


(** The results whose author is not among the authors of [resolved]. *)
Definition unresolved_by (resolved : list ResultDoc.t) (r : ResultDoc.t) : bool :=
  forallb (fun t => App.other_author (ResultDoc.author_name t) r) resolved.

(** The results of [author]. *)
Definition by_author (author : option string) (results : list ResultDoc.t)
    : list ResultDoc.t :=
  List.filter (fun r => bool_decide (ResultDoc.author_name r = author)) results.

(** The number of items of a list of results. *)
Definition items_total (results : list ResultDoc.t) : Z :=
  fold_right (fun r acc => len (ResultDoc.get_items r) + acc) 0 results.


(** [merged] is the baseline [base] with the failed entries of some
    authors replaced: [resolved] lists the historical results that were
    put in, one per author, in the order they were appended; the other
    results are those of the baseline, in the baseline's order; the three
    counters moved by the number of replaced authors and by their items;
    nothing else changed. *)
Definition merged_from (base merged : SnapshotDoc.t) (resolved : list ResultDoc.t)
    : Prop :=
  SnapshotDoc.get_results merged
  = List.filter (unresolved_by resolved) (SnapshotDoc.get_results base) ++ resolved /\
  List.NoDup (names resolved) /\
  (forall t, In t resolved ->
     failed_in base (ResultDoc.author_name t) /\
     ResultDoc.success t = true /\ ResultDoc.from_history t = Some true) /\
  SnapshotDoc.collected_at merged = SnapshotDoc.collected_at base /\
  SnapshotDoc.total_authors merged = SnapshotDoc.total_authors base /\
  SnapshotDoc.payload merged = SnapshotDoc.payload base /\
  SnapshotDoc.get0 (SnapshotDoc.successful_authors merged)
  = SnapshotDoc.get0 (SnapshotDoc.successful_authors base) + len resolved /\
  SnapshotDoc.get0 (SnapshotDoc.failed_authors merged)
  = SnapshotDoc.get0 (SnapshotDoc.failed_authors base) - len resolved /\
  SnapshotDoc.get0 (SnapshotDoc.total_items merged)
  = SnapshotDoc.get0 (SnapshotDoc.total_items base) + items_total resolved /\
  (resolved = [] -> merged = base) /\
  (resolved <> [] ->
     SnapshotDoc.successful_authors merged <> None /\
     SnapshotDoc.failed_authors merged <> None /\
     SnapshotDoc.total_items merged <> None).

(** The same for a state of the merge loop: in addition the results key
    is present and the pending set holds the failed authors of the
    baseline that are not replaced yet. *)
Definition merge_inv (base : SnapshotDoc.t) (st : App.MergeState)
    (resolved : list ResultDoc.t) : Prop :=
  merged_from base (App.latest_data st) resolved /\
  SnapshotDoc.results (App.latest_data st) <> None /\
  (forall a, a ∈ App.failed_authors st <->
             failed_in base a /\ ~ In a (names resolved)).

(** Descending order of the sort keys: [a] may stand before [b]. *)
Definition key_ge (key : ItemDoc.t -> option string) (a b : ItemDoc.t) : Prop :=
  String.leb (App.key_str (key b)) (App.key_str (key a)) = true.



(** The results of category [c] among [successful]. *)
Definition of_category (c : CategoryType) (successful : list CollectionResult.t)
    : list CollectionResult.t :=
  List.filter
    (fun r => String.eqb (value (CollectionResult.category r)) (value c))
    successful.

(** The statistics of category [c] over the successful results: the
    number of results, of their items and of their items of today;
    [None] when no successful result has the category. *)
Definition category_stats_of (today : Z * Z * Z) (c : CategoryType)
    (successful : list CollectionResult.t) : option Storage.CategoryStats :=
  match of_category c successful with
  | [] => None
  | l =>
      Some (Storage.mkStats (len l)
              (DataStorage.sum_Z (List.map (fun r => len (CollectionResult.items r)) l))
              (DataStorage.sum_Z
                 (List.map (fun r => len (CollectionResult.get_today_items today r)) l)))
  end.

(** The sum of one statistic over the categories of a report. *)
Definition stats_sum (f : Storage.CategoryStats -> Z)
    (d : list (string * Storage.CategoryStats)) : Z :=
  DataStorage.sum_Z (List.map (fun kv => f (snd kv)) d).

(** The results [save_items_by_author] writes a file for. *)
Definition has_items (r : CollectionResult.t) : bool :=
  CollectionResult.success r
  && match CollectionResult.items r with [] => false | _ => true end.

(** No character of the string is one [_sanitize_filename] replaces. *)
Definition legal_name (s : string) : bool :=
  forallb (fun c => negb (existsb (Ascii.eqb c) Storage.illegal_chars)) (Text.chars s).


(** An item that passed the checks of [__post_init__] and carries the
    name, the address and the category of the author. *)
Definition item_of_author (a : Author) (x : ContentItem.t) : Prop :=
  ContentItem.blank (ContentItem.title x) = false /\
  ContentItem.bad_url (ContentItem.url x) = false /\
  ContentItem.author_name x = Config.name a /\
  ContentItem.author_url x = Config.url a /\
  ContentItem.category x = Config.category a.

(** The conditions [Author.__post_init__] leaves true of an author
    object: a name that is not blank, an http or https address, and a
    category that is no [str] any more. *)
Definition valid_author (a : ConfigManager.Author) : bool :=
  negb (ContentItem.blank (ConfigManager.name a)) &&
  negb (ContentItem.bad_url (ConfigManager.url a)) &&
  match ConfigManager.category a with VStr _ => false | _ => true end.

(** A value [Settings.__post_init__] accepts: a positive integer, or
    [True], which compares as 1. *)
Definition positive (v : pyval) : bool :=
  match v with
  | VInt z => 0 <? z
  | VBool b => b
  | _ => false
  end.

Definition valid_settings (s : ConfigManager.Settings) : bool :=
  positive (ConfigManager.check_interval_minutes s) &&
  positive (ConfigManager.max_items_per_author s).

(** The invariant of a [ConfigManager]. *)
Definition valid_config (self : ConfigManager.t) : bool :=
  forallb valid_author (ConfigManager.authors self) &&
  valid_settings (ConfigManager.settings self).

(** The entries of a configuration that construct an author, in order. *)
Definition constructible (entries : list mapping) : list ConfigManager.Author :=
  flat_map (fun d => match ConfigManager.author_of_kwargs d with
                     | Ok a => [a]
                     | Raise _ => []
                     end) entries.

(** The category of the author is a member of [CategoryType]. *)
Definition has_member_category (a : ConfigManager.Author) : bool :=
  match ConfigManager.category a with VCategory _ => true | _ => false end.

(* ===================================================================== *)
(** * Properties                                                          *)
(* ===================================================================== *)

(** ** datetime: [fromisoformat] inverts [isoformat] *)

Section DatetimeFacts.

Lemma digit_val_char (d : Z) :
  0 <= d < 10 -> digit_val (digit_char d) = Some d.
Proof.
  intros H.
  assert (Hc : d = 0 \/ d = 1 \/ d = 2 \/ d = 3 \/ d = 4 \/ d = 5 \/ d = 6
               \/ d = 7 \/ d = 8 \/ d = 9) by lia.
  repeat (destruct Hc as [-> | Hc]; [reflexivity |]).
  subst d. reflexivity.
Qed.

Lemma append_cons (c : ascii) (s r : string) :
  String.append (String c s) r = String c (String.append s r).
Proof. reflexivity. Qed.

Lemma append_empty (s : string) : String.append s EmptyString = s.
Proof.
  induction s as [| c s IH]; [reflexivity |].
  rewrite append_cons. now rewrite IH.
Qed.

Lemma read_fmt_digits (k : nat) :
  forall (n acc : Z) (rest : string),
    0 <= n < 10 ^ Z.of_nat k ->
    read_digits k (String.append (fmt_digits k n) rest) acc
    = Some (acc * 10 ^ Z.of_nat k + n, rest).
Proof.
  induction k as [| k IH]; intros n acc rest Hn.
  - simpl in *. f_equal. f_equal. lia.
  - rewrite Nat2Z.inj_succ, Z.pow_succ_r in Hn by lia.
    cbn [fmt_digits]. rewrite append_cons. cbn [read_digits].
    set (p := 10 ^ Z.of_nat k) in *.
    assert (Hp : 0 < p) by (subst p; apply Z.pow_pos_nonneg; lia).
    assert (Hq : 0 <= n / p < 10).
    { split; [apply Z.div_pos; lia | apply Z.div_lt_upper_bound; lia]. }
    rewrite (Z.mod_small (n / p) 10) by exact Hq.
    rewrite digit_val_char by exact Hq.
    rewrite IH by (apply Z.mod_pos_bound; exact Hp).
    f_equal. f_equal.
    rewrite Nat2Z.inj_succ, Z.pow_succ_r by lia. fold p.
    pose proof (Z.div_mod n p ltac:(lia)). lia.
Qed.

Lemma read_fmt_digits0 (k : nat) (n : Z) (rest : string) :
  0 <= n < 10 ^ Z.of_nat k ->
  read_digits k (String.append (fmt_digits k n) rest) 0 = Some (n, rest).
Proof.
  intros H. rewrite read_fmt_digits by exact H. reflexivity.
Qed.

Lemma dt_ok_bounds (d : datetime) :
  dt_ok d = true ->
  0 <= year d < 10 ^ Z.of_nat 4 /\ 0 <= month d < 10 ^ Z.of_nat 2 /\
  0 <= day d < 10 ^ Z.of_nat 2 /\ 0 <= hour d < 10 ^ Z.of_nat 2 /\
  0 <= minute d < 10 ^ Z.of_nat 2 /\ 0 <= second d < 10 ^ Z.of_nat 2 /\
  0 <= microsecond d < 10 ^ Z.of_nat 6.
Proof.
  unfold dt_ok. intros H.
  repeat (apply andb_prop in H; destruct H as [H ?]).
  assert (Hd : days_in_month (year d) (month d) <= 31).
  { unfold days_in_month.
    repeat match goal with |- context [if ?b then _ else _] => destruct b end; lia. }
  change (10 ^ Z.of_nat 4) with 10000.
  change (10 ^ Z.of_nat 2) with 100.
  change (10 ^ Z.of_nat 6) with 1000000.
  lia.
Qed.

Lemma parse_fraction_fmt (us : Z) :
  0 <= us < 10 ^ Z.of_nat 6 ->
  parse_fraction (if us =? 0 then EmptyString else String "." (fmt_digits 6 us))
  = Some us.
Proof.
  intros H. destruct (Z.eqb_spec us 0) as [-> | Hne]; [reflexivity |].
  cbn [parse_fraction].
  rewrite <- (append_empty (fmt_digits 6 us)).
  rewrite read_fmt_digits0 by exact H. reflexivity.
Qed.

Lemma parse_iso_isoformat (d : datetime) :
  dt_ok d = true -> parse_iso (isoformat d) = Some d.
Proof.
  intros H. destruct (dt_ok_bounds d H) as (Hy & Hmo & Hd & Hh & Hmi & Hs & Hus).
  destruct d as [y mo dd h mi se us]; cbn [year month day hour minute second microsecond] in *.
  unfold parse_iso, isoformat.
  cbn [year month day hour minute second microsecond].
  repeat (rewrite read_fmt_digits0 by assumption; cbn [opt_bind expect Ascii.eqb Bool.eqb]).
  rewrite parse_fraction_fmt by assumption. reflexivity.
Qed.

Lemma fromisoformat_isoformat (d : datetime) :
  dt_ok d = true -> fromisoformat (isoformat d) = Ok d.
Proof.
  intros H. unfold fromisoformat.
  rewrite parse_iso_isoformat by exact H. now rewrite H.
Qed.

End DatetimeFacts.

(** ** content_model.py: construction *)

Section Construction.
Import ContentItem.

Lemma CategoryType_of_value (c : CategoryType) : CategoryType_of (value c) = Ok c.
Proof. destruct c; reflexivity. Qed.


(** A constructed item passes the three checks. *)
Lemma new_checks (a : args) (x : t) :
  new a = Ok x ->
  blank (title x) = false /\ bad_url (url x) = false /\
  blank (author_name x) = false.
Proof.
  unfold new, __post_init__.
  destruct (blank (title a)) eqn:Ht; [discriminate |].
  destruct (bad_url (url a)) eqn:Hu; [discriminate |].
  destruct (blank (author_name a)) eqn:Ha; [discriminate |].
  destruct (category a) as [c | s]; cbn [bind].
  - intros [= <-]. cbn. auto.
  - destruct (CategoryType_of s); cbn [bind]; [| discriminate].
    intros [= <-]. cbn. auto.
Qed.

End Construction.




(** ** content_model.py: serialization *)

Section Serialization.
Import ContentItem ContentItemDict.

Lemma strs_map_VStr (k : string) (l : list string) :
  Dict.strs k (List.map VStr l) = Ok l.
Proof.
  induction l as [| s l IH]; [reflexivity |].
  cbn [List.map Dict.strs]. rewrite IH. reflexivity.
Qed.

Lemma valid_item_inv (x : ContentItem.t) :
  valid_item x = true ->
  blank (title x) = false /\ bad_url (url x) = false /\
  blank (author_name x) = false /\ dt_ok (collected_at x) = true /\
  (forall d, publish_date x = Some d -> dt_ok d = true).
Proof.
  unfold valid_item. intros H.
  repeat (apply andb_prop in H; destruct H as [H ?]).
  repeat match goal with
         | H : negb _ = true |- _ => apply negb_true_iff in H
         end.
  repeat split; try assumption.
  intros d Hd. now rewrite Hd in *.
Qed.

Lemma from_dict_to_dict (now : datetime) (x : ContentItem.t) :
  valid_item x = true -> from_dict now (to_dict x) = Ok x.
Proof.
  intros Hv. destruct (valid_item_inv x Hv) as (Ht & Hu & Ha & Hc & Hp).
  destruct x as [ti ur an au ca de pd th co im du vi ta cat cid].
  cbn [title url author_name collected_at publish_date] in *.
  unfold from_dict, to_dict.
  cbn [title url author_name author_url category description publish_date
       thumbnail_url cover_image_url images duration views tags collected_at
       content_id].
  destruct pd as [d |].
  - specialize (Hp d eq_refl).
    cbv -[isoformat fromisoformat blank bad_url CategoryType_of value
          Dict.strs List.map __post_init__].
    rewrite CategoryType_of_value. cbv beta iota.
    rewrite !fromisoformat_isoformat by assumption. cbv beta iota.
    rewrite !strs_map_VStr. cbv beta iota.
    unfold __post_init__; cbn [title url author_name category].
    rewrite Ht, Hu, Ha.
    destruct th, co, du, vi, cid; reflexivity.
  - cbv -[isoformat fromisoformat blank bad_url CategoryType_of value
          Dict.strs List.map __post_init__].
    rewrite CategoryType_of_value. cbv beta iota.
    rewrite !fromisoformat_isoformat by assumption. cbv beta iota.
    rewrite !strs_map_VStr. cbv beta iota.
    unfold __post_init__; cbn [title url author_name category].
    rewrite Ht, Hu, Ha.
    destruct th, co, du, vi, cid; reflexivity.
Qed.

End Serialization.

(** C3 (as amended).  A valid ContentItem round-trips:
    [from_dict(to_dict(x)) == x], with the category written as its
    display string and the timestamps as ISO-8601 text.  CollectionResult
    has a serializer only: [to_dict] writes the category as its display
    string, [collected_at] as ISO-8601 text, every item through
    [ContentItem.to_dict] (so that [ContentItem.from_dict] recovers each
    item) and adds [total_items = len(items)]. *)
Theorem serialization_roundtrip (now : datetime) (x : ContentItem.t)
    (r : CollectionResult.t) :
  valid_item x = true ->
  Forall (fun y => valid_item y = true) (CollectionResult.items r) ->
  ContentItemDict.from_dict now (ContentItemDict.to_dict x) = Ok x /\
  Dict.get "category" (ContentItemDict.to_dict x)
    = Some (VStr (value (ContentItem.category x))) /\
  Dict.get "collected_at" (ContentItemDict.to_dict x)
    = Some (VStr (isoformat (ContentItem.collected_at x))) /\
  Dict.get "publish_date" (ContentItemDict.to_dict x)
    = Some (match ContentItem.publish_date x with
            | Some d => VStr (isoformat d)
            | None => VNone
            end) /\
  Dict.get "category" (CollectionResult.to_dict r)
    = Some (VStr (value (CollectionResult.category r))) /\
  Dict.get "collected_at" (CollectionResult.to_dict r)
    = Some (VStr (isoformat (CollectionResult.collected_at r))) /\
  Dict.get "total_items" (CollectionResult.to_dict r)
    = Some (VInt (len (CollectionResult.items r))) /\
  Dict.get "items" (CollectionResult.to_dict r)
    = Some (VList (List.map (fun y => VDict (ContentItemDict.to_dict y))
                     (CollectionResult.items r))) /\
  Forall (fun y => ContentItemDict.from_dict now (ContentItemDict.to_dict y) = Ok y)
    (CollectionResult.items r).
Proof.
  intros Hx Hr.
  split; [now apply from_dict_to_dict |].
  split; [destruct x as [? ? ? ? ? ? [d |] ? ? ? ? ? ? ? ?]; reflexivity |].
  split; [destruct x as [? ? ? ? ? ? [d |] ? ? ? ? ? ? ? ?]; reflexivity |].
  split; [destruct x as [? ? ? ? ? ? [d |] ? ? ? ? ? ? ? ?]; reflexivity |].
  repeat (split; [reflexivity |]).
  eapply List.Forall_impl; [| exact Hr].
  intros y Hy. now apply from_dict_to_dict.
Qed.

Lemma serialization_roundtrip_witness :
  ContentItemDict.from_dict Samples.t1
    (ContentItemDict.to_dict
       (Samples.item "Title" "https://example.com/v" "Author"))
  = Ok (Samples.item "Title" "https://example.com/v" "Author").
Proof.
  apply (serialization_roundtrip Samples.t1
           (Samples.item "Title" "https://example.com/v" "Author")
           (CollectionResult.mk "Author" "https://example.com" VIDEO true
              [Samples.item "Title" "https://example.com/v" "Author"] None
              Samples.t0)).
  - reflexivity.
  - repeat constructor.
Defined.

(** C3, the claim as stated fails for CollectionResult: the mapping that
    [to_dict] produces is not accepted back by the class.  Its only
    constructor raises TypeError on the key [total_items], so no value
    equal to the serialized result is obtained. *)
Lemma result_mapping_not_deserializable :
  CollectionResult.init_kwargs Samples.t1
    (CollectionResult.to_dict
       (CollectionResult.mk "Author" "https://example.com" VIDEO true
          [Samples.item "Title" "https://example.com/v" "Author"] None Samples.t0))
  = Raise (TypeError "__init__() got an unexpected keyword argument 'total_items'").
Proof. reflexivity. Qed.

(** ** The collectors *)

Section CollectFacts.

Lemma collect_entries_survivors parse (entries : list Feed.Entry) :
  forall acc,
    BaseCollector.collect_entries parse entries acc
    = acc ++ survivors parse entries.
Proof.
  induction entries as [| entry rest IH]; intros acc.
  - cbn. now rewrite app_nil_r.
  - cbn [BaseCollector.collect_entries survivors flat_map].
    destruct (parse entry) as [[item |] | e]; rewrite IH.
    + now rewrite <- app_assoc.
    + reflexivity.
    + reflexivity.
Qed.

Lemma survivors_length parse (entries : list Feed.Entry) :
  (length (survivors parse entries) <= length entries)%nat.
Proof.
  induction entries as [| entry rest IH]; [cbn; lia |].
  cbn [survivors flat_map]. rewrite length_app. fold (survivors parse rest).
  destruct (parse entry) as [[item |] | e]; cbn [length]; lia.
Qed.

Lemma slice_to_length {A} (l : list A) (n : Z) :
  0 <= n -> len (slice_to l n) <= n.
Proof.
  intros H. unfold slice_to, len.
  destruct (Z.leb_spec 0 n); [| lia].
  rewrite length_firstn. lia.
Qed.

Lemma survivors_slice_bound parse (entries : list Feed.Entry) (n : Z) :
  0 <= n -> len (survivors parse (slice_to entries n)) <= n.
Proof.
  intros H. pose proof (slice_to_length entries n H).
  pose proof (survivors_length parse (slice_to entries n)).
  unfold len in *. lia.
Qed.

Variable w : World.
Variable max_items : Z.
Hypothesis max_items_pos : 1 <= max_items.

Lemma failed_fetch_contract (a : Author) (e : exn) parse :
  meets_collect_contract max_items (Raise e) parse
    (BaseCollector._create_error_result w a
       (String.append "采集失败: " (str_of_exn e))).
Proof.
  eexists; split; [reflexivity |]. cbn.
  split; [unfold len; cbn [length]; lia |].
  split; [intros _; eauto |].
  split; [intros e' [= <-]; auto | intros feed' [=]].
Qed.

Lemma no_survivor_contract (a : Author) (feed : Feed.t) parse (msg : string) (ok : bool) :
  survivors (parse feed) (slice_to (Feed.entries feed) max_items) = [] ->
  meets_collect_contract max_items (Ok feed) parse
    (CollectionResult.new (Config.name a) (Config.url a) (Config.category a)
       ok [] (if ok then None else Some msg) (now w)).
Proof.
  intros Hs. eexists; split; [reflexivity |]. cbn.
  split; [unfold len; cbn [length]; lia |].
  split; [intros ->; eauto |].
  split; [intros e' [=] |].
  intros feed' [= <-] Hne. now rewrite Hs in Hne.
Qed.

Lemma survivors_contract (a : Author) (feed : Feed.t) parse :
  survivors (parse feed) (slice_to (Feed.entries feed) max_items) <> [] ->
  meets_collect_contract max_items (Ok feed) parse
    (BaseCollector._create_success_result w a
       (survivors (parse feed) (slice_to (Feed.entries feed) max_items))).
Proof.
  intros Hs. eexists; split; [reflexivity |]. cbn.
  split; [apply survivors_slice_bound; lia |].
  split; [intros [=] |].
  split; [intros e' [=] |].
  intros feed' [= <-] _. auto.
Qed.

Lemma slice_to_nil {A} (n : Z) : slice_to (@nil A) n = [].
Proof. unfold slice_to. destruct (0 <=? n); apply firstn_nil. Qed.

Lemma youtube_contract (self : YouTubeCollector.t) :
  YouTubeCollector.falsy (YouTubeCollector.rss_url self) = false ->
  meets_collect_contract max_items
    (feedparser_parse w (Feed.get (YouTubeCollector.rss_url self) EmptyString))
    (fun _ entry => Ok (YouTubeCollector._parse_entry w self entry))
    (YouTubeCollector.collect w self max_items).
Proof.
  intros Hrss. unfold YouTubeCollector.collect. rewrite Hrss.
  destruct (feedparser_parse w _) as [feed | e]; cbn [bind catch];
    [| apply failed_fetch_contract].
  destruct (Feed.entries feed) as [| e0 es] eqn:He.
  - apply (no_survivor_contract _ feed _ _ false).
    rewrite He, slice_to_nil. reflexivity.
  - rewrite collect_entries_survivors. cbn [app]. rewrite <- He.
    set (items := survivors _ _).
    destruct items as [| i0 items'] eqn:Hi.
    + apply (no_survivor_contract _ feed _ EmptyString true). exact Hi.
    + rewrite <- Hi. apply survivors_contract. subst items. now rewrite Hi.
Qed.

Lemma podcast_contract (self : PodcastCollector.t) :
  meets_collect_contract max_items
    (feedparser_parse w (PodcastCollector.rss_url self))
    (fun feed entry => PodcastCollector._parse_entry w self entry feed)
    (PodcastCollector.collect w self max_items).
Proof.
  unfold PodcastCollector.collect.
  destruct (feedparser_parse w _) as [feed | e]; cbn [bind catch];
    [| apply failed_fetch_contract].
  destruct (Feed.entries feed) as [| e0 es] eqn:He.
  - apply (no_survivor_contract _ feed _ _ false).
    rewrite He, slice_to_nil. reflexivity.
  - rewrite collect_entries_survivors. cbn [app]. rewrite <- He.
    set (items := survivors _ _).
    destruct items as [| i0 items'] eqn:Hi.
    + apply (no_survivor_contract _ feed _ _ false). exact Hi.
    + rewrite <- Hi. apply survivors_contract. subst items. now rewrite Hi.
Qed.

Lemma news_contract (self : NewsCollector.t) :
  meets_collect_contract max_items
    (feedparser_parse w (NewsCollector.feed_url self))
    (fun feed entry => NewsCollector._parse_entry w self entry feed)
    (NewsCollector.collect w self max_items).
Proof.
  unfold NewsCollector.collect.
  destruct (feedparser_parse w _) as [feed | e]; cbn [bind catch];
    [| apply failed_fetch_contract].
  destruct (Feed.entries feed) as [| e0 es] eqn:He.
  - apply (no_survivor_contract _ feed _ _ false).
    rewrite He, slice_to_nil. reflexivity.
  - rewrite collect_entries_survivors. cbn [app]. rewrite <- He.
    set (items := survivors _ _).
    destruct items as [| i0 items'] eqn:Hi.
    + apply (no_survivor_contract _ feed _ _ false). exact Hi.
    + rewrite <- Hi. apply survivors_contract. subst items. now rewrite Hi.
Qed.

End CollectFacts.

(** C8.  For each of the three collectors and every [max_items >= 1],
    [collect] returns a result and never raises; the result holds at most
    [max_items] items; a failure of the whole fetch gives a failed result
    whose message reports the exception; an entry that does not map is
    left out, and the entries of the first [max_items] that do map are
    returned in a successful result.  A video collector without a feed
    address returns a failed result.  (The conditions are those of
    [meets_collect_contract].) *)
Theorem collect_never_raises_and_bounded (w : World) (max_items : Z) :
  1 <= max_items ->
  (forall self : YouTubeCollector.t,
     if YouTubeCollector.falsy (YouTubeCollector.rss_url self) then
       exists r msg,
         YouTubeCollector.collect w self max_items = Ok r /\
         CollectionResult.success r = false /\
         CollectionResult.items r = [] /\
         CollectionResult.error_message r = Some msg
     else
       meets_collect_contract max_items
         (feedparser_parse w (Feed.get (YouTubeCollector.rss_url self) EmptyString))
         (fun _ entry => Ok (YouTubeCollector._parse_entry w self entry))
         (YouTubeCollector.collect w self max_items)) /\
  (forall self : PodcastCollector.t,
     meets_collect_contract max_items
       (feedparser_parse w (PodcastCollector.rss_url self))
       (fun feed entry => PodcastCollector._parse_entry w self entry feed)
       (PodcastCollector.collect w self max_items)) /\
  (forall self : NewsCollector.t,
     meets_collect_contract max_items
       (feedparser_parse w (NewsCollector.feed_url self))
       (fun feed entry => NewsCollector._parse_entry w self entry feed)
       (NewsCollector.collect w self max_items)).
Proof.
  intros Hpos. split; [| split].
  - intros self.
    destruct (YouTubeCollector.falsy (YouTubeCollector.rss_url self)) eqn:Hrss.
    + unfold YouTubeCollector.collect. rewrite Hrss.
      eexists _, _. repeat split; reflexivity.
    + now apply youtube_contract.
  - intros self. now apply podcast_contract.
  - intros self. now apply news_contract.
Qed.

Lemma collect_never_raises_and_bounded_witness :
  meets_collect_contract 5 (Samples.feed_of Samples.ten_entries)
    (fun feed entry =>
       NewsCollector._parse_entry (Samples.world (Samples.feed_of Samples.ten_entries))
         Samples.news entry feed)
    (NewsCollector.collect (Samples.world (Samples.feed_of Samples.ten_entries))
       Samples.news 5).
Proof.
  apply (proj2 (proj2 (collect_never_raises_and_bounded
                         (Samples.world (Samples.feed_of Samples.ten_entries)) 5
                         ltac:(lia))) Samples.news).
Defined.

(** A feed of eight entries that map and two that do not, read with
    [max_items = 5]: the two bad entries among the first five are left
    out and the call succeeds with the three others. *)
Example collect_ten_entries :
  exists r,
    NewsCollector.collect (Samples.world (Samples.feed_of Samples.ten_entries))
      Samples.news 5 = Ok r /\
    CollectionResult.success r = true /\
    List.map ContentItem.title (CollectionResult.items r)
    = ["Post 1"; "Post 2"; "Post 3"]%string.
Proof. eexists. repeat split. Qed.

(** C4.  On a feed whose only entry has no title, so that no entry
    survives the mapping, the video collector returns a successful result
    with an empty item list, where the podcast and the news collector
    return a failed result with their no-valid-entry message. *)
Theorem youtube_empty_success :
  YouTubeCollector.collect (Samples.world Samples.untitled_feed) Samples.youtube 10
  = Ok (CollectionResult.mk "Lex" "https://www.youtube.com/@lex" VIDEO true []
          None Samples.t0)
  /\ PodcastCollector.collect (Samples.world Samples.untitled_feed) Samples.podcast 10
     = Ok (CollectionResult.mk "Lex" "https://lexfridman.com/podcast" PODCAST false []
             (Some "未能解析任何有效的 Podcast 条目"%string) Samples.t0)
  /\ NewsCollector.collect (Samples.world Samples.untitled_feed) Samples.news 10
     = Ok (CollectionResult.mk "Simon" "https://simonwillison.net" NEWS false []
             (Some "未能解析任何有效的新闻条目"%string) Samples.t0).
Proof. repeat split. Qed.

(** The same in general: whenever the feed has entries and none of the
    first [max_items] survives, the video collector reports success. *)
Lemma youtube_no_survivor_success (w : World) (self : YouTubeCollector.t)
    (feed : Feed.t) (max_items : Z) :
  YouTubeCollector.falsy (YouTubeCollector.rss_url self) = false ->
  feedparser_parse w (Feed.get (YouTubeCollector.rss_url self) EmptyString)
  = Ok feed ->
  Feed.entries feed <> [] ->
  survivors (fun entry => Ok (YouTubeCollector._parse_entry w self entry))
    (slice_to (Feed.entries feed) max_items) = [] ->
  YouTubeCollector.collect w self max_items
  = Ok (CollectionResult.mk (Config.name (YouTubeCollector.author self))
          (Config.url (YouTubeCollector.author self))
          (Config.category (YouTubeCollector.author self)) true [] None (now w)).
Proof.
  intros Hrss Hfeed Hne Hs. unfold YouTubeCollector.collect.
  rewrite Hrss, Hfeed. cbn [bind catch].
  destruct (Feed.entries feed) as [| e0 es] eqn:He; [congruence |].
  rewrite collect_entries_survivors, Hs. reflexivity.
Qed.

Lemma news_no_survivor_failure (w : World) (self : NewsCollector.t)
    (feed : Feed.t) (max_items : Z) :
  feedparser_parse w (NewsCollector.feed_url self) = Ok feed ->
  Feed.entries feed <> [] ->
  survivors (fun entry => NewsCollector._parse_entry w self entry feed)
    (slice_to (Feed.entries feed) max_items) = [] ->
  NewsCollector.collect w self max_items
  = Ok (CollectionResult.mk (Config.name (NewsCollector.author self))
          (Config.url (NewsCollector.author self))
          (Config.category (NewsCollector.author self)) false []
          (Some "未能解析任何有效的新闻条目"%string) (now w)).
Proof.
  intros Hfeed Hne Hs. unfold NewsCollector.collect.
  rewrite Hfeed. cbn [bind catch].
  destruct (Feed.entries feed) as [| e0 es] eqn:He; [congruence |].
  rewrite collect_entries_survivors, Hs. reflexivity.
Qed.

Lemma podcast_no_survivor_failure (w : World) (self : PodcastCollector.t)
    (feed : Feed.t) (max_items : Z) :
  feedparser_parse w (PodcastCollector.rss_url self) = Ok feed ->
  Feed.entries feed <> [] ->
  survivors (fun entry => PodcastCollector._parse_entry w self entry feed)
    (slice_to (Feed.entries feed) max_items) = [] ->
  PodcastCollector.collect w self max_items
  = Ok (CollectionResult.mk (Config.name (PodcastCollector.author self))
          (Config.url (PodcastCollector.author self))
          (Config.category (PodcastCollector.author self)) false []
          (Some "未能解析任何有效的 Podcast 条目"%string) (now w)).
Proof.
  intros Hfeed Hne Hs. unfold PodcastCollector.collect.
  rewrite Hfeed. cbn [bind catch].
  destruct (Feed.entries feed) as [| e0 es] eqn:He; [congruence |].
  rewrite collect_entries_survivors, Hs. reflexivity.
Qed.

(** ** Descriptions *)

Lemma new_keeps_fields (a : ContentItem.args) (x : ContentItem.t) :
  ContentItem.new a = Ok x -> exists c, x = ContentItem.with_category a c.
Proof.
  unfold ContentItem.new, ContentItem.__post_init__.
  destruct (ContentItem.blank (ContentItem.title a)); [discriminate |].
  destruct (ContentItem.bad_url (ContentItem.url a)); [discriminate |].
  destruct (ContentItem.blank (ContentItem.author_name a)); [discriminate |].
  destruct (ContentItem.category a) as [c | s]; cbn [bind].
  - intros [= <-]. now exists c.
  - destruct (CategoryType_of s) as [c | e]; cbn [bind]; [| discriminate].
    intros [= <-]. now exists c.
Qed.

(** The news and the podcast mapping follow the description policy. *)
Lemma news_description (w : World) (self : NewsCollector.t)
    (entry : Feed.Entry) (feed : Feed.t) (item : ContentItem.t) :
  NewsCollector._parse_entry w self entry feed = Ok (Some item) ->
  ContentItem.description item = description_policy w entry.
Proof.
  unfold NewsCollector._parse_entry.
  destruct (negb (truthy_str (strip (Feed.get (Feed.title entry) EmptyString))));
    [discriminate |].
  destruct (negb (truthy_str (strip (Feed.get (Feed.link entry) EmptyString))));
    [discriminate |].
  match goal with
  | |- context [ContentItem.new ?a] =>
      destruct (ContentItem.new a) as [x | e] eqn:Hnew; cbn [bind];
      [apply new_keeps_fields in Hnew; destruct Hnew as [c ->] | discriminate]
  end.
  intros [= <-]. reflexivity.
Qed.

Lemma podcast_description (w : World) (self : PodcastCollector.t)
    (entry : Feed.Entry) (feed : Feed.t) (item : ContentItem.t) :
  PodcastCollector._parse_entry w self entry feed = Ok (Some item) ->
  ContentItem.description item = description_policy w entry.
Proof.
  unfold PodcastCollector._parse_entry.
  destruct (negb (truthy_str (strip (Feed.get (Feed.title entry) EmptyString))));
    [discriminate |].
  destruct (negb (truthy_str (strip (Feed.get (Feed.link entry) EmptyString))));
    [discriminate |].
  match goal with
  | |- context [ContentItem.new ?a] =>
      destruct (ContentItem.new a) as [x | e] eqn:Hnew; cbn [bind];
      [apply new_keeps_fields in Hnew; destruct Hnew as [c ->] | discriminate]
  end.
  intros [= <-]. reflexivity.
Qed.

(** The video mapping stores the summary with surrounding blanks removed
    and nothing else done to it. *)
Lemma youtube_description (w : World) (self : YouTubeCollector.t)
    (entry : Feed.Entry) (item : ContentItem.t) :
  YouTubeCollector._parse_entry w self entry = Some item ->
  ContentItem.description item
  = strip (Feed.get (Feed.summary entry) EmptyString).
Proof.
  unfold YouTubeCollector._parse_entry, YouTubeCollector.parse_entry_body.
  match goal with
  | |- context [bind ?d _] => destruct d as [pd | e]; cbn [bind]; [| discriminate]
  end.
  match goal with
  | |- context [ContentItem.new ?a] =>
      destruct (ContentItem.new a) as [x | e] eqn:Hnew;
      [apply new_keeps_fields in Hnew; destruct Hnew as [c ->] | discriminate]
  end.
  intros [= <-]. reflexivity.
Qed.

(** The policy cuts at 500 characters. *)
Lemma description_policy_length (w : World) (entry : Feed.Entry) :
  (String.length (description_policy w entry) <= 503)%nat.
Proof.
  unfold description_policy, FeedText.clean_description.
  destruct (FeedText.raw_description entry) as [| c0 raw] eqn:Hraw;
    cbn [truthy_str String.length]; [lia |].
  set (text := strip _).
  destruct (Nat.ltb_spec 500 (String.length text)) as [Hlong | Hshort]; [| lia].
  assert (Happ : forall a b, String.length (String.append a b)
                             = (String.length a + String.length b)%nat).
  { intros a b. induction a as [| c a IH]; [reflexivity |].
    rewrite append_cons. cbn [String.length]. now rewrite IH. }
  assert (Htake : forall n s, (String.length (str_take n s) <= n)%nat).
  { intros n. induction n as [| n IH]; intros s; [cbn; lia |].
    destruct s as [| c s]; cbn; [lia |]. specialize (IH s). lia. }
  rewrite Happ. specialize (Htake 500%nat text). cbn [String.length]. lia.
Qed.

(** C7.  On an entry whose summary is 501 characters long the video
    mapping stores all 501 characters, where the policy (and with it the
    news and the podcast mapping) stores the first 500 followed by an
    ellipsis; on an entry whose summary carries markup the video mapping
    stores the markup, where the policy stores the text. *)
Theorem youtube_description_not_policy :
  let w := Samples.world (Samples.feed_of []) in
  option_map ContentItem.description
    (YouTubeCollector._parse_entry w Samples.youtube Samples.long_entry)
  = Some Samples.long_summary
  /\ String.length Samples.long_summary = 501%nat
  /\ description_policy w Samples.long_entry
     = String.append (str_take 500 Samples.long_summary) "..."
  /\ option_map ContentItem.description
       (YouTubeCollector._parse_entry w Samples.youtube Samples.html_entry)
     = Some "<b>Hello</b> world"%string
  /\ description_policy w Samples.html_entry = "Hello world"%string
  /\ (exists item,
        NewsCollector._parse_entry w Samples.news Samples.long_entry
          (Feed.mk [] None) = Ok (Some item) /\
        ContentItem.description item
        = String.append (str_take 500 Samples.long_summary) "...")
  /\ (exists item,
        PodcastCollector._parse_entry w Samples.podcast Samples.long_entry
          (Feed.mk [] None) = Ok (Some item) /\
        ContentItem.description item
        = String.append (str_take 500 Samples.long_summary) "...").
Proof.
  intros w.
  split; [vm_compute; reflexivity |].
  split; [vm_compute; reflexivity |].
  split; [vm_compute; reflexivity |].
  split; [vm_compute; reflexivity |].
  split; [vm_compute; reflexivity |].
  split; eexists; (split; [vm_compute; reflexivity | vm_compute; reflexivity]).
Qed.

(** ** collector_manager.py *)

Section ManagerFacts.
Import CollectorManager.






End ManagerFacts.




(** ** app.py: the merge *)

Section MergeFacts.
Import App.

Lemma partition_fold_failed (results : list ResultDoc.t) :
  forall (failed successful : gset (option string)) (a : option string),
    a ∈ fst (fold_left partition_step results (failed, successful)) <->
    a ∈ failed \/
    exists r, In r results /\ ResultDoc.author_name r = a /\
              ResultDoc.success r = false.
Proof.
  induction results as [| r rest IH]; intros failed successful a.
  - cbn. split; [auto | intros [H | (r & [] & _)]; exact H].
  - cbn [fold_left]. unfold partition_step at 2.
    destruct (ResultDoc.success r) eqn:Hs; cbn [negb]; rewrite IH.
    + split.
      * intros [H | (r' & Hin & Ha & Hf)]; [now left |].
        right. exists r'. split; [now right | auto].
      * intros [H | (r' & [<- | Hin] & Ha & Hf)]; [now left | congruence |].
        right. exists r'. auto.
    + split.
      * intros [H | (r' & Hin & Ha & Hf)].
        -- apply elem_of_union in H. destruct H as [H | H]; [| now left].
           apply elem_of_singleton in H. right. exists r.
           split; [now left | auto].
        -- right. exists r'. split; [now right | auto].
      * intros [H | (r' & [<- | Hin] & Ha & Hf)].
        -- left. apply elem_of_union. now right.
        -- left. apply elem_of_union. left. now apply elem_of_singleton.
        -- right. exists r'. auto.
Qed.

Lemma partition_failed (data : SnapshotDoc.t) (a : option string) :
  a ∈ fst (partition (SnapshotDoc.get_results data)) <-> failed_in data a.
Proof.
  unfold partition, failed_in. rewrite partition_fold_failed.
  split; [intros [H | H]; [set_solver | exact H] | auto].
Qed.

Lemma backfill_skip (old : SnapshotDoc.t) (st : MergeState) (r : ResultDoc.t) :
  ResultDoc.author_name r ∉ failed_authors st \/ ResultDoc.success r = false ->
  backfill old st r = Ok st.
Proof.
  intros H. unfold backfill.
  destruct H as [H | H].
  - rewrite bool_decide_eq_false_2 by exact H. reflexivity.
  - rewrite H, andb_false_r. reflexivity.
Qed.

Lemma backfill_fire (old : SnapshotDoc.t) (st : MergeState) (r : ResultDoc.t)
    (results : list ResultDoc.t) :
  ResultDoc.author_name r ∈ failed_authors st ->
  ResultDoc.success r = true ->
  SnapshotDoc.results (latest_data st) = Some results ->
  backfill old st r
  = Ok (mkState
          (SnapshotDoc.mk
             (SnapshotDoc.collected_at (latest_data st))
             (SnapshotDoc.total_authors (latest_data st))
             (Some (SnapshotDoc.get0 (SnapshotDoc.successful_authors (latest_data st)) + 1))
             (Some (SnapshotDoc.get0 (SnapshotDoc.failed_authors (latest_data st)) - 1))
             (Some (SnapshotDoc.get0 (SnapshotDoc.total_items (latest_data st))
                    + len (ResultDoc.get_items r)))
             (Some (List.filter (other_author (ResultDoc.author_name r)) results
                    ++ [ResultDoc.tag_from_history (SnapshotDoc.collected_at old) r]))
             (SnapshotDoc.payload (latest_data st)))
          (failed_authors st ∖ {[ResultDoc.author_name r]})
          ({[ResultDoc.author_name r]} ∪ successful_authors st)).
Proof.
  intros Hin Hs Hr. unfold backfill.
  rewrite bool_decide_eq_true_2 by exact Hin. rewrite Hs, Hr. reflexivity.
Qed.





End MergeFacts.

Section MergeShape.
Import App.

Lemma unresolved_by_snoc (resolved : list ResultDoc.t) (t x : ResultDoc.t) :
  unresolved_by (resolved ++ [t]) x
  = unresolved_by resolved x && other_author (ResultDoc.author_name t) x.
Proof.
  unfold unresolved_by. rewrite forallb_app. cbn [forallb].
  now rewrite andb_true_r.
Qed.

Lemma filter_filter_and {A} (f g : A -> bool) (l : list A) :
  List.filter f (List.filter g l) = List.filter (fun x => g x && f x) l.
Proof.
  induction l as [| x l IH]; [reflexivity |].
  cbn [List.filter]. destruct (g x); cbn [List.filter andb].
  - destruct (f x); now rewrite IH.
  - exact IH.
Qed.

Lemma other_author_true (a : option string) (r : ResultDoc.t) :
  other_author a r = true <-> ResultDoc.author_name r <> a.
Proof.
  unfold other_author. rewrite negb_true_iff, bool_decide_eq_false. tauto.
Qed.

Lemma filter_other_resolved (a : option string) (resolved : list ResultDoc.t) :
  ~ In a (names resolved) ->
  List.filter (other_author a) resolved = resolved.
Proof.
  induction resolved as [| t rest IH]; intros Hnot; [reflexivity |].
  cbn [List.filter]. cbn in Hnot.
  assert (Ht : other_author a t = true) by (apply other_author_true; tauto).
  rewrite Ht. f_equal. apply IH. tauto.
Qed.

Lemma items_total_snoc (resolved : list ResultDoc.t) (t : ResultDoc.t) :
  items_total (resolved ++ [t])
  = items_total resolved + len (ResultDoc.get_items t).
Proof.
  induction resolved as [| x rest IH]; cbn [app items_total fold_right].
  - lia.
  - fold (items_total (rest ++ [t])). fold (items_total rest). lia.
Qed.

Lemma len_snoc {A} (l : list A) (x : A) : len (l ++ [x]) = len l + 1.
Proof. unfold len. rewrite length_app. cbn [length]. lia. Qed.

Variable base : SnapshotDoc.t.

(** One backfill step keeps the shape of the merge state and never
    raises. *)
Lemma backfill_inv (old : SnapshotDoc.t) (st : MergeState) (r : ResultDoc.t)
    (resolved : list ResultDoc.t) :
  merge_inv base st resolved ->
  exists st' resolved',
    backfill old st r = Ok st' /\ merge_inv base st' resolved'.
Proof.
  intros Hinv.
  destruct (decide (ResultDoc.author_name r ∈ failed_authors st)) as [Hin | Hnin];
    [| exists st, resolved; split; [apply backfill_skip; now left | exact Hinv]].
  destruct (ResultDoc.success r) eqn:Hs;
    [| exists st, resolved; split; [apply backfill_skip; now right | exact Hinv]].
  destruct Hinv as (Hm & Hres & Hfailed).
  destruct (SnapshotDoc.results (latest_data st)) as [results |] eqn:Hr;
    [| congruence].
  destruct Hm as (Hrs & Hnd & Hall & Hca & Hta & Hpl & Hsu & Hfa & Hti & _ & _).
  unfold SnapshotDoc.get_results in Hrs at 1. rewrite Hr in Hrs.
  apply Hfailed in Hin as Hin'. destruct Hin' as [Hbase Hfresh].
  set (t := ResultDoc.tag_from_history (SnapshotDoc.collected_at old) r).
  eexists _, (resolved ++ [t]).
  split; [apply (backfill_fire old st r results Hin Hs Hr) |].
  unfold merge_inv, merged_from. cbn [latest_data failed_authors].
  cbn [SnapshotDoc.get_results SnapshotDoc.results SnapshotDoc.collected_at
       SnapshotDoc.total_authors SnapshotDoc.payload
       SnapshotDoc.successful_authors SnapshotDoc.failed_authors
       SnapshotDoc.total_items SnapshotDoc.get0].
  fold t.
  split; [| split; [discriminate |]].
  - split.
    { rewrite Hrs, List.filter_app, filter_filter_and.
      rewrite (filter_other_resolved _ resolved Hfresh).
      rewrite <- app_assoc. f_equal.
      apply List.filter_ext. intros x. now rewrite unresolved_by_snoc. }
    split.
    { unfold names in *. rewrite List.map_app. cbn [List.map].
      apply List.NoDup_app; [exact Hnd | repeat constructor; intros [] |].
      intros a Ha [<- | []]. now apply Hfresh. }
    split.
    { intros t' Ht'. apply in_app_or in Ht'. destruct Ht' as [Ht' | [<- | []]].
      - now apply Hall.
      - subst t. cbn. auto. }
    repeat (split; [assumption |]).
    rewrite len_snoc, items_total_snoc.
    change (ResultDoc.get_items t) with (ResultDoc.get_items r).
    split; [lia |]. split; [lia |]. split; [lia |].
    split; [intros Heq; now destruct resolved |].
    intros _. repeat split; discriminate.
  - intros a. rewrite elem_of_difference, elem_of_singleton, Hfailed.
    unfold names. rewrite List.map_app, in_app_iff. cbn [List.map In].
    subst t. cbn [ResultDoc.author_name ResultDoc.tag_from_history].
    split.
    + intros [[Hb Hn] Hne]. split; [exact Hb |].
      intros [H | [H | []]]; [now apply Hn | congruence].
    + intros [Hb Hn]. split; [split; [exact Hb | tauto] |].
      intros ->. apply Hn. right. now left.
Qed.

Lemma backfill_all_inv (old : SnapshotDoc.t) (results : list ResultDoc.t) :
  forall st resolved,
    merge_inv base st resolved ->
    exists st' resolved',
      backfill_all old results st = Ok st' /\ merge_inv base st' resolved'.
Proof.
  induction results as [| r rest IH]; intros st resolved Hinv.
  - exists st, resolved. split; [reflexivity | exact Hinv].
  - destruct (backfill_inv old st r resolved Hinv) as (st1 & res1 & Hb & Hinv1).
    destruct (IH st1 res1 Hinv1) as (st2 & res2 & Hb2 & Hinv2).
    exists st2, res2. split; [| exact Hinv2].
    cbn [backfill_all]. rewrite Hb. exact Hb2.
Qed.

Lemma scan_inv (files : list File) :
  forall st loaded resolved,
    merge_inv base st resolved ->
    exists st' loaded' resolved',
      scan files st loaded = Ok (st', loaded') /\ merge_inv base st' resolved'.
Proof.
  induction files as [| f rest IH]; intros st loaded resolved Hinv.
  - exists st, loaded, resolved. split; [reflexivity | exact Hinv].
  - cbn [scan].
    destruct (bool_decide (failed_authors st = ∅));
      [exists st, loaded, resolved; split; [reflexivity | exact Hinv] |].
    destruct (content f) as [old |]; [| now apply (IH st _ resolved)].
    destruct (SnapshotDoc.is_empty old); [now apply (IH st _ resolved) |].
    destruct (backfill_all_inv old (SnapshotDoc.get_results old) st resolved Hinv)
      as (st1 & res1 & Hb & Hinv1).
    rewrite Hb. cbn [bind]. now apply (IH st1 _ res1).
Qed.

End MergeShape.

Section MergeScan.
Import App.

Lemma filter_all {A} (f : A -> bool) (l : list A) :
  (forall x, In x l -> f x = true) -> List.filter f l = l.
Proof.
  induction l as [| x l IH]; intros H; [reflexivity |].
  cbn [List.filter]. rewrite (H x (or_introl eq_refl)). f_equal.
  apply IH. intros y Hy. apply H. now right.
Qed.

Lemma merged_from_refl (base : SnapshotDoc.t) : merged_from base base [].
Proof.
  unfold merged_from. cbn [unresolved_by forallb names List.map items_total
                            fold_right len length].
  rewrite app_nil_r, filter_all by reflexivity.
  unfold len; cbn [length].
  repeat split; try lia; try constructor; try tauto; try contradiction.
Qed.

Lemma get_results_in_some (data : SnapshotDoc.t) (r : ResultDoc.t) :
  In r (SnapshotDoc.get_results data) -> SnapshotDoc.results data <> None.
Proof.
  unfold SnapshotDoc.get_results.
  destruct (SnapshotDoc.results data); [discriminate | intros []].
Qed.


(** The state the scan starts from satisfies the invariant. *)
Lemma initial_inv (base : SnapshotDoc.t) (failed successful : gset (option string)) :
  partition (SnapshotDoc.get_results base) = (failed, successful) ->
  failed <> ∅ ->
  merge_inv base (mkState base failed successful) [].
Proof.
  intros Hp Hne.
  assert (Hf : forall a, a ∈ failed <-> failed_in base a).
  { intros a. rewrite <- partition_failed, Hp. reflexivity. }
  split; [apply merged_from_refl |]. cbn [latest_data failed_authors]. split.
  - apply set_choose_L in Hne. destruct Hne as [a Ha].
    apply Hf in Ha. destruct Ha as (r & Hin & _).
    now apply (get_results_in_some base r).
  - intros a. rewrite Hf. cbn. tauto.
Qed.









End MergeScan.

Section MergeAuthor.
Import App.

Variable Y : option string.






Variable base : SnapshotDoc.t.


End MergeAuthor.

Section MergeScenario.


End MergeScenario.

Section MergeTheorems.
Import App.


(** [load_latest_data] on a store whose newest file holds [base]: the
    scan from the initial state, or [base] itself when no author
    failed. *)
Lemma load_latest_unfold (f0 : File) (olds : list File) (base : SnapshotDoc.t) :
  content f0 = Some base -> SnapshotDoc.is_empty base = false ->
  let init := partition (SnapshotDoc.get_results base) in
  load_latest_data (f0 :: olds)
  = if bool_decide (fst init = ∅) then Ok (Some base, [name f0])
    else
      let* r := scan olds (mkState base (fst init) (snd init)) [name f0] in
      Ok (Some (latest_data (fst r)), snd r).
Proof.
  intros Hc He. cbn [load_latest_data]. rewrite Hc, He.
  destruct (partition (SnapshotDoc.get_results base)) as [failed successful].
  reflexivity.
Qed.

(** The merged view always exists and has the shape [merged_from]. *)
Lemma load_latest_shape (f0 : File) (olds : list File) (base : SnapshotDoc.t) :
  content f0 = Some base -> SnapshotDoc.is_empty base = false ->
  exists merged loaded resolved,
    load_latest_data (f0 :: olds) = Ok (Some merged, loaded) /\
    merged_from base merged resolved.
Proof.
  intros Hc He. rewrite (load_latest_unfold f0 olds base Hc He). cbn zeta.
  destruct (partition (SnapshotDoc.get_results base)) as [failed successful] eqn:Hp.
  cbn [fst snd].
  destruct (bool_decide_reflect (failed = ∅)) as [Hd | Hd].
  - exists base, [name f0], []. split; [reflexivity | apply merged_from_refl].
  - destruct (scan_inv base olds (mkState base failed successful) [name f0] []
                (initial_inv base failed successful Hp Hd))
      as (st & loaded & resolved & Hscan & Hinv & _).
    exists (latest_data st), loaded, resolved. rewrite Hscan. split; [reflexivity | exact Hinv].
Qed.


End MergeTheorems.









(** The scenario without backfill: Y stays failed with its message. *)
Example merge_scenario_without_backfill :
  exists merged loaded y,
    App.load_latest_data Samples.store_without_backfill = Ok (Some merged, loaded) /\
    by_author (Some "Y"%string) (SnapshotDoc.get_results merged) = [y] /\
    ResultDoc.success y = false /\
    ResultDoc.error_message y = Some "timed out"%string /\
    ResultDoc.from_history y = None /\
    SnapshotDoc.failed_authors merged = Some 1.
Proof.
  eexists _, _, _. split; [vm_compute; reflexivity |]. repeat split.
Qed.

Section MergeCounters.



Lemma unresolved_by_true (resolved : list ResultDoc.t) (r : ResultDoc.t) :
  unresolved_by resolved r = true <->
  ~ In (ResultDoc.author_name r) (names resolved).
Proof.
  unfold unresolved_by, names. rewrite forallb_forall, in_map_iff. split.
  - intros H (t & Ht & Hin). apply H in Hin.
    apply other_author_true in Hin. congruence.
  - intros H t Hin. apply other_author_true. intros Heq. apply H.
    exists t. auto.
Qed.



End MergeCounters.




(** ** app.py: the item list *)

Section ItemList.
Import App.

Lemma ltb_leb (a b : string) : String.ltb a b = true -> String.leb a b = true.
Proof. unfold String.ltb, String.leb. now destruct (String.compare a b). Qed.

Lemma not_ltb_leb (a b : string) : String.ltb a b = false -> String.leb b a = true.
Proof.
  unfold String.ltb, String.leb. rewrite (String.compare_antisym b a).
  now destruct (String.compare a b).
Qed.

Lemma insert_desc_perm {A} (key : A -> string) (x : A) (l : list A) :
  Permutation (x :: l) (insert_desc key x l).
Proof.
  induction l as [| y l IH]; [reflexivity |].
  cbn [insert_desc]. destruct (String.ltb (key x) (key y)); [| reflexivity].
  rewrite perm_swap. now constructor.
Qed.

Lemma insert_desc_sorted {A} (key : A -> string) (x : A) (l : list A) :
  Sorted (fun a b => String.leb (key b) (key a) = true) l ->
  Sorted (fun a b => String.leb (key b) (key a) = true) (insert_desc key x l).
Proof.
  induction l as [| y l IH]; intros Hs; [repeat constructor |].
  cbn [insert_desc]. destruct (String.ltb (key x) (key y)) eqn:Hlt.
  - apply Sorted_inv in Hs. destruct Hs as [Hs Hhd].
    constructor; [now apply IH |].
    destruct l as [| z l]; cbn [insert_desc].
    + constructor. now apply ltb_leb.
    + destruct (String.ltb (key x) (key z)).
      * constructor. now inversion Hhd.
      * constructor. now apply ltb_leb.
  - constructor; [exact Hs |]. constructor. now apply not_ltb_leb.
Qed.

(** Two or more items, one of which has [publish_date: null]: the
    sort raises. *)
Lemma sort_reverse_none {A} (key : A -> option string) (l : list A) (x : A) :
  (2 <= length l)%nat -> In x l -> key x = None ->
  sort_reverse key l = Raise none_order_error.
Proof.
  intros Hlen Hin Hx. unfold sort_reverse.
  apply Nat.leb_le in Hlen. rewrite Hlen. cbn [andb].
  assert (He : existsb (fun y => is_none (key y)) l = true).
  { apply existsb_exists. exists x. split; [exact Hin |]. now rewrite Hx. }
  now rewrite He.
Qed.

(** When every item has a key that is a string, the sort returns the
    items rearranged by descending key. *)
Lemma sort_reverse_dated (key : ItemDoc.t -> option string) (l : list ItemDoc.t) :
  (forall x, In x l -> key x <> None) ->
  exists l', sort_reverse key l = Ok l' /\ Permutation l l' /\
             Sorted (key_ge key) l'.
Proof.
  intros Hall. unfold sort_reverse.
  assert (He : existsb (fun y => is_none (key y)) l = false).
  { apply not_true_is_false. intros H. apply existsb_exists in H.
    destruct H as (x & Hin & Hx). apply (Hall x Hin).
    now destruct (key x). }
  rewrite He, andb_false_r. eexists. split; [reflexivity |].
  clear Hall He. induction l as [| x l [IHp IHs]]; [split; constructor |].
  cbn [fold_right]. split.
  - rewrite <- insert_desc_perm. now constructor.
  - now apply insert_desc_sorted.
Qed.

(** Flattening changes nothing in an item but [formatted_date]. *)
Lemma all_items_keep (fmt : option string -> string) (data : SnapshotDoc.t)
    (x' : ItemDoc.t) :
  In x' (all_items fmt data) ->
  exists r x,
    In r (SnapshotDoc.get_results data) /\ ResultDoc.success r = true /\
    In x (ResultDoc.get_items r) /\
    ItemDoc.publish_date x' = ItemDoc.publish_date x /\
    ItemDoc.category x' = ItemDoc.category x /\
    ItemDoc.payload x' = ItemDoc.payload x /\
    ItemDoc.formatted_date x' = Some (fmt (ItemDoc.get_publish_date x)).
Proof.
  unfold all_items. rewrite in_flat_map. intros (r & Hr & Hin).
  destruct (ResultDoc.success r) eqn:Hs; [| destruct Hin].
  apply in_map_iff in Hin. destruct Hin as (x & <- & Hx).
  exists r, x. repeat split; assumption.
Qed.

End ItemList.

(** C9.  On the snapshot [save_results] writes for a run whose result
    holds one dated and one undated item, building the item list raises
    TypeError in the sort: [to_dict] writes the missing date as
    [publish_date: null], so [x.get('publish_date', '')] is [None] and is
    compared with a string.  The undated item is not placed last; no
    list is produced. *)
Theorem undated_item_breaks_sort (format_publish_date : option string -> string) :
  App.sorted_items format_publish_date
    (Json.snapshot (DataStorage.save_results Samples.t0 Samples.run_undated))
  = Raise (TypeError "'<' not supported between instances of 'NoneType' and 'str'").
Proof. vm_compute. reflexivity. Qed.

(** ** data_storage.py: what [save_results] writes *)

Section SavedSnapshots.

Lemma sum_Z_ones {A} (l : list A) :
  DataStorage.sum_Z (List.map (fun _ => 1) l) = len l.
Proof.
  unfold DataStorage.sum_Z, len.
  assert (H : forall acc, fold_left Z.add (List.map (fun _ : A => 1) l) acc
                          = acc + Z.of_nat (length l)).
  { induction l as [| x l IH]; intros acc; cbn [List.map fold_left length].
    - lia.
    - rewrite IH. lia. }
  rewrite H. lia.
Qed.

Lemma filter_length_split {A} (f : A -> bool) (l : list A) :
  len (List.filter f l) + len (List.filter (fun x => negb (f x)) l) = len l.
Proof.
  unfold len. induction l as [| x l IH]; [reflexivity |].
  cbn [List.filter]. destruct (f x); cbn [negb length]; lia.
Qed.

(** The counters of a written snapshot add up. *)
Lemma save_results_counters (now : datetime) (results : list CollectionResult.t) :
  let doc := Json.snapshot (DataStorage.save_results now results) in
  SnapshotDoc.total_authors doc = Some (len results) /\
  SnapshotDoc.successful_authors doc
  = Some (len (List.filter CollectionResult.success results)) /\
  SnapshotDoc.failed_authors doc
  = Some (len (List.filter (fun r => negb (CollectionResult.success r)) results)) /\
  len (List.filter CollectionResult.success results)
  + len (List.filter (fun r => negb (CollectionResult.success r)) results)
  = len results.
Proof.
  cbn zeta. split; [reflexivity |]. split; [| split].
  - change (SnapshotDoc.successful_authors
              (Json.snapshot (DataStorage.save_results now results)))
      with (Some (DataStorage.sum_Z
                    (List.map (fun _ => 1)
                       (List.filter CollectionResult.success results)))).
    now rewrite sum_Z_ones.
  - change (SnapshotDoc.failed_authors
              (Json.snapshot (DataStorage.save_results now results)))
      with (Some (DataStorage.sum_Z
                    (List.map (fun _ => 1)
                       (List.filter (fun r => negb (CollectionResult.success r))
                          results)))).
    now rewrite sum_Z_ones.
  - apply filter_length_split.
Qed.

(** The author names of a written snapshot are those of the run. *)
Lemma save_results_names (now : datetime) (results : list CollectionResult.t) :
  names (SnapshotDoc.get_results
           (Json.snapshot (DataStorage.save_results now results)))
  = List.map (fun r => Some (CollectionResult.author_name r)) results.
Proof.
  change (SnapshotDoc.get_results
            (Json.snapshot (DataStorage.save_results now results)))
    with (List.map Json.result
            (Json.dicts (List.map (fun r => VDict (CollectionResult.to_dict r))
                           results))).
  induction results as [| r rest IH]; [reflexivity |].
  cbn [List.map Json.dicts flat_map app names]. f_equal. exact IH.
Qed.

End SavedSnapshots.

(** ** data_storage.py: file names *)

Section FileNames.

Lemma chars_replace_char (c d : ascii) (s : string) :
  Text.chars (Text.replace_char c d s)
  = List.map (fun x => if Ascii.eqb x c then d else x) (Text.chars s).
Proof.
  induction s as [| x s IH]; [reflexivity |].
  cbn [Text.replace_char Text.chars List.map]. now rewrite IH.
Qed.

Lemma replace_char_removes (c d : ascii) (s : string) :
  c <> d -> ~ In c (Text.chars (Text.replace_char c d s)).
Proof.
  intros Hne. rewrite chars_replace_char, in_map_iff. intros (x & Hx & _).
  destruct (Ascii.eqb_spec x c); congruence.
Qed.

Lemma replace_char_keeps_absent (a c d : ascii) (s : string) :
  a <> d -> ~ In a (Text.chars s) ->
  ~ In a (Text.chars (Text.replace_char c d s)).
Proof.
  intros Hne Hs. rewrite chars_replace_char, in_map_iff. intros (x & Hx & Hin).
  destruct (Ascii.eqb_spec x c); [congruence |]. subst x. contradiction.
Qed.

Lemma replace_all_keeps_absent (a d : ascii) (cs : list ascii) :
  a <> d ->
  forall s, ~ In a (Text.chars s) ->
            ~ In a (Text.chars (fold_left (fun s c => Text.replace_char c d s) cs s)).
Proof.
  intros Hne. induction cs as [| c cs IH]; intros s Hs; [exact Hs |].
  cbn [fold_left]. apply IH. now apply replace_char_keeps_absent.
Qed.

Lemma replace_all_removes (d : ascii) (cs : list ascii) :
  ~ In d cs ->
  forall s a, In a cs ->
              ~ In a (Text.chars (fold_left (fun s c => Text.replace_char c d s) cs s)).
Proof.
  induction cs as [| c cs IH]; intros Hd s a Ha; [destruct Ha |].
  cbn [fold_left].
  destruct (Ascii.eqb_spec a c) as [-> | Hac].
  - apply replace_all_keeps_absent.
    + intros ->. apply Hd. now left.
    + apply replace_char_removes. intros ->. apply Hd. now left.
  - destruct Ha as [-> | Ha]; [congruence |].
    apply IH; [| exact Ha]. intros H. apply Hd. now right.
Qed.

Lemma lstrip_chars (s : string) (a : ascii) :
  In a (Text.chars (lstrip s)) -> In a (Text.chars s).
Proof.
  induction s as [| c s IH]; [auto |].
  cbn [lstrip]. destruct (isspace c); [| auto].
  intros H. right. now apply IH.
Qed.

Lemma rstrip_chars (s : string) (a : ascii) :
  In a (Text.chars (rstrip s)) -> In a (Text.chars s).
Proof.
  induction s as [| c s IH]; [auto |].
  cbn [rstrip]. destruct (rstrip s) as [| c' r].
  - destruct (isspace c); cbn; [tauto | intros [H | []]; now left].
  - cbn [Text.chars]. intros [H | H]; [now left | right].
    apply IH. exact H.
Qed.

Lemma str_take_chars (n : nat) (s : string) (a : ascii) :
  In a (Text.chars (str_take n s)) -> In a (Text.chars s).
Proof.
  revert s. induction n as [| n IH]; intros s; [intros [] |].
  destruct s as [| c s]; [auto |].
  cbn [str_take Text.chars]. intros [H | H]; [now left | right; now apply IH].
Qed.







End FileNames.

Lemma sanitize_filename_legal (name : string) :
  forall c, In c Storage.illegal_chars ->
            ~ In c (Text.chars (Storage._sanitize_filename name)).
Proof.
  unfold Storage._sanitize_filename.
  set (replaced := fold_left _ Storage.illegal_chars name).
  assert (Hrep : forall c, In c Storage.illegal_chars ->
                           ~ In c (Text.chars replaced)).
  { intros c Hc. apply replace_all_removes; [| exact Hc].
    cbn. intros H. repeat (destruct H as [H | H]; [discriminate |]). exact H. }
  assert (Hstrip : forall c, In c Storage.illegal_chars ->
                             ~ In c (Text.chars (strip replaced))).
  { intros c Hc Hin. apply (Hrep c Hc). unfold strip in Hin.
    now apply lstrip_chars, rstrip_chars. }
  destruct (100 <? String.length (strip replaced))%nat; [| exact Hstrip].
  intros c Hc Hin. apply (Hstrip c Hc). now apply (str_take_chars 100).
Qed.




(** ** data_storage.py: the listing of the storage directory *)

Section Listing.

Lemma append_nil_l (s : string) : String.append EmptyString s = s.
Proof. reflexivity. Qed.

Lemma endswith_refl (s : string) : Text.endswith s s = true.
Proof. destruct s; cbn [Text.endswith]; now rewrite String.eqb_refl. Qed.

Lemma endswith_cons (c : ascii) (s suffix : string) :
  Text.endswith (String c s) suffix
  = String.eqb (String c s) suffix || Text.endswith s suffix.
Proof. reflexivity. Qed.

Lemma endswith_append (a suffix : string) :
  Text.endswith (String.append a suffix) suffix = true.
Proof.
  induction a as [| c a IH]; [apply endswith_refl |].
  rewrite append_cons, endswith_cons, IH. apply orb_true_r.
Qed.

Lemma endswith_split (s suffix : string) :
  Text.endswith s suffix = true <-> exists a, s = String.append a suffix.
Proof.
  split.
  - induction s as [| c s IH]; [cbn [Text.endswith] | rewrite endswith_cons]; intros H.
    + rewrite orb_false_r in H. apply String.eqb_eq in H. now exists EmptyString.
    + apply orb_true_iff in H. destruct H as [H | H].
      * apply String.eqb_eq in H. now exists EmptyString.
      * destruct (IH H) as [a ->]. now exists (String c a).
  - intros [a ->]. apply endswith_append.
Qed.

Lemma fnmatch_star_eq (q s : string) :
  Text.fnmatch (String "*" q) s
  = Text.fnmatch q s
    || match s with
       | String _ s' => Text.fnmatch (String "*" q) s'
       | EmptyString => false
       end.
Proof. destruct s; reflexivity. Qed.

Lemma fnmatch_star (q s : string) :
  Text.fnmatch (String "*" q) s = true
  <-> exists a b, s = String.append a b /\ Text.fnmatch q b = true.
Proof.
  split.
  - induction s as [| c s IH]; rewrite fnmatch_star_eq; intros H.
    + rewrite orb_false_r in H. now exists EmptyString, EmptyString.
    + apply orb_true_iff in H. destruct H as [H | H].
      * now exists EmptyString, (String c s).
      * destruct (IH H) as (a & b & -> & Hb). now exists (String c a), b.
  - intros (a & b & -> & Hb). induction a as [| c a IH].
    + rewrite append_nil_l, fnmatch_star_eq, Hb. reflexivity.
    + rewrite append_cons, fnmatch_star_eq, IH. apply orb_true_r.
Qed.

Lemma fnmatch_prefix (p q s : string) :
  Text.literal p = true ->
  Text.fnmatch (String.append p q) s = true
  <-> exists r, s = String.append p r /\ Text.fnmatch q r = true.
Proof.
  revert s. induction p as [| c p IH]; intros s Hp.
  - rewrite append_nil_l. split; [intros H; now exists s | now intros (r & -> & H)].
  - unfold Text.literal in Hp. cbn [Text.chars forallb] in Hp.
    apply andb_true_iff in Hp. destruct Hp as [Hc Hp].
    apply andb_true_iff in Hc. destruct Hc as [Hstar Hany].
    apply negb_true_iff in Hstar, Hany.
    rewrite append_cons. cbn [Text.fnmatch]. rewrite Hstar, Hany.
    destruct s as [| x s].
    + split; [discriminate | now intros (r & Hr & _)].
    + rewrite andb_true_iff, (IH s Hp). split.
      * intros (Hx & r & -> & Hr). apply Ascii.eqb_eq in Hx. subst x. now exists r.
      * intros (r & [= -> ->] & Hr). split; [apply Ascii.eqb_refl | now exists r].
Qed.

Lemma fnmatch_empty (s : string) :
  Text.fnmatch EmptyString s = true <-> s = EmptyString.
Proof. destruct s; cbn; split; congruence. Qed.

Lemma fnmatch_literal (p s : string) :
  Text.literal p = true -> Text.fnmatch p s = true <-> s = p.
Proof.
  intros Hp. rewrite <- (append_empty p) at 1. rewrite (fnmatch_prefix _ _ _ Hp).
  split.
  - intros (r & -> & Hr). apply fnmatch_empty in Hr. subst r. apply append_empty.
  - intros ->. exists EmptyString. split; [now rewrite append_empty | reflexivity].
Qed.

Lemma fnmatch_collection (name : string) :
  Text.fnmatch "collection_*.json" name = true
  <-> exists mid, name = String.append "collection_" (String.append mid ".json").
Proof.
  change "collection_*.json"%string
    with (String.append "collection_" (String "*" ".json")).
  rewrite fnmatch_prefix by reflexivity. split.
  - intros (r & -> & Hr). apply fnmatch_star in Hr. destruct Hr as (a & b & -> & Hb).
    apply fnmatch_literal in Hb; [| reflexivity]. subst b. now exists a.
  - intros (mid & ->). eexists. split; [reflexivity |].
    apply fnmatch_star. exists mid, ".json"%string. split; reflexivity.
Qed.

Lemma fnmatch_json (name : string) :
  Text.fnmatch "*.json" name = Text.endswith name ".json".
Proof.
  apply eq_true_iff_eq. rewrite fnmatch_star, endswith_split. split.
  - intros (a & b & -> & Hb). apply fnmatch_literal in Hb; [| reflexivity].
    subst b. now exists a.
  - intros (a & ->). exists a, ".json"%string. split; reflexivity.
Qed.

Lemma text_insert_desc_perm {A} (key : A -> Z) (x : A) (l : list A) :
  Permutation (x :: l) (Text.insert_desc key x l).
Proof.
  induction l as [| y l IH]; [reflexivity |].
  cbn [Text.insert_desc]. destruct (key x <? key y); [| reflexivity].
  rewrite perm_swap. now apply perm_skip.
Qed.

Lemma sorted_reverse_perm {A} (key : A -> Z) (l : list A) :
  Permutation l (Text.sorted_reverse key l).
Proof.
  unfold Text.sorted_reverse. induction l as [| x l IH]; [reflexivity |].
  cbn [fold_right]. rewrite <- text_insert_desc_perm. now apply perm_skip.
Qed.

Lemma text_insert_desc_sorted {A} (key : A -> Z) (x : A) (l : list A) :
  StronglySorted (fun a b => key b <= key a) l ->
  StronglySorted (fun a b => key b <= key a) (Text.insert_desc key x l).
Proof.
  induction 1 as [| y l Hl IH Hy]; cbn [Text.insert_desc].
  - constructor; constructor.
  - destruct (Z.ltb_spec (key x) (key y)) as [Hlt | Hge].
    + constructor; [exact IH |].
      apply (Permutation_Forall (text_insert_desc_perm key x l)).
      constructor; [lia | exact Hy].
    + constructor; [now constructor |].
      constructor; [exact Hge |].
      eapply List.Forall_impl; [| exact Hy]. cbn. intros a Ha. lia.
Qed.

Lemma sorted_reverse_sorted {A} (key : A -> Z) (l : list A) :
  StronglySorted (fun a b => key b <= key a) (Text.sorted_reverse key l).
Proof.
  unfold Text.sorted_reverse. induction l as [| x l IH]; [constructor |].
  cbn [fold_right]. now apply text_insert_desc_sorted.
Qed.

Lemma list_saved_files_in (directory : list Storage.DirEntry) (pattern : string)
    (e : Storage.DirEntry) :
  In e (Storage.list_saved_files directory pattern)
  <-> In e directory /\ Text.fnmatch pattern (App.name (Storage.file e)) = true.
Proof.
  unfold Storage.list_saved_files. split.
  - intros H. apply (Permutation_in _ (Permutation_sym (sorted_reverse_perm _ _))) in H.
    apply filter_In in H. exact H.
  - intros H. apply (Permutation_in _ (sorted_reverse_perm _ _)).
    apply filter_In. exact H.
Qed.

End Listing.

(** X3.  [list_saved_files] returns the directory entries whose name
    matches the pattern, each as often as the directory holds it,
    ordered from the newest modification time to the oldest. *)
Theorem list_saved_files_newest_first (directory : list Storage.DirEntry)
    (pattern : string) :
  Permutation
    (List.filter (fun e => Text.fnmatch pattern (App.name (Storage.file e))) directory)
    (Storage.list_saved_files directory pattern) /\
  StronglySorted (fun a b => Storage.st_mtime b <= Storage.st_mtime a)
    (Storage.list_saved_files directory pattern).
Proof.
  split; [apply sorted_reverse_perm | apply sorted_reverse_sorted].
Qed.

(** X4.  [get_latest_file] returns [None] exactly when no name in the
    directory ends in [.json]; otherwise it returns an entry of the
    directory whose name ends in [.json] and that is at least as new as
    every other such entry, whatever its prefix. *)
Theorem get_latest_file_newest (directory : list Storage.DirEntry) :
  match Storage.get_latest_file directory with
  | None =>
      forall e, In e directory ->
                Text.endswith (App.name (Storage.file e)) ".json" = false
  | Some f =>
      In f directory /\
      Text.endswith (App.name (Storage.file f)) ".json" = true /\
      forall e, In e directory ->
                Text.endswith (App.name (Storage.file e)) ".json" = true ->
                Storage.st_mtime e <= Storage.st_mtime f
  end.
Proof.
  unfold Storage.get_latest_file.
  pose proof (list_saved_files_in directory "*.json") as Hin.
  pose proof (sorted_reverse_sorted Storage.st_mtime
                (List.filter
                   (fun e => Text.fnmatch "*.json" (App.name (Storage.file e)))
                   directory)) as Hsorted.
  fold (Storage.list_saved_files directory "*.json") in Hsorted.
  destruct (Storage.list_saved_files directory "*.json") as [| f l].
  - intros e He. destruct (Text.endswith _ _) eqn:Hjson; [| reflexivity].
    exfalso. apply (proj2 (Hin e)). split; [exact He | now rewrite fnmatch_json].
  - destruct (proj1 (Hin f) (or_introl eq_refl)) as [Hf Hjson].
    rewrite fnmatch_json in Hjson. split; [exact Hf | split; [exact Hjson |]].
    intros e He Hejson.
    assert (Hel : In e (f :: l)).
    { apply Hin. split; [exact He | now rewrite fnmatch_json]. }
    destruct Hel as [<- | Hel]; [lia |].
    apply StronglySorted_inv in Hsorted. destruct Hsorted as [_ Hall].
    rewrite List.Forall_forall in Hall. now apply Hall.
Qed.

(** X5.  Whatever file name it is given, [save_results] writes to a name
    that ends in [.json]; with no file name it writes to
    [collection_<timestamp>.json], which the pattern of app.py's
    [load_latest_data] matches, while the default name of
    [save_today_items_only] is matched by [*.json] but not by that
    pattern. *)
Theorem saved_file_names (timestamp today : string) (filename : option string) :
  Text.endswith (Storage.results_filename timestamp filename) ".json" = true /\
  Text.fnmatch "collection_*.json" (Storage.results_filename timestamp None) = true /\
  Text.fnmatch "collection_*.json"
    (Storage.results_filename timestamp (Some (Storage.today_filename today None)))
  = false /\
  Text.fnmatch "*.json"
    (Storage.results_filename timestamp (Some (Storage.today_filename today None)))
  = true.
Proof.
  assert (Hends : forall f, Text.endswith (Storage.results_filename timestamp f) ".json" = true).
  { intros f. unfold Storage.results_filename.
    set (name := match f with Some f => f | None => _ end).
    destruct (Text.endswith name ".json") eqn:H; cbn [negb]; [exact H |].
    apply endswith_append. }
  split; [apply Hends | split; [| split]].
  - apply fnmatch_collection. exists timestamp.
    unfold Storage.results_filename.
    assert (H : Text.endswith
                  (String.append "collection_" (String.append timestamp ".json"))
                  ".json" = true).
    { apply endswith_split. exists (String.append "collection_" timestamp).
      reflexivity. }
    now rewrite H.
  - unfold Storage.results_filename, Storage.today_filename.
    destruct (negb _); reflexivity.
  - rewrite fnmatch_json. apply Hends.
Qed.

(** ** data_storage.py: the summary report and the file of today *)

Section Reports.

Lemma fold_add_shift (l : list Z) (a : Z) :
  fold_left Z.add l a = a + fold_left Z.add l 0.
Proof.
  revert a. induction l as [| x l IH]; intros a; cbn [fold_left]; [lia |].
  rewrite (IH (a + x)), (IH (0 + x)). lia.
Qed.

Lemma sum_Z_cons (x : Z) (l : list Z) :
  DataStorage.sum_Z (x :: l) = x + DataStorage.sum_Z l.
Proof. unfold DataStorage.sum_Z. cbn [fold_left]. rewrite fold_add_shift. lia. Qed.

Lemma sum_Z_app (l1 l2 : list Z) :
  DataStorage.sum_Z (l1 ++ l2) = DataStorage.sum_Z l1 + DataStorage.sum_Z l2.
Proof.
  induction l1 as [| x l1 IH]; [reflexivity |].
  cbn [app]. rewrite !sum_Z_cons, IH. lia.
Qed.

Lemma dict_get_set {V} (k k' : string) (v : V) (d : list (string * V)) :
  Dict.get k' (Dict.set k v d)
  = if String.eqb k' k then Some v else Dict.get k' d.
Proof.
  induction d as [| [k0 v0] d IH]; cbn [Dict.set Dict.get].
  - reflexivity.
  - destruct (String.eqb_spec k k0) as [<- | Hk]; cbn [Dict.get].
    + destruct (String.eqb k' k); reflexivity.
    + rewrite IH. destruct (String.eqb_spec k' k0) as [-> | Hk'].
      * destruct (String.eqb_spec k0 k); [congruence | reflexivity].
      * reflexivity.
Qed.

Lemma stats_sum_set (f : Storage.CategoryStats -> Z) (k : string)
    (v : Storage.CategoryStats) (d : list (string * Storage.CategoryStats)) :
  stats_sum f (Dict.set k v d)
  = stats_sum f d - match Dict.get k d with Some v0 => f v0 | None => 0 end + f v.
Proof.
  unfold stats_sum. induction d as [| [k0 v0] d IH]; cbn [Dict.set Dict.get List.map].
  - rewrite sum_Z_cons. cbn. lia.
  - destruct (String.eqb k k0); cbn [List.map snd]; rewrite !sum_Z_cons.
    + cbn [snd]. lia.
    + rewrite IH. cbn [snd]. lia.
Qed.

Lemma value_inj (c c' : CategoryType) : value c = value c' -> c = c'.
Proof. destruct c, c'; (reflexivity || discriminate). Qed.

Lemma category_step_sums (today : Z * Z * Z)
    (d : list (string * Storage.CategoryStats)) (r : CollectionResult.t) :
  stats_sum Storage.authors (Storage.category_step today d r)
  = stats_sum Storage.authors d + 1 /\
  stats_sum Storage.items (Storage.category_step today d r)
  = stats_sum Storage.items d + len (CollectionResult.items r) /\
  stats_sum Storage.today_items (Storage.category_step today d r)
  = stats_sum Storage.today_items d
    + len (CollectionResult.get_today_items today r).
Proof.
  unfold Storage.category_step.
  set (k := value (CollectionResult.category r)).
  destruct (Dict.get k d) as [st |] eqn:Hget.
  - rewrite Hget, !stats_sum_set, Hget. cbn. lia.
  - rewrite dict_get_set, String.eqb_refl, !stats_sum_set, dict_get_set,
      String.eqb_refl, Hget. cbn. lia.
Qed.

Lemma category_fold_sums (today : Z * Z * Z) (l : list CollectionResult.t) :
  forall d,
    stats_sum Storage.authors (fold_left (Storage.category_step today) l d)
    = stats_sum Storage.authors d + len l /\
    stats_sum Storage.items (fold_left (Storage.category_step today) l d)
    = stats_sum Storage.items d
      + DataStorage.sum_Z (List.map (fun r => len (CollectionResult.items r)) l) /\
    stats_sum Storage.today_items (fold_left (Storage.category_step today) l d)
    = stats_sum Storage.today_items d
      + DataStorage.sum_Z
          (List.map (fun r => len (CollectionResult.get_today_items today r)) l).
Proof.
  induction l as [| r l IH]; intros d; cbn [fold_left List.map].
  - unfold len. cbn. lia.
  - destruct (IH (Storage.category_step today d r)) as (H1 & H2 & H3).
    destruct (category_step_sums today d r) as (S1 & S2 & S3).
    rewrite H1, H2, H3, S1, S2, S3, !sum_Z_cons. unfold len. cbn [length].
    lia.
Qed.

Lemma of_category_snoc (c : CategoryType) (l : list CollectionResult.t)
    (r : CollectionResult.t) :
  of_category c (l ++ [r])
  = of_category c l
    ++ (if String.eqb (value (CollectionResult.category r)) (value c)
        then [r] else []).
Proof. unfold of_category. apply List.filter_app. Qed.

Lemma category_step_stats (today : Z * Z * Z)
    (d : list (string * Storage.CategoryStats))
    (done : list CollectionResult.t) (r : CollectionResult.t) :
  (forall c, Dict.get (value c) d = category_stats_of today c done) ->
  forall c, Dict.get (value c) (Storage.category_step today d r)
            = category_stats_of today c (done ++ [r]).
Proof.
  intros Hinv c. unfold Storage.category_step.
  pose proof (Hinv (CollectionResult.category r)) as Hk.
  unfold category_stats_of in *. rewrite of_category_snoc.
  set (k := value (CollectionResult.category r)) in *.
  assert (Hother : String.eqb (value c) k = String.eqb k (value c))
    by apply String.eqb_sym.
  destruct (Dict.get k d) as [st |] eqn:Hget.
  - rewrite Hget, dict_get_set, Hother.
    destruct (String.eqb_spec k (value c)) as [Heq | Hne].
    + apply value_inj in Heq. subst c.
      destruct (of_category _ done) as [| x l]; [discriminate |].
      injection Hk as ->. cbn [app Storage.authors Storage.items Storage.today_items].
      f_equal. change (x :: l ++ [r]) with ((x :: l) ++ [r]).
      rewrite !map_app, !sum_Z_app, len_snoc. cbn [List.map].
      rewrite !sum_Z_cons. unfold DataStorage.sum_Z. cbn [fold_left].
      f_equal; lia.
    + rewrite app_nil_r. apply Hinv.
  - rewrite dict_get_set, String.eqb_refl. cbn match.
    rewrite dict_get_set, Hother.
    destruct (String.eqb_spec k (value c)) as [Heq | Hne].
    + apply value_inj in Heq. subst c.
      destruct (of_category _ done) as [| x l]; [| discriminate].
      cbn. reflexivity.
    + rewrite app_nil_r, dict_get_set, Hother.
      destruct (String.eqb_spec k (value c)); [congruence | apply Hinv].
Qed.

Lemma category_fold_stats (today : Z * Z * Z) (l : list CollectionResult.t) :
  forall d done,
    (forall c, Dict.get (value c) d = category_stats_of today c done) ->
    forall c, Dict.get (value c) (fold_left (Storage.category_step today) l d)
              = category_stats_of today c (done ++ l).
Proof.
  induction l as [| r l IH]; intros d done Hinv c; cbn [fold_left].
  - rewrite app_nil_r. apply Hinv.
  - change (r :: l) with ([r] ++ l). rewrite app_assoc.
    apply IH. now apply category_step_stats.
Qed.

Lemma category_step_keys (today : Z * Z * Z)
    (d : list (string * Storage.CategoryStats)) (r : CollectionResult.t) (k : string) :
  In k (Dict.keys (Storage.category_step today d r)) ->
  In k (Dict.keys d) \/ k = value (CollectionResult.category r).
Proof.
  assert (Hset : forall (v : Storage.CategoryStats) k0 d0,
             In k (Dict.keys (Dict.set k0 v d0)) -> In k (Dict.keys d0) \/ k = k0).
  { intros v k0 d0. induction d0 as [| [k1 v1] d0 IH]; cbn [Dict.set Dict.keys List.map].
    - cbn. intros [<- | []]. now right.
    - destruct (String.eqb k0 k1); cbn [List.map fst In]; [tauto |].
      intros [H | H]; [tauto |]. destruct (IH H); tauto. }
  unfold Storage.category_step.
  set (k0 := value (CollectionResult.category r)).
  destruct (Dict.get k0 d) as [st |] eqn:Hget.
  - rewrite Hget. apply Hset.
  - rewrite dict_get_set, String.eqb_refl. intros H.
    apply Hset in H. destruct H as [H | H]; [| now right].
    apply Hset in H. exact H.
Qed.

End Reports.

(** X6.  In the report of [create_summary_report] the successful and the
    failed authors add up to the total, the two name lists have these
    lengths, and the per-category numbers add up to the totals of the
    summary: authors to [successful_authors], items to [total_items],
    items of today to [today_items]. *)
Theorem summary_report_totals (today : Z * Z * Z) (now : datetime)
    (results : list CollectionResult.t) :
  let report := Storage.create_summary_report today now results in
  Storage.successful_authors report + Storage.failed_authors report
  = Storage.total_authors report /\
  len (Storage.successful_names report) = Storage.successful_authors report /\
  len (Storage.failed_list report) = Storage.failed_authors report /\
  stats_sum Storage.authors (Storage.by_category report)
  = Storage.successful_authors report /\
  stats_sum Storage.items (Storage.by_category report)
  = Storage.total_items report /\
  stats_sum Storage.today_items (Storage.by_category report)
  = Storage.total_today_items report.
Proof.
  cbn zeta. unfold Storage.create_summary_report.
  cbn [Storage.successful_authors Storage.failed_authors Storage.total_authors
       Storage.successful_names Storage.failed_list Storage.by_category
       Storage.total_items Storage.total_today_items].
  destruct (category_fold_sums today
              (List.filter CollectionResult.success results) [])
    as (H1 & H2 & H3).
  split; [apply filter_length_split |].
  split; [unfold len; now rewrite length_map |].
  split; [unfold len; now rewrite length_map |].
  rewrite H1, H2, H3. unfold stats_sum, DataStorage.sum_Z. cbn. repeat split; lia.
Qed.

(** X7.  The [by_category] entry of a category in the summary report is
    absent when no successful result has the category, and otherwise
    counts exactly the successful results of that category, their items
    and their items of today; the report has no key that is not the
    value of a category. *)
Theorem summary_report_by_category (today : Z * Z * Z) (now : datetime)
    (results : list CollectionResult.t) :
  let report := Storage.create_summary_report today now results in
  (forall c, Dict.get (value c) (Storage.by_category report)
             = category_stats_of today c
                 (List.filter CollectionResult.success results)) /\
  (forall k, In k (Dict.keys (Storage.by_category report)) ->
             exists c, k = value c).
Proof.
  cbn zeta. unfold Storage.create_summary_report. cbn [Storage.by_category].
  split.
  - intros c.
    apply (category_fold_stats today (List.filter CollectionResult.success results)
             [] []).
    intros c'. reflexivity.
  - generalize (List.filter CollectionResult.success results) as l.
    intros l.
    assert (H : forall d,
               (forall k, In k (Dict.keys d) -> exists c, k = value c) ->
               forall k, In k (Dict.keys (fold_left (Storage.category_step today) l d)) ->
                         exists c, k = value c).
    { induction l as [| r l IH]; intros d Hd k; cbn [fold_left]; [apply Hd |].
      apply IH. intros k' Hk'. apply category_step_keys in Hk'.
      destruct Hk' as [Hk' | ->]; [now apply Hd | eauto]. }
    apply H. intros k [].
Qed.

Section TodayFile.

Lemma today_results_successful (today : Z * Z * Z) (results : list CollectionResult.t)
    (r : CollectionResult.t) :
  In r (Storage.today_results today results) ->
  exists r0,
    In r0 results /\ CollectionResult.success r0 = true /\
    CollectionResult.get_today_items today r0 <> [] /\
    r = CollectionResult.mk
          (CollectionResult.author_name r0) (CollectionResult.author_url r0)
          (CollectionResult.category r0) true
          (CollectionResult.get_today_items today r0) None
          (CollectionResult.collected_at r0).
Proof.
  unfold Storage.today_results. rewrite in_flat_map. intros (r0 & Hin & Hr).
  exists r0. destruct (CollectionResult.success r0); [| destruct Hr].
  destruct (CollectionResult.get_today_items today r0) as [| x l] eqn:Ht;
    [destruct Hr |].
  destruct Hr as [<- | []]. repeat split; [exact Hin | discriminate].
Qed.

Lemma today_results_items (today : Z * Z * Z) (results : list CollectionResult.t) :
  DataStorage.sum_Z
    (List.map (fun r => len (CollectionResult.items r))
       (Storage.today_results today results))
  = DataStorage.sum_Z
      (List.map (fun r => len (CollectionResult.get_today_items today r))
         (List.filter CollectionResult.success results)).
Proof.
  induction results as [| r results IH]; [reflexivity |].
  unfold Storage.today_results. cbn [flat_map List.filter].
  fold (Storage.today_results today results).
  destruct (CollectionResult.success r).
  - cbn [List.map]. rewrite sum_Z_cons, <- IH.
    destruct (CollectionResult.get_today_items today r) as [| x l].
    + reflexivity.
    + cbn [app List.map CollectionResult.items]. now rewrite sum_Z_cons.
  - exact IH.
Qed.

End TodayFile.

(** X8.  The file of today holds successful results only, none of them
    without items, and every item in it was published today; its
    counters say so: no failed author, as many successful authors as
    results, and as many items as the summary report counts as items of
    today. *)
Theorem save_today_items_only_counters (today : Z * Z * Z) (now : datetime)
    (results : list CollectionResult.t) :
  let written := Storage.today_results today results in
  let doc := Json.snapshot (Storage.save_today_items_only today now results) in
  (forall r, In r written ->
     CollectionResult.success r = true /\
     CollectionResult.error_message r = None /\
     CollectionResult.items r <> [] /\
     forall x, In x (CollectionResult.items r) ->
               ContentItem.is_today today x = true) /\
  SnapshotDoc.total_authors doc = Some (len written) /\
  SnapshotDoc.successful_authors doc = Some (len written) /\
  SnapshotDoc.failed_authors doc = Some 0 /\
  SnapshotDoc.total_items doc
  = Some (Storage.total_today_items
            (Storage.create_summary_report today now results)).
Proof.
  cbn zeta.
  assert (Hall : forall r, In r (Storage.today_results today results) ->
                           CollectionResult.success r = true).
  { intros r Hr. apply today_results_successful in Hr.
    destruct Hr as (r0 & _ & _ & _ & ->). reflexivity. }
  assert (Hok : List.filter CollectionResult.success
                  (Storage.today_results today results)
                = Storage.today_results today results)
    by (apply filter_all; exact Hall).
  assert (Hfail : List.filter (fun r => negb (CollectionResult.success r))
                    (Storage.today_results today results) = []).
  { pose proof (filter_length_split CollectionResult.success
                  (Storage.today_results today results)) as Hlen.
    rewrite Hok in Hlen.
    destruct (List.filter _ _) as [| x l] eqn:Hf in Hlen |- *; [reflexivity |].
    unfold len in Hlen. cbn [length] in Hlen. lia. }
  split; [| split; [| split; [| split]]].
  - intros r Hr. apply today_results_successful in Hr.
    destruct Hr as (r0 & _ & _ & Hne & ->). cbn.
    repeat split; [exact Hne |].
    intros x Hx. unfold CollectionResult.get_today_items in Hx.
    apply filter_In in Hx. apply Hx.
  - reflexivity.
  - change (SnapshotDoc.successful_authors _)
      with (Some (DataStorage.sum_Z
                    (List.map (fun _ => 1)
                       (List.filter CollectionResult.success
                          (Storage.today_results today results))))).
    now rewrite sum_Z_ones, Hok.
  - change (SnapshotDoc.failed_authors _)
      with (Some (DataStorage.sum_Z
                    (List.map (fun _ => 1)
                       (List.filter (fun r => negb (CollectionResult.success r))
                          (Storage.today_results today results))))).
    now rewrite Hfail.
  - change (SnapshotDoc.total_items _)
      with (Some (DataStorage.sum_Z
                    (List.map (fun r => len (CollectionResult.items r))
                       (List.filter CollectionResult.success
                          (Storage.today_results today results))))).
    rewrite Hok, today_results_items. reflexivity.
Qed.

(** ** Dicts keyed by author name *)

Section DictFacts.
Context {V : Type}.

Lemma dict_set_keys (k : string) (v : V) (d : list (string * V)) :
  Dict.keys (Dict.set k v d)
  = if Dict.mem k (Dict.keys d) then Dict.keys d else Dict.keys d ++ [k].
Proof.
  unfold Dict.mem, Dict.keys.
  induction d as [| [k0 v0] d IH]; [reflexivity |].
  cbn [Dict.set List.map existsb fst].
  destruct (String.eqb k k0); cbn [orb List.map fst]; [reflexivity |].
  rewrite IH. now destruct (existsb (String.eqb k) (List.map fst d)).
Qed.

Lemma dict_mem_in (k : string) (ks : list string) :
  Dict.mem k ks = true <-> In k ks.
Proof.
  unfold Dict.mem. rewrite existsb_exists. split.
  - intros (x & Hx & Heq). apply String.eqb_eq in Heq. now subst x.
  - intros H. exists k. split; [exact H | apply String.eqb_refl].
Qed.

Lemma dict_set_keys_in (k k' : string) (v : V) (d : list (string * V)) :
  In k' (Dict.keys (Dict.set k v d)) <-> In k' (Dict.keys d) \/ k' = k.
Proof.
  rewrite dict_set_keys. destruct (Dict.mem k (Dict.keys d)) eqn:Hm.
  - apply dict_mem_in in Hm. split; [tauto | intros [H | ->]; assumption].
  - rewrite in_app_iff. cbn. split; intros [H | H]; auto.
    + destruct H as [<- | []]. now right.
Qed.

Lemma dict_set_keys_nodup (k : string) (v : V) (d : list (string * V)) :
  List.NoDup (Dict.keys d) -> List.NoDup (Dict.keys (Dict.set k v d)).
Proof.
  intros Hnd. rewrite dict_set_keys. destruct (Dict.mem k (Dict.keys d)) eqn:Hm.
  - exact Hnd.
  - assert (Hk : ~ In k (Dict.keys d)).
    { intros H. apply dict_mem_in in H. congruence. }
    clear Hm. induction Hnd as [| x l Hx Hnd IH]; cbn [app].
    + constructor; [intros [] | constructor].
    + constructor.
      * rewrite in_app_iff. cbn. intros [H | [<- | []]]; [contradiction |].
        apply Hk. now left.
      * apply IH. intros H. apply Hk. now right.
Qed.

End DictFacts.

(** ** data_storage.py: one file per author *)

Section AuthorFiles.

Lemma chars_append (a b : string) :
  Text.chars (String.append a b) = Text.chars a ++ Text.chars b.
Proof.
  induction a as [| c a IH]; [reflexivity |].
  rewrite append_cons. cbn [Text.chars app]. now rewrite IH.
Qed.


Lemma legal_name_spec (s : string) :
  legal_name s = true
  <-> forall c, In c Storage.illegal_chars -> ~ In c (Text.chars s).
Proof.
  unfold legal_name. rewrite forallb_forall. split.
  - intros H c Hc Hin. specialize (H c Hin). apply negb_true_iff in H.
    assert (Hex : existsb (Ascii.eqb c) Storage.illegal_chars = true).
    { apply existsb_exists. exists c. split; [exact Hc | apply Ascii.eqb_refl]. }
    congruence.
  - intros H c Hin. apply negb_true_iff, not_true_is_false. intros Hex.
    apply existsb_exists in Hex. destruct Hex as (x & Hx & Heq).
    apply Ascii.eqb_eq in Heq. subst x. exact (H c Hx Hin).
Qed.

Lemma legal_name_append (a b : string) :
  legal_name (String.append a b) = legal_name a && legal_name b.
Proof. unfold legal_name. now rewrite chars_append, forallb_app. Qed.

Lemma author_files_fold (timestamp : string) (results : list CollectionResult.t) :
  forall saved : list (string * string),
    let step :=
      fun (saved_files : list (string * string)) (result : CollectionResult.t) =>
        if CollectionResult.success result
           && match CollectionResult.items result with [] => false | _ => true end
        then
          Dict.set (CollectionResult.author_name result)
            (String.append
               (Storage._sanitize_filename (CollectionResult.author_name result))
               (String.append "_" (String.append timestamp ".json")))
            saved_files
        else saved_files in
    List.NoDup (Dict.keys saved) ->
    (forall a f, Dict.get a saved = Some f ->
       f = String.append (Storage._sanitize_filename a)
             (String.append "_" (String.append timestamp ".json"))) ->
    List.NoDup (Dict.keys (fold_left step results saved)) /\
    (forall a, In a (Dict.keys (fold_left step results saved))
               <-> In a (Dict.keys saved)
                   \/ exists r, In r results /\ has_items r = true /\
                                CollectionResult.author_name r = a) /\
    (forall a f, Dict.get a (fold_left step results saved) = Some f ->
       f = String.append (Storage._sanitize_filename a)
             (String.append "_" (String.append timestamp ".json"))).
Proof.
  induction results as [| r results IH]; intros saved step Hnd Hnames;
    cbn [fold_left].
  - split; [exact Hnd | split; [| exact Hnames]].
    intros a. split; [tauto | intros [H | (r & [] & _)]; exact H].
  - fold step.
    assert (Hstep : List.NoDup (Dict.keys (step saved r)) /\
                    (forall a, In a (Dict.keys (step saved r))
                               <-> In a (Dict.keys saved)
                                   \/ (has_items r = true /\
                                       CollectionResult.author_name r = a)) /\
                    (forall a f, Dict.get a (step saved r) = Some f ->
                       f = String.append (Storage._sanitize_filename a)
                             (String.append "_" (String.append timestamp ".json")))).
    { unfold step, has_items.
      destruct (CollectionResult.success r
                && match CollectionResult.items r with [] => false | _ => true end).
      - split; [now apply dict_set_keys_nodup | split].
        + intros a. rewrite dict_set_keys_in. split.
          * intros [H | ->]; [now left | right; split; reflexivity].
          * intros [H | [_ <-]]; [now left | now right].
        + intros a f. rewrite dict_get_set.
          destruct (String.eqb_spec a (CollectionResult.author_name r)) as [-> | Hne].
          * now intros [= <-].
          * apply Hnames.
      - split; [exact Hnd | split; [| exact Hnames]].
        intros a. split; [tauto | intros [H | [H _]]; [exact H | discriminate]]. }
    destruct Hstep as (Hnd' & Hkeys' & Hnames').
    destruct (IH (step saved r) Hnd' Hnames') as (H1 & H2 & H3).
    split; [exact H1 | split; [| exact H3]].
    intros a. split.
    + intros H. apply H2 in H. destruct H as [H | (r' & Hin & Hr & Ha)].
      * apply Hkeys' in H. destruct H as [H | [Hr Ha]]; [now left |].
        right. exists r. split; [now left | split; assumption].
      * right. exists r'. split; [now right | split; assumption].
    + intros H. apply H2. destruct H as [H | (r' & [<- | Hin] & Hr & Ha)].
      * left. apply Hkeys'. now left.
      * left. apply Hkeys'. right. split; assumption.
      * right. exists r'. split; [exact Hin | split; assumption].
Qed.

End AuthorFiles.

(** X9.  [save_items_by_author] reports exactly one file for every author
    name that has a successful result with items, and none for any other
    name; the file of an author is named after the sanitized author name
    followed by the time stamp. *)
Theorem save_items_by_author_files (timestamp : string)
    (results : list CollectionResult.t) :
  let saved_files := Storage.save_items_by_author timestamp results in
  List.NoDup (Dict.keys saved_files) /\
  (forall a, In a (Dict.keys saved_files)
             <-> exists r, In r results /\ has_items r = true /\
                           CollectionResult.author_name r = a) /\
  (forall a f, Dict.get a saved_files = Some f ->
     f = String.append (Storage._sanitize_filename a)
           (String.append "_" (String.append timestamp ".json"))).
Proof.
  cbn zeta. unfold Storage.save_items_by_author.
  destruct (author_files_fold timestamp results [])
    as (H1 & H2 & H3); [constructor | intros a f [=] |].
  split; [exact H1 | split; [| exact H3]].
  intros a. rewrite H2. split; [intros [[] | H]; exact H | now right].
Qed.

(** X10.  When the time stamp holds none of the characters
    [_sanitize_filename] replaces, neither does any file name
    [save_items_by_author] reports: whatever the author is called, the
    name has no path separator in it. *)
Theorem author_file_names_legal (timestamp : string)
    (results : list CollectionResult.t) (a f : string) :
  legal_name timestamp = true ->
  Dict.get a (Storage.save_items_by_author timestamp results) = Some f ->
  legal_name f = true.
Proof.
  intros Hts Hget.
  destruct (author_files_fold timestamp results [])
    as (_ & _ & H3); [constructor | intros a' f' [=] |].
  unfold Storage.save_items_by_author in Hget. apply H3 in Hget. subst f.
  rewrite !legal_name_append, Hts.
  assert (Hsafe : legal_name (Storage._sanitize_filename a) = true).
  { apply legal_name_spec. apply (sanitize_filename_legal a). }
  now rewrite Hsafe.
Qed.

Lemma author_file_names_legal_witness :
  legal_name "Lex_Sam_20251110_110000.json" = true.
Proof.
  apply (author_file_names_legal "20251110_110000"
           [CollectionResult.mk "Lex/Sam" "https://example.com/x" NEWS true
              [Samples.item "X1" "https://example.com/x/1" "Lex/Sam"] None
              Samples.t0]
           "Lex/Sam").
  - reflexivity.
  - reflexivity.
Defined.

(** ** collector_manager.py: the registry and the run of today *)

Section Registry.
Import CollectorManager.





End Registry.



(** ** data_storage.py and app.py: a written snapshot read back *)

Section WrittenSnapshot.

Lemma saved_results (now : datetime) (results : list CollectionResult.t) :
  SnapshotDoc.get_results (Json.snapshot (DataStorage.save_results now results))
  = List.map (fun r => Json.result (CollectionResult.to_dict r)) results.
Proof.
  change (SnapshotDoc.get_results
            (Json.snapshot (DataStorage.save_results now results)))
    with (List.map Json.result
            (Json.dicts (List.map (fun r => VDict (CollectionResult.to_dict r))
                           results))).
  induction results as [| r rest IH]; [reflexivity |].
  cbn [List.map Json.dicts flat_map app]. f_equal. exact IH.
Qed.

Lemma saved_result_success (r : CollectionResult.t) :
  ResultDoc.success (Json.result (CollectionResult.to_dict r))
  = CollectionResult.success r.
Proof. reflexivity. Qed.

Lemma saved_result_items (r : CollectionResult.t) :
  len (ResultDoc.get_items (Json.result (CollectionResult.to_dict r)))
  = len (CollectionResult.items r).
Proof.
  change (ResultDoc.get_items (Json.result (CollectionResult.to_dict r)))
    with (List.map Json.item
            (Json.dicts
               (List.map (fun x => VDict (ContentItemDict.to_dict x))
                  (CollectionResult.items r)))).
  unfold len. rewrite length_map. f_equal.
  induction (CollectionResult.items r) as [| x l IH]; [reflexivity |].
  cbn [List.map Json.dicts flat_map app length]. f_equal. exact IH.
Qed.

Lemma filter_map_comm {A B} (f : B -> bool) (g : A -> B) (h : A -> bool)
    (l : list A) :
  (forall x, f (g x) = h x) ->
  List.filter f (List.map g l) = List.map g (List.filter h l).
Proof.
  intros Hfg. induction l as [| x l IH]; [reflexivity |].
  cbn [List.map List.filter]. rewrite Hfg.
  destruct (h x); cbn [List.map]; now rewrite IH.
Qed.

Lemma items_total_saved (l : list CollectionResult.t) :
  items_total (List.map (fun r => Json.result (CollectionResult.to_dict r)) l)
  = DataStorage.sum_Z (List.map (fun r => len (CollectionResult.items r)) l).
Proof.
  induction l as [| r l IH]; [reflexivity |].
  cbn [List.map]. rewrite sum_Z_cons, <- IH.
  unfold items_total at 1. cbn [fold_right]. fold (items_total
    (List.map (fun r => Json.result (CollectionResult.to_dict r)) l)).
  now rewrite saved_result_items.
Qed.

Lemma items_total_app (l1 l2 : list ResultDoc.t) :
  items_total (l1 ++ l2) = items_total l1 + items_total l2.
Proof.
  induction l1 as [| r l1 IH]; [reflexivity |].
  cbn [app]. unfold items_total in *. cbn [fold_right]. rewrite IH. lia.
Qed.

End WrittenSnapshot.

(** X13.  The snapshot [save_results] writes describes itself: it is not
    empty, it lists one result per result of the run with the same
    author and the same outcome, in the same order, and its counters are
    those of its own result list: the number of results, of successful
    and of failed results, and the number of items in the successful
    results. *)
Theorem saved_snapshot_consistent (now : datetime)
    (results : list CollectionResult.t) :
  let doc := Json.snapshot (DataStorage.save_results now results) in
  let listed := SnapshotDoc.get_results doc in
  SnapshotDoc.is_empty doc = false /\
  SnapshotDoc.collected_at doc = Some (isoformat now) /\
  names listed = List.map (fun r => Some (CollectionResult.author_name r)) results /\
  List.map ResultDoc.success listed = List.map CollectionResult.success results /\
  SnapshotDoc.total_authors doc = Some (len listed) /\
  SnapshotDoc.successful_authors doc
  = Some (len (List.filter ResultDoc.success listed)) /\
  SnapshotDoc.failed_authors doc
  = Some (len (List.filter (fun r => negb (ResultDoc.success r)) listed)) /\
  SnapshotDoc.total_items doc
  = Some (items_total (List.filter ResultDoc.success listed)).
Proof.
  cbn zeta. rewrite saved_results.
  split; [reflexivity | split; [reflexivity |]].
  split; [unfold names; rewrite map_map; reflexivity |].
  split; [rewrite map_map; reflexivity |].
  split; [unfold len; rewrite length_map; reflexivity |].
  rewrite (filter_map_comm ResultDoc.success _ CollectionResult.success)
    by (intros r; apply saved_result_success).
  rewrite (filter_map_comm (fun r => negb (ResultDoc.success r)) _
             (fun r => negb (CollectionResult.success r)))
    by (intros r; now rewrite saved_result_success).
  split; [| split].
  - change (SnapshotDoc.successful_authors _)
      with (Some (DataStorage.sum_Z
                    (List.map (fun _ => 1)
                       (List.filter CollectionResult.success results)))).
    rewrite sum_Z_ones. unfold len. now rewrite length_map.
  - change (SnapshotDoc.failed_authors _)
      with (Some (DataStorage.sum_Z
                    (List.map (fun _ => 1)
                       (List.filter (fun r => negb (CollectionResult.success r))
                          results)))).
    rewrite sum_Z_ones. unfold len. now rewrite length_map.
  - rewrite items_total_saved. reflexivity.
Qed.

(** ** app.py: which files [load_latest_data] reads *)

Section FilesRead.
Import App.



End FilesRead.


(** X15.  When the newest snapshot can be loaded and lists no failed
    result, [load_latest_data] returns it unchanged and reads no other
    file. *)
Theorem load_latest_data_without_failure (latest_file : App.File)
    (old_files : list App.File) (latest_data : SnapshotDoc.t) :
  App.content latest_file = Some latest_data ->
  SnapshotDoc.is_empty latest_data = false ->
  (forall r, In r (SnapshotDoc.get_results latest_data) ->
             ResultDoc.success r = true) ->
  App.load_latest_data (latest_file :: old_files)
  = Ok (Some latest_data, [App.name latest_file]).
Proof.
  intros Hc He Hall. rewrite (load_latest_unfold _ _ _ Hc He). cbn zeta.
  assert (Hnone : fst (App.partition (SnapshotDoc.get_results latest_data)) = ∅).
  { apply set_eq. intros a. rewrite partition_failed. split; [| set_solver].
    intros (r & Hin & _ & Hs). rewrite (Hall r Hin) in Hs. discriminate. }
  now rewrite bool_decide_eq_true_2 by exact Hnone.
Qed.

Lemma load_latest_data_without_failure_witness :
  App.load_latest_data
    [App.mkFile "collection_20251109_083000.json"
       (Some (Json.snapshot (DataStorage.save_results Samples.t1 Samples.run_old)));
     App.mkFile "collection_20251108_083000.json" None]
  = Ok (Some (Json.snapshot (DataStorage.save_results Samples.t1 Samples.run_old)),
        ["collection_20251109_083000.json"%string]).
Proof.
  apply (load_latest_data_without_failure
           (App.mkFile "collection_20251109_083000.json"
              (Some (Json.snapshot
                       (DataStorage.save_results Samples.t1 Samples.run_old))))
           [App.mkFile "collection_20251108_083000.json" None]).
  - reflexivity.
  - reflexivity.
  - intros r Hr. cbn in Hr. destruct Hr as [<- | []]. reflexivity.
Defined.

(** ** app.py: the item counter of the merged view *)

Section MergedItems.

Lemma names_inj (l : list ResultDoc.t) (r r0 : ResultDoc.t) :
  List.NoDup (names l) -> In r l -> In r0 l ->
  ResultDoc.author_name r = ResultDoc.author_name r0 -> r = r0.
Proof.
  induction l as [| x l IH]; intros Hnd Hr Hr0 Heq; [destruct Hr |].
  cbn [names List.map] in Hnd. apply List.NoDup_cons_iff in Hnd.
  destruct Hnd as [Hx Hnd].
  assert (Hname : forall y, In y l -> In (ResultDoc.author_name y) (names l)).
  { intros y Hy. unfold names. apply in_map_iff. now exists y. }
  destruct Hr as [<- | Hr], Hr0 as [<- | Hr0].
  - reflexivity.
  - exfalso. apply Hx. rewrite Heq. now apply Hname.
  - exfalso. apply Hx. rewrite <- Heq. now apply Hname.
  - now apply IH.
Qed.

Lemma filter_agree {A} (f g : A -> bool) (l : list A) :
  (forall x, In x l -> f x = g x) -> List.filter f l = List.filter g l.
Proof.
  induction l as [| x l IH]; intros H; [reflexivity |].
  cbn [List.filter]. rewrite (H x (or_introl eq_refl)), IH; [reflexivity |].
  intros y Hy. apply H. now right.
Qed.

Lemma merged_successes (base merged : SnapshotDoc.t) (resolved : list ResultDoc.t) :
  merged_from base merged resolved ->
  List.NoDup (names (SnapshotDoc.get_results base)) ->
  List.filter ResultDoc.success (SnapshotDoc.get_results merged)
  = List.filter ResultDoc.success (SnapshotDoc.get_results base) ++ resolved.
Proof.
  intros (Hres & _ & Hall & _) Hnd. rewrite Hres, List.filter_app. f_equal.
  - rewrite filter_filter_and. apply filter_agree. intros r Hr.
    destruct (ResultDoc.success r) eqn:Hs; [| apply andb_false_r].
    rewrite andb_true_r. apply unresolved_by_true. intros Hin.
    unfold names in Hin. apply in_map_iff in Hin. destruct Hin as (t & Heq & Ht).
    destruct (Hall t Ht) as ((r0 & Hr0 & Hname & Hfail) & _).
    assert (r = r0) by (apply (names_inj _ r r0 Hnd Hr Hr0); congruence).
    subst r0. congruence.
  - apply filter_all. intros t Ht. apply (Hall t Ht).
Qed.

End MergedItems.

(** X16.  When the newest snapshot lists each author once and its
    [total_items] is the number of items of its successful results, as in
    every snapshot [save_results] writes, the same holds of the merged
    view: the counter that [load_latest_data] updates at each backfill
    equals the number of items of the successful results the view
    lists. *)
Theorem merged_total_items_consistent (latest_file : App.File)
    (old_files : list App.File) (base : SnapshotDoc.t) :
  App.content latest_file = Some base ->
  SnapshotDoc.is_empty base = false ->
  List.NoDup (names (SnapshotDoc.get_results base)) ->
  SnapshotDoc.total_items base
  = Some (items_total
            (List.filter ResultDoc.success (SnapshotDoc.get_results base))) ->
  exists merged loaded,
    App.load_latest_data (latest_file :: old_files) = Ok (Some merged, loaded) /\
    SnapshotDoc.total_items merged
    = Some (items_total
              (List.filter ResultDoc.success (SnapshotDoc.get_results merged))).
Proof.
  intros Hc He Hnd Htotal.
  destruct (load_latest_shape latest_file old_files base Hc He)
    as (merged & loaded & resolved & Hload & Hm).
  exists merged, loaded. split; [exact Hload |].
  rewrite (merged_successes base merged resolved Hm Hnd), items_total_app.
  destruct Hm as (_ & _ & _ & _ & _ & _ & _ & _ & Hitems & Hnil & Hcons).
  rewrite Htotal in Hitems. cbn [SnapshotDoc.get0] in Hitems.
  destruct resolved as [| t rest].
  - rewrite (Hnil eq_refl), Htotal. f_equal. unfold items_total at 3. cbn. lia.
  - destruct (Hcons ltac:(discriminate)) as (_ & _ & Hsome).
    destruct (SnapshotDoc.total_items merged) as [z |]; [| congruence].
    cbn [SnapshotDoc.get0] in Hitems. now rewrite Hitems.
Qed.

Lemma merged_total_items_consistent_witness :
  exists merged loaded,
    App.load_latest_data Samples.store = Ok (Some merged, loaded) /\
    SnapshotDoc.total_items merged
    = Some (items_total
              (List.filter ResultDoc.success (SnapshotDoc.get_results merged))).
Proof.
  apply (merged_total_items_consistent
           (App.mkFile "collection_20251110_110000.json"
              (Some (Json.snapshot
                       (DataStorage.save_results Samples.t0 Samples.run_new))))
           (tl Samples.store)
           (Json.snapshot (DataStorage.save_results Samples.t0 Samples.run_new))).
  - reflexivity.
  - reflexivity.
  - apply NoDup_ListNoDup. apply (bool_decide_unpack _). vm_compute. exact I.
  - reflexivity.
Defined.

(** ** app.py: the item lists of the views *)

Section ViewLists.
Import App.

Lemma sort_reverse_ok {A} (key : A -> option string) (l l' : list A) :
  sort_reverse key l = Ok l' ->
  Permutation l l' /\
  Sorted (fun a b => String.leb (key_str (key b)) (key_str (key a)) = true) l'.
Proof.
  unfold sort_reverse. destruct (_ && _); [discriminate |]. intros [= <-].
  induction l as [| x l [IHp IHs]]; [split; constructor |].
  cbn [fold_right]. split.
  - rewrite <- insert_desc_perm. now constructor.
  - now apply (insert_desc_sorted (fun x => key_str (key x))).
Qed.

Lemma all_items_length (fmt : option string -> string) (data : SnapshotDoc.t) :
  len (all_items fmt data)
  = items_total (List.filter ResultDoc.success (SnapshotDoc.get_results data)).
Proof.
  unfold all_items, len.
  induction (SnapshotDoc.get_results data) as [| r l IH]; [reflexivity |].
  cbn [flat_map List.filter]. rewrite length_app, Nat2Z.inj_add, IH.
  destruct (ResultDoc.success r).
  - unfold items_total at 2. cbn [fold_right]. unfold len.
    rewrite length_map. reflexivity.
  - cbn [length]. lia.
Qed.

Lemma filtered_items_sub (fmt : option string -> string) (category : string)
    (data : SnapshotDoc.t) :
  (forall x, In x (Views.filtered_items fmt category data) ->
             In x (all_items fmt data)) /\
  (length (Views.filtered_items fmt category data)
   <= length (all_items fmt data))%nat.
Proof.
  unfold Views.filtered_items, all_items.
  induction (SnapshotDoc.get_results data) as [| r l [IHin IHlen]];
    [split; [intros x [] | cbn; lia] |].
  cbn [flat_map]. split.
  - intros x Hx. apply in_app_iff in Hx. apply in_app_iff.
    destruct Hx as [Hx | Hx]; [left | right; now apply IHin].
    destruct (ResultDoc.success r); [| destruct Hx].
    destruct (bool_decide _); [exact Hx | destruct Hx].
  - rewrite !length_app.
    destruct (ResultDoc.success r); cbn [andb length]; [| lia].
    destruct (bool_decide _); cbn [length]; lia.
Qed.

End ViewLists.

(** X17.  When no item of a successful result carries [publish_date:
    null], [api_items] returns the items of the successful results, each
    once, ordered from the latest [publish_date] string to the earliest,
    together with their number, which is the number of items of the
    successful results. *)
Theorem api_items_sorted (format_publish_date : option string -> string)
    (data : SnapshotDoc.t) :
  SnapshotDoc.is_empty data = false ->
  (forall r x, In r (SnapshotDoc.get_results data) -> ResultDoc.success r = true ->
               In x (ResultDoc.get_items r) -> ItemDoc.publish_date x <> Null) ->
  exists items,
    Views.api_items format_publish_date (Some data) = Ok (items, len items) /\
    Permutation (App.all_items format_publish_date data) items /\
    Sorted (key_ge ItemDoc.sort_key) items /\
    len items
    = items_total (List.filter ResultDoc.success (SnapshotDoc.get_results data)).
Proof.
  intros He Hdated. unfold Views.api_items, App.sorted_items. rewrite He.
  destruct (sort_reverse_dated ItemDoc.sort_key
              (App.all_items format_publish_date data))
    as (items & Hsort & Hperm & Hsorted).
  { intros x' Hx'. apply all_items_keep in Hx'.
    destruct Hx' as (r & x & Hr & Hs & Hx & Hdate & _).
    specialize (Hdated r x Hr Hs Hx). unfold ItemDoc.sort_key. rewrite Hdate.
    destruct (ItemDoc.publish_date x); congruence. }
  exists items. rewrite Hsort. cbn [bind].
  split; [reflexivity | split; [exact Hperm | split; [exact Hsorted |]]].
  rewrite <- (all_items_length format_publish_date). unfold len.
  now rewrite (Permutation_length Hperm).
Qed.

Lemma api_items_sorted_witness :
  exists items,
    Views.api_items (fun _ => "today"%string)
      (Some (Json.snapshot (DataStorage.save_results Samples.t0 Samples.run_dated)))
    = Ok (items, len items) /\
    len items = 3.
Proof.
  destruct (api_items_sorted (fun _ => "today"%string)
              (Json.snapshot (DataStorage.save_results Samples.t0 Samples.run_dated)))
    as (items & Hitems & _ & _ & Hlen).
  - reflexivity.
  - intros r x Hr Hs Hx. cbn in Hr.
    destruct Hr as [<- | [<- | [<- | []]]]; cbn in Hx.
    + destruct Hx as [<- | [<- | []]]; discriminate.
    + destruct Hx as [<- | []]; discriminate.
    + destruct Hx.
  - exists items. split; [exact Hitems | exact Hlen].
Defined.

(** X18.  Whenever [api_items] answers for a snapshot, so does
    [api_items_by_category] for every category: it returns no more items
    than [api_items], every one of them an item [api_items] returns too,
    ordered from the latest [publish_date] string to the earliest. *)
Theorem api_items_by_category_sub (format_publish_date : option string -> string)
    (category : string) (data : option SnapshotDoc.t)
    (items : list ItemDoc.t) (total : Z) :
  Views.api_items format_publish_date data = Ok (items, total) ->
  exists filtered_items,
    Views.api_items_by_category format_publish_date category data
    = Ok (filtered_items, len filtered_items) /\
    len filtered_items <= total /\
    (forall x, In x filtered_items -> In x items) /\
    Sorted (key_ge ItemDoc.sort_key) filtered_items.
Proof.
  unfold Views.api_items, Views.api_items_by_category.
  destruct data as [d |].
  2:{ intros [= <- <-]. exists [].
      split; [reflexivity | split; [unfold len; cbn; lia |]].
      split; [intros x [] | constructor]. }
  destruct (SnapshotDoc.is_empty d).
  { intros [= <- <-]. exists [].
      split; [reflexivity | split; [unfold len; cbn; lia |]].
      split; [intros x [] | constructor]. }
  unfold App.sorted_items.
  destruct (App.sort_reverse ItemDoc.sort_key (App.all_items format_publish_date d))
    as [all |] eqn:Hall; cbn [bind]; [| discriminate].
  intros [= <- <-].
  destruct (filtered_items_sub format_publish_date category d) as [Hin Hlen].
  destruct (App.sort_reverse ItemDoc.sort_key
              (Views.filtered_items format_publish_date category d))
    as [filtered | e] eqn:Hf.
  - exists filtered. cbn [bind].
    destruct (sort_reverse_ok _ _ _ Hall) as [Hpa _].
    destruct (sort_reverse_ok _ _ _ Hf) as [Hpf Hsf].
    split; [reflexivity | split; [| split; [| exact Hsf]]].
    + unfold len. rewrite <- (Permutation_length Hpa), <- (Permutation_length Hpf).
      lia.
    + intros x Hx. apply (Permutation_in _ Hpa). apply Hin.
      apply (Permutation_in _ (Permutation_sym Hpf)). exact Hx.
  - exfalso. unfold App.sort_reverse in Hall, Hf.
    destruct ((2 <=? length (Views.filtered_items format_publish_date category d))%nat
              && existsb (fun x => App.is_none (ItemDoc.sort_key x))
                   (Views.filtered_items format_publish_date category d))
      eqn:Hbad; [| discriminate].
    apply andb_true_iff in Hbad. destruct Hbad as [Hlong Hnone].
    apply Nat.leb_le in Hlong. apply existsb_exists in Hnone.
    destruct Hnone as (x & Hx & Hkey).
    assert (Hlong' : (2 <=? length (App.all_items format_publish_date d))%nat = true)
      by (apply Nat.leb_le; lia).
    assert (Hnone' : existsb (fun x => App.is_none (ItemDoc.sort_key x))
                       (App.all_items format_publish_date d) = true).
    { apply existsb_exists. exists x. split; [now apply Hin | exact Hkey]. }
    rewrite Hlong', Hnone' in Hall. discriminate.
Qed.

Lemma api_items_by_category_sub_witness :
  exists filtered_items,
    Views.api_items_by_category (fun _ => "today"%string) "Video"
      (Some (Json.snapshot (DataStorage.save_results Samples.t0 Samples.run_dated)))
    = Ok (filtered_items, len filtered_items) /\
    len filtered_items <= 3.
Proof.
  destruct (api_items_by_category_sub (fun _ => "today"%string) "Video"
              (Some (Json.snapshot
                       (DataStorage.save_results Samples.t0 Samples.run_dated)))
              _ 3 ltac:(vm_compute; reflexivity))
    as (filtered & Hf & Hlen & _).
  exists filtered. split; [exact Hf | exact Hlen].
Defined.



(** ** youtube_collector.py: the video id *)

Section VideoId.
Import YouTubeCollector.

Lemma id_chars_spec (k : nat) :
  forall s g,
    id_chars k s = Some g ->
    String.length g = k /\
    forallb is_id_char (Text.chars g) = true /\
    exists rest, s = String.append g rest.
Proof.
  induction k as [| k IH]; intros s g H.
  - cbn in H. injection H as <-. repeat split. now exists s.
  - cbn [id_chars] in H. destruct s as [| c s]; [discriminate |].
    destruct (is_id_char c) eqn:Hc; [| discriminate].
    destruct (id_chars k s) as [r |] eqn:Hr; [| discriminate].
    injection H as <-. destruct (IH s r Hr) as (Hlen & Hall & rest & ->).
    cbn [String.length Text.chars forallb]. rewrite Hc, Hall, Hlen.
    repeat split. now exists rest.
Qed.

Lemma id_chars_app (g rest : string) :
  forallb is_id_char (Text.chars g) = true ->
  id_chars (String.length g) (String.append g rest) = Some g.
Proof.
  induction g as [| c g IH]; intros H; [reflexivity |].
  cbn [Text.chars forallb] in H. apply andb_true_iff in H. destruct H as [Hc Hg].
  rewrite append_cons. cbn [String.length id_chars]. now rewrite Hc, (IH Hg).
Qed.

Lemma prefix_drop (p s : string) :
  String.prefix p s = true -> s = String.append p (drop (String.length p) s).
Proof.
  revert s. induction p as [| c p IH]; intros s H; [reflexivity |].
  destruct s as [| x s]; [discriminate |]. cbn [String.prefix] in H.
  destruct (Ascii.ascii_dec c x) as [-> | Hne]; [| discriminate].
  rewrite append_cons. cbn [String.length drop]. f_equal. now apply IH.
Qed.

Lemma after_prefix_nil (s : string) :
  after_prefix EmptyString s = id_chars 11 s.
Proof. unfold after_prefix. destruct s; reflexivity. Qed.

Lemma after_prefix_same (c : ascii) (p s : string) :
  after_prefix (String c p) (String c s) = after_prefix p s.
Proof.
  unfold after_prefix. cbn [String.prefix String.length drop].
  destruct (Ascii.ascii_dec c c); [reflexivity | congruence].
Qed.

Lemma search_cons (ps : list string) (c : ascii) (s : string) :
  search ps (String c s)
  = match match_here ps (String c s) with
    | Some g => Some g
    | None => search ps s
    end.
Proof. reflexivity. Qed.

Lemma search_skip (ps : list string) (c : ascii) (s : string) :
  match_here ps (String c s) = None -> search ps (String c s) = search ps s.
Proof. intros H. now rewrite search_cons, H. Qed.

Lemma search_tail (ps : list string) (c : ascii) (s : string) :
  search ps s <> None -> search ps (String c s) <> None.
Proof.
  intros H. rewrite search_cons. now destruct (match_here ps (String c s)).
Qed.

Lemma match_here_spec (ps : list string) (s g : string) :
  match_here ps s = Some g ->
  exists p rest,
    In p ps /\ s = String.append p (String.append g rest) /\
    String.length g = 11%nat /\ forallb is_id_char (Text.chars g) = true.
Proof.
  induction ps as [| p ps IH]; [discriminate |].
  cbn [match_here]. destruct (after_prefix p s) as [g' |] eqn:Hp.
  - intros [= ->]. unfold after_prefix in Hp.
    destruct (String.prefix p s) eqn:Hpre; [| discriminate].
    apply id_chars_spec in Hp. destruct Hp as (Hlen & Hall & rest & Hrest).
    exists p, rest. split; [now left |].
    split; [| split; assumption].
    rewrite <- Hrest. now apply prefix_drop.
  - intros H. destruct (IH H) as (p' & rest & Hin & Hs).
    exists p', rest. split; [now right | exact Hs].
Qed.

Lemma search_spec (ps : list string) (s g : string) :
  search ps s = Some g ->
  exists pre p rest,
    In p ps /\
    s = String.append pre (String.append p (String.append g rest)) /\
    String.length g = 11%nat /\ forallb is_id_char (Text.chars g) = true.
Proof.
  induction s as [| c s IH].
  - cbn [search]. destruct (match_here ps EmptyString) as [g' |] eqn:Hm;
      [| discriminate].
    intros [= ->]. apply match_here_spec in Hm.
    destruct Hm as (p & rest & Hin & Hs & Hg). exists EmptyString, p, rest. auto.
  - rewrite search_cons. destruct (match_here ps (String c s)) as [g' |] eqn:Hm.
    + intros [= ->]. apply match_here_spec in Hm.
      destruct Hm as (p & rest & Hin & Hs & Hg). exists EmptyString, p, rest. auto.
    + intros H. destruct (IH H) as (pre & p & rest & Hin & -> & Hg).
      exists (String c pre), p, rest. auto.
Qed.

(** A match of [embed/] or [watch?v=] followed by the group holds a
    match of the first pattern. *)
Lemma search_embed (s : string) :
  search ["embed/"%string] s <> None -> search ["v="; "/"]%string s <> None.
Proof.
  induction s as [| c s IH]; [cbn; congruence |].
  rewrite (search_cons ["embed/"%string]).
  destruct (match_here ["embed/"%string] (String c s)) as [g |] eqn:Hm.
  - intros _. cbn [match_here] in Hm. unfold after_prefix in Hm.
    destruct (String.prefix "embed/" (String c s)) eqn:Hpre; [| discriminate].
    rewrite (prefix_drop _ _ Hpre). cbn [String.length] in *.
    set (t := drop 6 (String c s)) in *.
    rewrite !append_cons, append_nil_l.
    do 5 (rewrite search_skip by reflexivity).
    rewrite search_cons. cbn [match_here].
    replace (after_prefix "v=" (String "/" t)) with (@None string) by reflexivity.
    rewrite after_prefix_same, after_prefix_nil.
    destruct (id_chars 11 t); [discriminate | discriminate].
  - intros H. apply search_tail. now apply IH.
Qed.

Lemma search_watch (s : string) :
  search ["watch?v="%string] s <> None -> search ["v="; "/"]%string s <> None.
Proof.
  induction s as [| c s IH]; [cbn; congruence |].
  rewrite (search_cons ["watch?v="%string]).
  destruct (match_here ["watch?v="%string] (String c s)) as [g |] eqn:Hm.
  - intros _. cbn [match_here] in Hm. unfold after_prefix in Hm.
    destruct (String.prefix "watch?v=" (String c s)) eqn:Hpre; [| discriminate].
    rewrite (prefix_drop _ _ Hpre). cbn [String.length] in *.
    set (t := drop 8 (String c s)) in *.
    rewrite !append_cons, append_nil_l.
    do 6 (rewrite search_skip by reflexivity).
    rewrite search_cons. cbn [match_here].
    rewrite !after_prefix_same, after_prefix_nil.
    destruct (id_chars 11 t); [discriminate | discriminate].
  - intros H. apply search_tail. now apply IH.
Qed.

Lemma extract_first_pattern (url : string) :
  _extract_video_id url = search ["v="; "/"]%string url.
Proof.
  unfold _extract_video_id, patterns. cbn [fold_right].
  destruct (search ["v="; "/"]%string url) eqn:H1; [reflexivity |].
  destruct (search ["embed/"%string] url) eqn:H2.
  - exfalso. apply (search_embed url); congruence.
  - destruct (search ["watch?v="%string] url) eqn:H3; [| reflexivity].
    exfalso. apply (search_watch url); congruence.
Qed.

End VideoId.

(** X20.  What [_extract_video_id] returns is always eleven characters of
    the class [[0-9A-Za-z_-]] that stand in the address right after a
    [v=] or a [/].  The second and the third pattern never decide: an
    address they match is matched by the first pattern already, so the
    result is that of the first pattern alone. *)
Theorem extract_video_id_shape (url : string) :
  YouTubeCollector._extract_video_id url
  = YouTubeCollector.search ["v="; "/"]%string url /\
  match YouTubeCollector._extract_video_id url with
  | Some video_id =>
      String.length video_id = 11%nat /\
      forallb YouTubeCollector.is_id_char (Text.chars video_id) = true /\
      exists pre sep rest,
        (sep = "v=" \/ sep = "/")%string /\
        url = String.append pre (String.append sep (String.append video_id rest))
  | None => True
  end.
Proof.
  split; [apply extract_first_pattern |].
  rewrite extract_first_pattern.
  destruct (YouTubeCollector.search ["v="; "/"]%string url) as [g |] eqn:H;
    [| exact I].
  apply search_spec in H. destruct H as (pre & p & rest & Hin & Hs & Hlen & Hall).
  split; [exact Hlen | split; [exact Hall |]].
  exists pre, p, rest. split; [| exact Hs].
  destruct Hin as [<- | [<- | []]]; auto.
Qed.

(** X21.  For the usual forms of a video address, the watch page, the
    short link and the embedded player, [_extract_video_id] returns the
    id of the video, whatever follows it. *)
Theorem extract_video_id_usual_forms (video_id rest : string) :
  String.length video_id = 11%nat ->
  forallb YouTubeCollector.is_id_char (Text.chars video_id) = true ->
  YouTubeCollector._extract_video_id
    (String.append "https://www.youtube.com/watch?v=" (String.append video_id rest))
  = Some video_id /\
  YouTubeCollector._extract_video_id
    (String.append "https://youtu.be/" (String.append video_id rest))
  = Some video_id /\
  YouTubeCollector._extract_video_id
    (String.append "https://www.youtube.com/embed/" (String.append video_id rest))
  = Some video_id.
Proof.
  intros Hlen Hall.
  pose proof (id_chars_app video_id rest Hall) as Hid. rewrite Hlen in Hid.
  set (t := String.append video_id rest) in *.
  rewrite !extract_first_pattern, !append_cons, !append_nil_l.
  split; [| split].
  - repeat (rewrite search_skip by reflexivity).
    rewrite search_cons. cbn [YouTubeCollector.match_here].
    rewrite !after_prefix_same, after_prefix_nil.
    now rewrite Hid.
  - repeat (rewrite search_skip by reflexivity).
    rewrite search_cons. cbn [YouTubeCollector.match_here].
    replace (YouTubeCollector.after_prefix "v=" (String "/" t))
      with (@None string) by reflexivity.
    rewrite after_prefix_same, after_prefix_nil.
    now rewrite Hid.
  - repeat (rewrite search_skip by reflexivity).
    rewrite search_cons. cbn [YouTubeCollector.match_here].
    replace (YouTubeCollector.after_prefix "v=" (String "/" t))
      with (@None string) by reflexivity.
    rewrite after_prefix_same, after_prefix_nil.
    now rewrite Hid.
Qed.

Lemma extract_video_id_usual_forms_witness :
  YouTubeCollector._extract_video_id
    "https://www.youtube.com/watch?v=dQw4w9WgXcQ&t=42s"
  = Some "dQw4w9WgXcQ"%string.
Proof.
  apply (extract_video_id_usual_forms "dQw4w9WgXcQ" "&t=42s").
  - reflexivity.
  - reflexivity.
Defined.

(** ** The collectors: what the items of a result carry *)

Section CollectedItems.
Variable w : World.

Lemma new_inl (a : ContentItem.args) (c : CategoryType) (x : ContentItem.t) :
  ContentItem.category a = inl c -> ContentItem.new a = Ok x ->
  x = ContentItem.with_category a c /\
  ContentItem.blank (ContentItem.title a) = false /\
  ContentItem.bad_url (ContentItem.url a) = false.
Proof.
  intros Hc Hx. unfold ContentItem.new, ContentItem.__post_init__ in Hx.
  destruct (ContentItem.blank (ContentItem.title a)); [discriminate |].
  destruct (ContentItem.bad_url (ContentItem.url a)); [discriminate |].
  destruct (ContentItem.blank (ContentItem.author_name a)); [discriminate |].
  rewrite Hc in Hx. cbn [bind] in Hx. injection Hx as <-. auto.
Qed.

Lemma survivors_forall (P : ContentItem.t -> Prop)
    (parse : Feed.Entry -> Exc (option ContentItem.t)) (entries : list Feed.Entry) :
  (forall entry x, parse entry = Ok (Some x) -> P x) ->
  Forall P (survivors parse entries).
Proof.
  intros H. unfold survivors. induction entries as [| e l IH]; [constructor |].
  cbn [flat_map]. destruct (parse e) as [[x |] | err] eqn:He; cbn [app];
    [constructor; [now apply (H e) | exact IH] | exact IH | exact IH].
Qed.

Lemma youtube_item (a : Author) (entry : Feed.Entry) (x : ContentItem.t) :
  Config.category a = VIDEO ->
  YouTubeCollector._parse_entry w (YouTubeCollector.init w a) entry = Some x ->
  item_of_author a x.
Proof.
  intros Hcat. unfold YouTubeCollector._parse_entry.
  destruct (YouTubeCollector.parse_entry_body w _ entry) as [y |] eqn:Hbody;
    [| discriminate].
  intros [= ->]. unfold YouTubeCollector.parse_entry_body in Hbody.
  destruct (match Feed.published_parsed entry with
            | Some (Some tm) => _
            | _ => _
            end) as [publish_date | e]; cbn [bind] in Hbody; [| discriminate].
  apply (new_inl _ VIDEO) in Hbody; [| reflexivity].
  destruct Hbody as (-> & Ht & Hu). unfold item_of_author. cbn.
  repeat split; [exact Ht | exact Hu | now rewrite Hcat].
Qed.

Lemma podcast_item (a : Author) (feed : Feed.t) (entry : Feed.Entry)
    (x : ContentItem.t) :
  Config.category a = PODCAST ->
  PodcastCollector._parse_entry w (PodcastCollector.init w a) entry feed
  = Ok (Some x) ->
  item_of_author a x.
Proof.
  intros Hcat. unfold PodcastCollector._parse_entry.
  destruct (negb (truthy_str (strip (Feed.get (Feed.title entry) EmptyString))));
    [discriminate |].
  destruct (negb (truthy_str (strip (Feed.get (Feed.link entry) EmptyString))));
    [discriminate |].
  match goal with
  | |- (let* item := ContentItem.new ?args in _) = _ -> _ =>
      destruct (ContentItem.new args) as [y |] eqn:Hnew; cbn [bind];
        [| discriminate]
  end.
  intros [= ->]. apply (new_inl _ PODCAST) in Hnew; [| reflexivity].
  destruct Hnew as (-> & Ht & Hu). unfold item_of_author. cbn.
  repeat split; [exact Ht | exact Hu | now rewrite Hcat].
Qed.

Lemma news_item (a : Author) (feed : Feed.t) (entry : Feed.Entry)
    (x : ContentItem.t) :
  Config.category a = NEWS ->
  NewsCollector._parse_entry w (NewsCollector.init w a) entry feed
  = Ok (Some x) ->
  item_of_author a x.
Proof.
  intros Hcat. unfold NewsCollector._parse_entry.
  destruct (negb (truthy_str (strip (Feed.get (Feed.title entry) EmptyString))));
    [discriminate |].
  destruct (negb (truthy_str (strip (Feed.get (Feed.link entry) EmptyString))));
    [discriminate |].
  match goal with
  | |- (let* item := ContentItem.new ?args in _) = _ -> _ =>
      destruct (ContentItem.new args) as [y |] eqn:Hnew; cbn [bind];
        [| discriminate]
  end.
  intros [= ->]. apply (new_inl _ NEWS) in Hnew; [| reflexivity].
  destruct Hnew as (-> & Ht & Hu). unfold item_of_author. cbn.
  repeat split; [exact Ht | exact Hu | now rewrite Hcat].
Qed.

End CollectedItems.

(** X22.  A result returned by the collector [create_collector] makes
    for an author is a result of that author: it carries the author's
    name, address and category, and so does every item in it; every item
    has a title that is not blank and an http or https address; a failed
    result holds no item. *)
Theorem collected_items_belong_to_author (w : World) (a : Author)
    (collector : CollectorManager.Collector) (max_items : Z)
    (r : CollectionResult.t) :
  CollectorManager.create_collector w a = Some collector ->
  CollectorManager.collect collector max_items = Ok r ->
  CollectionResult.author_name r = Config.name a /\
  CollectionResult.author_url r = Config.url a /\
  CollectionResult.category r = Config.category a /\
  Forall (item_of_author a) (CollectionResult.items r) /\
  (CollectionResult.success r = false -> CollectionResult.items r = []).
Proof.
  intros Hc Hr. unfold CollectorManager.create_collector in Hc.
  assert (Herror : forall msg,
             BaseCollector._create_error_result w a msg = Ok r ->
             CollectionResult.author_name r = Config.name a /\
             CollectionResult.author_url r = Config.url a /\
             CollectionResult.category r = Config.category a /\
             Forall (item_of_author a) (CollectionResult.items r) /\
             (CollectionResult.success r = false -> CollectionResult.items r = [])).
  { intros msg [= <-]. cbn. repeat split; constructor. }
  assert (Hsuccess : forall items,
             Forall (item_of_author a) items ->
             BaseCollector._create_success_result w a items = Ok r ->
             CollectionResult.author_name r = Config.name a /\
             CollectionResult.author_url r = Config.url a /\
             CollectionResult.category r = Config.category a /\
             Forall (item_of_author a) (CollectionResult.items r) /\
             (CollectionResult.success r = false -> CollectionResult.items r = [])).
  { intros items Hitems [= <-]. cbn. repeat split; [exact Hitems | discriminate]. }
  destruct (Config.category a) eqn:Hcat; injection Hc as <-;
    cbn [CollectorManager.collect] in Hr.
  - unfold PodcastCollector.collect in Hr.
    cbn [PodcastCollector.author PodcastCollector.init] in Hr.
    destruct (feedparser_parse w _) as [feed | e]; cbn [bind catch] in Hr;
      [| now apply (Herror _ Hr)].
    destruct (Feed.entries feed) as [| e0 es] eqn:He;
      [now apply (Herror _ Hr) |].
    rewrite collect_entries_survivors in Hr. cbn [app] in Hr.
    destruct (survivors _ _) as [| x items] eqn:Hs in Hr;
      [now apply (Herror _ Hr) |].
    apply (Hsuccess (x :: items)); [| exact Hr]. rewrite <- Hs.
    apply survivors_forall. intros entry y. now apply podcast_item.
  - unfold YouTubeCollector.collect in Hr.
    cbn [YouTubeCollector.author YouTubeCollector.init] in Hr.
    destruct (YouTubeCollector.falsy _); [now apply (Herror _ Hr) |].
    destruct (feedparser_parse w _) as [feed | e]; cbn [bind catch] in Hr;
      [| now apply (Herror _ Hr)].
    destruct (Feed.entries feed) as [| e0 es] eqn:He;
      [now apply (Herror _ Hr) |].
    rewrite collect_entries_survivors in Hr. cbn [app] in Hr.
    apply (Hsuccess _) in Hr; [exact Hr |].
    apply survivors_forall. intros entry y [= Hy]. now apply (youtube_item w a entry).
  - unfold NewsCollector.collect in Hr.
    cbn [NewsCollector.author NewsCollector.init] in Hr.
    destruct (feedparser_parse w _) as [feed | e]; cbn [bind catch] in Hr;
      [| now apply (Herror _ Hr)].
    destruct (Feed.entries feed) as [| e0 es] eqn:He;
      [now apply (Herror _ Hr) |].
    rewrite collect_entries_survivors in Hr. cbn [app] in Hr.
    destruct (survivors _ _) as [| x items] eqn:Hs in Hr;
      [now apply (Herror _ Hr) |].
    apply (Hsuccess (x :: items)); [| exact Hr]. rewrite <- Hs.
    apply survivors_forall. intros entry y. now apply news_item.
Qed.

Lemma collected_items_belong_to_author_witness :
  exists r,
    CollectorManager.collect
      (CollectorManager.mkCollector Samples.author_news
         (NewsCollector.collect (Samples.world (Samples.feed_of Samples.ten_entries))
            (NewsCollector.init (Samples.world (Samples.feed_of Samples.ten_entries))
               Samples.author_news))) 5
    = Ok r /\
    Forall (item_of_author Samples.author_news) (CollectionResult.items r).
Proof.
  eexists. split; [vm_compute; reflexivity |].
  refine (proj1 (proj2 (proj2 (proj2
            (collected_items_belong_to_author
               (Samples.world (Samples.feed_of Samples.ten_entries))
               Samples.author_news _ 5 _ eq_refl _))))).
  vm_compute. reflexivity.
Defined.

(** ** podcast_collector.py: the feed address *)

Section PodcastAddress.
Import PodcastFeed.

Lemma append_assoc (a b c : string) :
  String.append (String.append a b) c = String.append a (String.append b c).
Proof.
  induction a as [| x a IH]; [reflexivity |].
  rewrite !append_cons. now rewrite IH.
Qed.

Lemma rstrip_slash_cons (c : ascii) (s : string) :
  rstrip_slash (String c s)
  = match rstrip_slash s with
    | EmptyString => if Ascii.eqb c "/" then EmptyString else String c EmptyString
    | r => String c r
    end.
Proof. reflexivity. Qed.

Lemma rstrip_slash_no_slash (s a : string) :
  rstrip_slash s <> String.append a "/".
Proof.
  revert a. induction s as [| c s IH]; intros a.
  - cbn. destruct a; [discriminate |]. rewrite append_cons. discriminate.
  - rewrite rstrip_slash_cons. destruct (rstrip_slash s) as [| x r] eqn:Hr.
    + destruct (Ascii.eqb_spec c "/") as [-> | Hne].
      * destruct a; [discriminate |]. rewrite append_cons. discriminate.
      * destruct a as [| y a]; [rewrite append_nil_l; congruence |].
        rewrite append_cons. intros [= _ H].
        destruct a; [discriminate |]. rewrite append_cons in H. discriminate.
    + destruct a as [| y a]; [rewrite append_nil_l; discriminate |].
      rewrite append_cons. intros [= _ H]. exact (IH a H).
Qed.

Lemma contains_cons (sub : string) (c : ascii) (s : string) :
  NewsCollector.contains sub (String c s)
  = String.prefix sub (String c s) || NewsCollector.contains sub s.
Proof. reflexivity. Qed.

Lemma contains_append_r (sub a b : string) :
  NewsCollector.contains sub b = true ->
  NewsCollector.contains sub (String.append a b) = true.
Proof.
  intros H. induction a as [| c a IH]; [exact H |].
  rewrite append_cons, contains_cons, IH. apply orb_true_r.
Qed.

Lemma lower_append (a b : string) :
  lower (String.append a b) = String.append (lower a) (lower b).
Proof.
  induction a as [| c a IH]; [reflexivity |].
  rewrite append_cons. cbn [lower]. now rewrite append_cons, IH.
Qed.

Lemma rstrip_slash_endswith (s suffix : string) :
  Text.endswith (rstrip_slash s) (String.append suffix "/") = false.
Proof.
  apply not_true_is_false. intros H. apply endswith_split in H.
  destruct H as [a H]. rewrite <- append_assoc in H.
  exact (rstrip_slash_no_slash s _ H).
Qed.

End PodcastAddress.

(** X23.  [_get_rss_url] of the podcast collector has three outcomes:
    the address without its trailing slashes when that mentions [feed]
    or [rss] in any case, the feed of lexfridman.com for its podcast
    page, and otherwise the address without its trailing slashes
    followed by [/feed/]; the two branches that test for a trailing
    slash are never taken.  Whatever the address, the result mentions
    [feed] or [rss]. *)
Theorem podcast_rss_url_cases (author_url : string) :
  let url := PodcastFeed.rstrip_slash author_url in
  PodcastFeed._get_rss_url author_url
  = (if NewsCollector.contains "feed" (PodcastFeed.lower url)
        || NewsCollector.contains "rss" (PodcastFeed.lower url)
     then url
     else if NewsCollector.contains "lexfridman.com" url
             && Text.endswith url "/podcast"
     then "https://lexfridman.com/feed/podcast/"%string
     else String.append url "/feed/") /\
  NewsCollector.contains "feed"
    (PodcastFeed.lower (PodcastFeed._get_rss_url author_url))
  || NewsCollector.contains "rss"
       (PodcastFeed.lower (PodcastFeed._get_rss_url author_url))
  = true.
Proof.
  cbn zeta.
  assert (Hcases :
    PodcastFeed._get_rss_url author_url
    = (if NewsCollector.contains "feed"
            (PodcastFeed.lower (PodcastFeed.rstrip_slash author_url))
          || NewsCollector.contains "rss"
               (PodcastFeed.lower (PodcastFeed.rstrip_slash author_url))
       then PodcastFeed.rstrip_slash author_url
       else if NewsCollector.contains "lexfridman.com"
                 (PodcastFeed.rstrip_slash author_url)
               && Text.endswith (PodcastFeed.rstrip_slash author_url) "/podcast"
       then "https://lexfridman.com/feed/podcast/"%string
       else String.append (PodcastFeed.rstrip_slash author_url) "/feed/")).
  { unfold PodcastFeed._get_rss_url.
    destruct (_ || _); [reflexivity |].
    pose proof (rstrip_slash_endswith author_url "/podcast") as Hpodcast.
    pose proof (rstrip_slash_endswith author_url EmptyString) as Hslash.
    change (String.append "/podcast" "/") with "/podcast/"%string in Hpodcast.
    change (String.append EmptyString "/") with "/"%string in Hslash.
    rewrite Hpodcast, Hslash.
    destruct (NewsCollector.contains "lexfridman.com" _); cbn [andb];
      [| reflexivity].
    now destruct (Text.endswith _ "/podcast"). }
  split; [exact Hcases |].
  rewrite Hcases.
  destruct (NewsCollector.contains "feed" _ || NewsCollector.contains "rss" _)
    eqn:Hfeed; [exact Hfeed |].
  destruct (_ && _); [reflexivity |].
  rewrite lower_append, (contains_append_r "feed"); reflexivity.
Qed.

(** ** config_manager.py *)

Section ConfigFacts.
Import ConfigManager.

Lemma not_blank (s : string) :
  ContentItem.blank s = false -> truthy_str s = true /\ truthy_str (strip s) = true.
Proof.
  unfold ContentItem.blank. intros H. apply orb_false_iff in H.
  destruct H as [H1 H2]. apply negb_false_iff in H1, H2. auto.
Qed.

Lemma not_bad_url (u : string) :
  ContentItem.bad_url u = false ->
  truthy_str u = true /\ startswith_any u ["http://"; "https://"]%string = true.
Proof.
  unfold ContentItem.bad_url. intros H. apply orb_false_iff in H.
  destruct H as [H1 H2]. apply negb_false_iff in H1, H2. auto.
Qed.



Lemma new_author_value (n u : string) (m : CategoryType) (e : pyval) :
  ContentItem.blank n = false -> ContentItem.bad_url u = false ->
  new_author (VStr n) (VStr u) (VStr (value m)) e
  = Ok (mkAuthor n u (VCategory m) e).
Proof.
  intros Hn Hu. apply not_blank in Hn. apply not_bad_url in Hu.
  destruct Hn as [Hn1 Hn2], Hu as [Hu1 Hu2].
  unfold new_author. cbn [truthy]. rewrite Hn1, Hn2, Hu1, Hu2. cbn [negb bind].
  now rewrite CategoryType_of_value.
Qed.



Lemma load_authors_acc (entries : list pyval) :
  forall acc,
    fst (load_authors entries acc) = acc ++ fst (load_authors entries []).
Proof.
  induction entries as [| v entries IH]; intros acc; cbn [load_authors].
  - cbn. now rewrite app_nil_r.
  - destruct v; try (cbn; now rewrite app_nil_r).
    destruct (author_of_kwargs d) as [a | e].
    + rewrite (IH (acc ++ [a])), (IH ([] ++ [a])). now rewrite <- app_assoc.
    + apply IH.
Qed.


Lemma load_authors_dicts (entries : list mapping) :
  forall acc,
    load_authors (List.map VDict entries) acc
    = (acc ++ constructible entries, Ok tt).
Proof.
  induction entries as [| d entries IH]; intros acc;
    cbn [List.map load_authors constructible flat_map].
  - now rewrite app_nil_r.
  - fold (constructible entries).
    destruct (author_of_kwargs d) as [a | e]; rewrite IH; cbn [app];
      [now rewrite <- app_assoc | reflexivity].
Qed.


Lemma positive_le_zero (v : pyval) :
  positive v = true -> le_zero v = Ok false.
Proof.
  destruct v; cbn; try discriminate.
  - now intros ->.
  - intros H. apply Z.ltb_lt in H. f_equal. apply Z.leb_gt. exact H.
Qed.



Lemma to_dicts_members (l : list Author) :
  forallb has_member_category l = true ->
  exists ds,
    to_dicts l = Ok (List.map VDict ds) /\
    Forall2 (fun a d => to_dict a = Ok d) l ds.
Proof.
  induction l as [| a l IH]; intros H.
  - exists []. split; [reflexivity | constructor].
  - cbn [forallb] in H. apply andb_true_iff in H. destruct H as [Ha Hl].
    destruct (IH Hl) as (ds & Hds & Hall).
    unfold has_member_category in Ha.
    destruct (category a) as [| | | | | | m | |] eqn:Hc; try discriminate.
    eexists (_ :: ds). split.
    + cbn [to_dicts]. unfold to_dict at 1. rewrite Hc. cbn [bind].
      rewrite Hds. cbn [bind List.map]. reflexivity.
    + constructor; [| exact Hall]. unfold to_dict. now rewrite Hc.
Qed.

Lemma author_of_to_dict (a : Author) (d : mapping) :
  valid_author a = true -> to_dict a = Ok d -> author_of_kwargs d = Ok a.
Proof.
  intros Hv Hd. unfold to_dict in Hd.
  destruct (category a) as [| | | | | | m | |] eqn:Hc; try discriminate.
  injection Hd as <-.
  unfold valid_author in Hv. apply andb_true_iff in Hv. destruct Hv as [Hv _].
  apply andb_true_iff in Hv. destruct Hv as [Hn Hu].
  apply negb_true_iff in Hn, Hu.
  unfold author_of_kwargs.
  change (Dict.bind_kwargs author_fields author_required _) with (@Ok unit tt).
  cbn [bind].
  change (arg "name" VNone _) with (VStr (name a)).
  change (arg "url" VNone _) with (VStr (url a)).
  change (arg "category" VNone _) with (VStr (value m)).
  change (arg "enabled" (VBool true) _) with (enabled a).
  rewrite (new_author_value _ _ m _ Hn Hu). destruct a. cbn in *. now subst.
Qed.

Lemma constructible_saved (l : list Author) (ds : list mapping) :
  forallb valid_author l = true ->
  Forall2 (fun a d => to_dict a = Ok d) l ds ->
  constructible ds = l.
Proof.
  intros Hv Hall. induction Hall as [| a d l ds Hd Hall IH]; [reflexivity |].
  cbn [forallb] in Hv. apply andb_true_iff in Hv. destruct Hv as [Ha Hl].
  cbn [constructible flat_map]. rewrite (author_of_to_dict a d Ha Hd).
  cbn [app]. f_equal. now apply IH.
Qed.

End ConfigFacts.




(** X26.  For a configuration file that holds a list of author objects
    and no settings, [load] keeps the settings, replaces the authors by
    the entries that construct an author, in the order of the file, and
    returns [True]; an entry that does not construct is left out and
    does not make the call fail.  Only when no entry constructs does
    [load] raise ValueError, leaving the list of authors empty. *)
Theorem load_skips_invalid_entries (d : mapping) (entries : list mapping)
    (self : ConfigManager.t) :
  Dict.get "settings" d = None ->
  Dict.get "authors" d = Some (VList (List.map VDict entries)) ->
  ConfigManager.load (Some (Ok (VDict d))) self
  = (ConfigManager.mk (ConfigManager.config_path self) (constructible entries)
       (ConfigManager.settings self),
     match constructible entries with
     | [] => Raise (ValueError "配置文件中没有有效的作者")
     | _ => Ok true
     end).
Proof.
  intros Hs Ha. unfold ConfigManager.load, ConfigManager.contains,
    ConfigManager.subscript.
  rewrite Hs, Ha. cbn [bind ConfigManager.iter].
  rewrite load_authors_dicts. cbn [app ConfigManager.config_path].
  now destruct (constructible entries).
Qed.

Lemma load_skips_invalid_entries_witness :
  ConfigManager.load
    (Some (Ok (VDict [("authors"%string, VList (List.map VDict Samples.author_entries))])))
    (ConfigManager.init "config.json")
  = (ConfigManager.mk "config.json"
       [ConfigManager.mkAuthor "Lex" "https://lexfridman.com/podcast"
          (VCategory PODCAST) (VBool true);
        ConfigManager.mkAuthor "Simon" "https://simonwillison.net"
          (VCategory NEWS) (VBool false)]
       ConfigManager.default_settings,
     Ok true).
Proof.
  apply (load_skips_invalid_entries
           [("authors"%string, VList (List.map VDict Samples.author_entries))]
           Samples.author_entries (ConfigManager.init "config.json")).
  - reflexivity.
  - reflexivity.
Defined.

(** X27.  A failing [load] is not undone.  When the file has valid
    settings and no [authors] key, [load] raises ValueError after it has
    replaced the settings.  When an element of [authors] is no object,
    the handler of the loop raises AttributeError itself: [load] stops
    there, with the authors of the entries before that element in place
    of the previous list. *)
Theorem load_failure_leaves_partial_state (d : mapping) (self : ConfigManager.t) :
  (forall v s,
     Dict.get "settings" d = Some v ->
     ConfigManager.settings_of_kwargs v = Ok s ->
     Dict.get "authors" d = None ->
     ConfigManager.load (Some (Ok (VDict d))) self
     = (ConfigManager.mk (ConfigManager.config_path self)
          (ConfigManager.authors self) s,
        Raise (ValueError "配置文件缺少 'authors' 字段"))) /\
  (forall entries bad rest,
     Dict.get "settings" d = None ->
     Dict.get "authors" d = Some (VList (List.map VDict entries ++ bad :: rest)) ->
     match bad with VDict _ => False | _ => True end ->
     ConfigManager.load (Some (Ok (VDict d))) self
     = (ConfigManager.mk (ConfigManager.config_path self) (constructible entries)
          (ConfigManager.settings self),
        Raise (AttributeError "object has no attribute 'get'"))).
Proof.
  split.
  - intros v s Hs Hv Ha. unfold ConfigManager.load, ConfigManager.contains,
      ConfigManager.subscript.
    rewrite Hs, Ha. cbn [bind]. rewrite Hv. reflexivity.
  - intros entries bad rest Hs Ha Hbad.
    unfold ConfigManager.load, ConfigManager.contains, ConfigManager.subscript.
    rewrite Hs, Ha. cbn [bind ConfigManager.iter].
    assert (Hloop : forall acc,
               ConfigManager.load_authors (List.map VDict entries ++ bad :: rest) acc
               = (acc ++ constructible entries,
                  Raise (ConfigManager.no_attribute "get"))).
    { clear Ha. induction entries as [| x entries IH]; intros acc;
        cbn [List.map app ConfigManager.load_authors constructible flat_map].
      - rewrite app_nil_r. destruct bad; (reflexivity || destruct Hbad).
      - fold (constructible entries).
        destruct (ConfigManager.author_of_kwargs x); rewrite IH; cbn [app];
          [now rewrite <- app_assoc | reflexivity]. }
    rewrite Hloop. reflexivity.
Qed.

Lemma load_failure_leaves_partial_state_witness :
  ConfigManager.load
    (Some (Ok (VDict [("settings"%string,
                       VDict [("max_items_per_author"%string, VInt 5)])])))
    Samples.configured
  = (ConfigManager.mk "config.json" (ConfigManager.authors Samples.configured)
       (ConfigManager.mkSettings (VInt 60) (VInt 5)),
     Raise (ValueError "配置文件缺少 'authors' 字段")) /\
  ConfigManager.load
    (Some (Ok (VDict [("authors"%string,
                       VList (List.map VDict Samples.author_entries
                              ++ [VStr "Lex"%string]))])))
    Samples.configured
  = (ConfigManager.mk "config.json" (constructible Samples.author_entries)
       (ConfigManager.settings Samples.configured),
     Raise (AttributeError "object has no attribute 'get'")).
Proof.
  split.
  - apply (proj1 (load_failure_leaves_partial_state
                    [("settings"%string,
                      VDict [("max_items_per_author"%string, VInt 5)])]
                    Samples.configured)
             (VDict [("max_items_per_author"%string, VInt 5)])).
    + reflexivity.
    + reflexivity.
    + reflexivity.
  - apply (proj2 (load_failure_leaves_partial_state
                    [("authors"%string,
                      VList (List.map VDict Samples.author_entries
                             ++ [VStr "Lex"%string]))]
                    Samples.configured)
             Samples.author_entries (VStr "Lex"%string) []).
    + reflexivity.
    + reflexivity.
    + exact I.
Defined.

(** X28.  Reading back what [save] writes restores the configuration:
    when every author has a name that is not blank, an http or https
    address and a member of [CategoryType] as category, the settings are
    positive and there is at least one author, [save] succeeds and
    [load] of the document it writes returns [True] and sets the same
    authors, in the same order, and the same settings, whatever the
    configuration held before. *)
Theorem save_load_roundtrip (self other : ConfigManager.t) :
  valid_config self = true ->
  forallb has_member_category (ConfigManager.authors self) = true ->
  ConfigManager.authors self <> [] ->
  exists document,
    ConfigManager.save self = Ok document /\
    ConfigManager.load (Some (Ok (VDict document))) other
    = (ConfigManager.mk (ConfigManager.config_path other)
         (ConfigManager.authors self) (ConfigManager.settings self),
       Ok true).
Proof.
  intros Hvalid Hmembers Hne. unfold valid_config in Hvalid.
  apply andb_true_iff in Hvalid. destruct Hvalid as [Hauthors Hsettings].
  destruct (to_dicts_members _ Hmembers) as (ds & Hds & Hall).
  unfold ConfigManager.save. rewrite Hds. cbn [bind].
  eexists. split; [reflexivity |].
  unfold valid_settings in Hsettings. apply andb_true_iff in Hsettings.
  destruct Hsettings as [Hc Hm].
  unfold ConfigManager.load. cbn [ConfigManager.contains Dict.get String.eqb].
  change (ConfigManager.contains "settings" (VDict _)) with (@Ok bool true).
  cbn [bind].
  change (ConfigManager.subscript (VDict _) "settings")
    with (@Ok pyval
            (VDict [("check_interval_minutes"%string,
                     ConfigManager.check_interval_minutes (ConfigManager.settings self));
                    ("max_items_per_author"%string,
                     ConfigManager.max_items_per_author (ConfigManager.settings self))])).
  cbn [bind].
  assert (Hset : ConfigManager.settings_of_kwargs
                   (VDict [("check_interval_minutes"%string,
                            ConfigManager.check_interval_minutes
                              (ConfigManager.settings self));
                           ("max_items_per_author"%string,
                            ConfigManager.max_items_per_author
                              (ConfigManager.settings self))])
                 = Ok (ConfigManager.settings self)).
  { unfold ConfigManager.settings_of_kwargs.
    change (Dict.bind_kwargs ConfigManager.settings_fields [] _) with (@Ok unit tt).
    cbn [bind].
    change (ConfigManager.arg "check_interval_minutes" (VInt 60) _)
      with (ConfigManager.check_interval_minutes (ConfigManager.settings self)).
    change (ConfigManager.arg "max_items_per_author" (VInt 10) _)
      with (ConfigManager.max_items_per_author (ConfigManager.settings self)).
    unfold ConfigManager.new_settings.
    rewrite (positive_le_zero _ Hc), (positive_le_zero _ Hm). cbn [bind].
    now destruct (ConfigManager.settings self). }
  rewrite Hset.
  change (ConfigManager.contains "authors" (VDict _)) with (@Ok bool true).
  change (ConfigManager.subscript (VDict _) "authors")
    with (@Ok pyval (VList (List.map VDict ds))).
  cbn [bind ConfigManager.iter]. rewrite load_authors_dicts. cbn [app].
  rewrite (constructible_saved _ ds Hauthors Hall).
  cbn [ConfigManager.config_path].
  destruct (ConfigManager.authors self); [congruence | reflexivity].
Qed.

Lemma save_load_roundtrip_witness :
  exists document,
    ConfigManager.save Samples.configured = Ok document /\
    ConfigManager.load (Some (Ok (VDict document))) (ConfigManager.init "other.json")
    = (ConfigManager.mk "other.json" (ConfigManager.authors Samples.configured)
         (ConfigManager.settings Samples.configured),
       Ok true).
Proof.
  apply (save_load_roundtrip Samples.configured (ConfigManager.init "other.json")).
  - reflexivity.
  - reflexivity.
  - discriminate.
Defined.

(** X29.  [get_authors_by_category] returns the enabled authors of the
    category, in the order of [get_enabled_authors]; an author whose
    category is no member of [CategoryType] is in no such list.  When
    every author has a member as category, each enabled author is in
    the list of exactly one category, so that the three lists together
    are as long as [get_enabled_authors]. *)
Theorem authors_by_category (self : ConfigManager.t) :
  (forall c,
     ConfigManager.get_authors_by_category c self
     = List.filter
         (fun a => ConfigManager.category_is c (ConfigManager.category a))
         (ConfigManager.get_enabled_authors self)) /\
  (forall c a,
     In a (ConfigManager.get_authors_by_category c self)
     <-> In a (ConfigManager.get_enabled_authors self) /\
         ConfigManager.category a = VCategory c) /\
  (forallb has_member_category (ConfigManager.authors self) = true ->
   len (ConfigManager.get_authors_by_category PODCAST self)
   + len (ConfigManager.get_authors_by_category VIDEO self)
   + len (ConfigManager.get_authors_by_category NEWS self)
   = len (ConfigManager.get_enabled_authors self)).
Proof.
  assert (Heq : forall c,
     ConfigManager.get_authors_by_category c self
     = List.filter
         (fun a => ConfigManager.category_is c (ConfigManager.category a))
         (ConfigManager.get_enabled_authors self)).
  { intros c. unfold ConfigManager.get_authors_by_category,
      ConfigManager.get_enabled_authors.
    rewrite filter_filter_and. apply filter_agree. intros a _. apply andb_comm. }
  split; [exact Heq | split].
  - intros c a. rewrite Heq, filter_In. split; intros [Hin Hc]; split;
      try exact Hin.
    + unfold ConfigManager.category_is in Hc.
      destruct (ConfigManager.category a); try discriminate.
      apply String.eqb_eq, value_inj in Hc. now subst.
    + rewrite Hc. cbn. apply String.eqb_refl.
  - intros Hall. rewrite !Heq. unfold ConfigManager.get_enabled_authors.
    assert (Hmem : forallb has_member_category
                     (List.filter (fun a => ConfigManager.truthy (ConfigManager.enabled a))
                        (ConfigManager.authors self)) = true).
    { rewrite forallb_forall in *. intros a Ha. apply filter_In in Ha.
      now apply Hall. }
    induction (List.filter _ (ConfigManager.authors self)) as [| a l IH];
      [reflexivity |].
    cbn [forallb] in Hmem. apply andb_true_iff in Hmem. destruct Hmem as [Ha Hl].
    specialize (IH Hl). cbn [List.filter].
    unfold has_member_category in Ha.
    destruct (ConfigManager.category a) as [| | | | | | m | |]; try discriminate.
    unfold len in *. destruct m; cbn [ConfigManager.category_is value String.eqb
      Ascii.eqb Bool.eqb length] in *; cbn in *; lia.
Qed.
